(** * Robinhood integration: client, mapper and service, embedded in Rocq

    A shallow embedding of the TypeScript sources

    - [api/client.ts]            (class [RobinhoodClient]),
    - [api/robinhood-api.ts]     (class [RobinhoodAPI], the search by symbol),
    - [mappers/portfolio-mapper.ts] (class [PortfolioMapper]),
    - [services/robinhood-service.ts] (class [RobinhoodService]),

    together with the properties their specification states about them.

    JavaScript numbers are IEEE-754 binary64 values, so they are embedded as
    Rocq's primitive [float]s: [+], [-], [*], [/] and the comparison [=?] are
    the operations the JavaScript engine performs, NaN and the infinities
    included.  Objects built by object literals are embedded as the [value]
    trees below, so that the presence or absence of a field can be observed.
    A [Date] is kept as the expression that built it.

    Code that throws, mutates the client or talks to the network is written in
    a state-and-exception monad whose state survives a [throw]; an [await] is
    a bind, so one call runs from start to end without interleaving.  The
    network and the upstream are an arbitrary function from a request and a
    world to an outcome and a world; axios, which is not part of the
    repository, is modelled by its documented pipeline (request interceptors,
    dispatch, [validateStatus], response interceptors).  Recursion through
    the interceptors and the loop of [paginate] take fuel. *)

From Stdlib Require Import ZArith NArith List String Ascii Bool Lia.
From Stdlib Require Import Decimal DecimalFacts DecimalString.
From Stdlib Require Import Floats.
Import ListNotations.

#[local] Open Scope string_scope.
#[local] Set Warnings "-inexact-float,-register-all".

(** ** JavaScript numbers and [parseFloat] *)

Module JS.

Definition number := float.
Bind Scope float_scope with number.

(** [x !== 0] and [x === 0] on numbers: IEEE equality, so [-0 === 0] holds and
    [NaN === 0] does not. *)
Definition strict_neq (x y : number) : bool := negb (PrimFloat.eqb x y).

Definition isNaN (x : number) : bool := PrimFloat.is_nan x.
Definition isFinite (x : number) : bool :=
  negb (PrimFloat.is_nan x) && negb (PrimFloat.is_infinity x).

(** *** Reading a decimal literal

    [parseFloat] (ECMA-262, 19.2.4) skips leading white space, then reads the
    longest prefix that is a [StrDecimalLiteral]: an optional sign followed by
    [Infinity], or by digits with an optional fraction and an optional
    exponent.  Strings are byte strings here, so only the ASCII white space
    characters are skipped. *)

Definition is_space (c : ascii) : bool :=
  match nat_of_ascii c with
  | 9 | 10 | 11 | 12 | 13 | 32 => true
  | _ => false
  end.

Fixpoint trimStart (s : string) : string :=
  match s with
  | String c r => if is_space c then trimStart r else s
  | EmptyString => s
  end.

Definition take_sign (s : string) : bool * string :=
  match s with
  | String "-" r => (true, r)
  | String "+" r => (false, r)
  | _ => (false, s)
  end.

Definition digit_of_char (c : ascii) : option (uint -> uint) :=
  match c with
  | "0" => Some D0 | "1" => Some D1 | "2" => Some D2 | "3" => Some D3
  | "4" => Some D4 | "5" => Some D5 | "6" => Some D6 | "7" => Some D7
  | "8" => Some D8 | "9" => Some D9
  | _ => None
  end%char.

Definition is_digit (c : ascii) : bool :=
  match digit_of_char c with Some _ => true | None => false end.

(** The longest run of decimal digits at the head of [s], and what follows. *)
Fixpoint take_digits (s : string) : uint * string :=
  match s with
  | String c r =>
      match digit_of_char c with
      | Some d => let (ds, r') := take_digits r in (d ds, r')
      | None => (Nil, s)
      end
  | EmptyString => (Nil, s)
  end.

(** [ExponentPart]: [e] or [E], an optional sign, at least one digit.  When the
    digits are missing the exponent is not part of the literal. *)
Definition exponent_part (s : string) : Z :=
  match s with
  | String c r =>
      if (Ascii.eqb c "e" || Ascii.eqb c "E")%char then
        let (neg, r1) := take_sign r in
        match fst (take_digits r1) with
        | Nil => 0%Z
        | ds => let e := Z.of_N (N.of_uint ds) in if neg then (- e)%Z else e
        end
      else 0%Z
  | EmptyString => 0%Z
  end.

(** The binary64 value nearest to [m * 10^e] (ties to even), with the sign
    [neg]: the rounding of the Standard Library's specification of IEEE-754
    arithmetic, applied to the exact integer or to the exact quotient. *)
Definition round_decimal (neg : bool) (m : N) (e : Z) : number :=
  match m with
  | N0 => if neg then neg_zero else zero
  | Npos p =>
      SF2Prim
        (if (0 <=? e)%Z then
           binary_normalize prec emax
             (if neg then Z.neg p * 10 ^ e else Z.pos p * 10 ^ e)%Z 0%Z false
         else
           let '(q, e', l) :=
             SFdiv_core_binary prec emax (Z.pos p) 0%Z (10 ^ (- e))%Z 0%Z in
           binary_round_aux prec emax neg q e' l)
  end.

Definition starts_with (p s : string) : bool := String.prefix p s.

Definition no_digit (d : uint) : bool :=
  match d with Nil => true | _ => false end.

Definition parseFloat (input : string) : number :=
  let (neg, s1) := take_sign (trimStart input) in
  if starts_with "Infinity" s1 then (if neg then neg_infinity else infinity)
  else
    let (ip, s2) := take_digits s1 in
    let (fp, s3) :=
      match s2 with
      | String "." r => take_digits r
      | _ => (Nil, s2)
      end in
    if no_digit ip && no_digit fp then nan
    else
      round_decimal neg (N.of_uint (Decimal.app ip fp))
        (exponent_part s3 - Z.of_nat (nb_digits fp)).

(** The character ends a run of digits as a literal: it is not a digit, nor
    the point of a fraction, nor the mark of an exponent. *)
Definition ends_number (c : ascii) : bool :=
  negb (is_digit c) && negb (Ascii.eqb c ".") && negb (Ascii.eqb c "e")
  && negb (Ascii.eqb c "E").

(** A field of TypeScript type [string] that the upstream may leave out is an
    [option string]; [None] stands for [undefined] and [null]. *)
Definition field := option string.

(** The field is falsy: absent, or the empty string. *)
Definition missing (x : field) : bool :=
  match x with
  | Some s => String.eqb s ""
  | None => true
  end.

(** [x || d]: the empty string is falsy, like [undefined] and [null]. *)
Definition or_default (x : field) (d : string) : string :=
  match x with
  | Some s => if String.eqb s "" then d else s
  | None => d
  end.

(** [x || y] where [y] may itself be missing. *)
Definition or_field (x y : field) : field :=
  match x with
  | Some s => if String.eqb s "" then y else x
  | None => y
  end.

(** [ToString] of a possibly missing string, as [parseFloat(x)] performs it. *)
Definition ToString (x : field) : string :=
  match x with
  | Some s => s
  | None => "undefined"
  end.

(** [x === lit] for a string literal [lit]. *)
Definition strict_eq_str (x : field) (lit : string) : bool :=
  match x with
  | Some s => String.eqb s lit
  | None => false
  end.

(** *** Values

    The objects the mapper builds, and the JSON bodies the client receives. *)

Inductive date : Type :=
| DateOf (s : field)      (* [new Date(s)] *)
| DateNow.                (* [new Date()] *)

Inductive value : Type :=
| VUndefined
| VNull
| VBool (b : bool)
| VNum (x : number)
| VStr (s : string)
| VDate (d : date)
| VArr (xs : list value)
| VObj (fields : list (string * value)).

Definition str (x : field) : value :=
  match x with
  | Some s => VStr s
  | None => VUndefined
  end.

Definition new_Date (x : field) : value := VDate (DateOf x).

Fixpoint assoc (k : string) (fs : list (string * value)) : option value :=
  match fs with
  | (k', v) :: r => if String.eqb k k' then Some v else assoc k r
  | [] => None
  end.

(** [v.k] on a value that is not [null] or [undefined]. *)
Definition prop (k : string) (v : value) : value :=
  match v with
  | VObj fs => match assoc k fs with Some x => x | None => VUndefined end
  | _ => VUndefined
  end.

(** [k in v]: the object has the field. *)
Definition has_field (k : string) (v : value) : bool :=
  match v with
  | VObj fs => match assoc k fs with Some _ => true | None => false end
  | _ => false
  end.

(** Some object inside [v], at any depth, has a field [k]. *)
Fixpoint has_field_deep (k : string) (v : value) : bool :=
  match v with
  | VObj fs =>
      (fix fields (fs : list (string * value)) : bool :=
         match fs with
         | (k', x) :: r => String.eqb k k' || has_field_deep k x || fields r
         | [] => false
         end) fs
  | VArr xs =>
      (fix items (xs : list value) : bool :=
         match xs with
         | x :: r => has_field_deep k x || items r
         | [] => false
         end) xs
  | _ => false
  end.

(** No number inside [v], at any depth, is NaN. *)
Fixpoint NaN_free (v : value) : bool :=
  match v with
  | VNum x => negb (isNaN x)
  | VObj fs =>
      (fix fields (fs : list (string * value)) : bool :=
         match fs with
         | (_, x) :: r => NaN_free x && fields r
         | [] => true
         end) fs
  | VArr xs =>
      (fix items (xs : list value) : bool :=
         match xs with
         | x :: r => NaN_free x && items r
         | [] => true
         end) xs
  | _ => true
  end.

Definition is_date (v : value) : bool :=
  match v with VDate _ => true | _ => false end.

(** [!!v] *)
Definition truthy (v : value) : bool :=
  match v with
  | VUndefined | VNull => false
  | VBool b => b
  | VNum x => negb (PrimFloat.eqb x zero) && negb (PrimFloat.is_nan x)
  | VStr s => negb (String.eqb s "")
  | VDate _ | VArr _ | VObj _ => true
  end.

End JS.

Import JS.

(** ** Upstream records ([types/index.ts])

    Only the fields the mapper and the service read.  Every field the
    brokerage sends as a string is a [field]: the mapper guards most of them
    with [|| '0'], so a missing one must be representable.  The names are the
    source's, with the record's prefix where two records share a name. *)

Record CashBalances := {
  cash : field;
  unclearedDeposits : field;
  unsettledFunds : field
}.

Record RobinhoodAccount := {
  acc_url : field;
  acc_buyingPower : field;
  acc_cashBalances : option CashBalances;
  acc_accountNumber : field;
  acc_type : field;
  acc_created : field;
  acc_updated : field
}.

Record RobinhoodPortfolio := {
  market_value : field;
  equity : field;
  lastCoreEquity : field
}.

Record RobinhoodPosition := {
  pos_url : field;
  pos_instrument : field;
  pos_averageBuyPrice : field;
  pos_quantity : field;
  pos_updatedAt : field
}.

Record RobinhoodInstrument := {
  ins_id : field;
  ins_url : field;
  ins_market : field;
  ins_name : field;
  ins_symbol : field;
  ins_type : field
}.

Record RobinhoodQuote := {
  q_askPrice : field;
  q_askSize : option number;
  q_bidPrice : field;
  q_bidSize : option number;
  q_lastTradePrice : field;
  q_previousClose : field;
  q_symbol : field;
  q_tradingHalted : option bool;
  q_updatedAt : field
}.

Record RobinhoodOrder := {
  ord_id : field;
  ord_url : field;
  ord_instrument : field;
  ord_averagePrice : field;
  ord_fees : field;
  ord_state : field;
  ord_side : field;
  ord_price : field;
  ord_quantity : field;
  ord_created : field
}.

Record HistoricalBar := {
  beginsAt : field;
  openPrice : field;
  closePrice : field;
  highPrice : field;
  lowPrice : field;
  volume : option number
}.

Record RobinhoodHistoricals := {
  his_symbol : field;
  his_interval : field;
  historicals : list HistoricalBar
}.

Record RobinhoodWatchlist := {
  wl_url : field;
  wl_name : field;
  wl_createdAt : field;
  wl_updatedAt : field
}.

Record RobinhoodDividend := {
  div_id : field;
  div_instrument : field;
  div_amount : field;
  div_withholding : field;
  div_recordDate : field;
  div_payableDate : field;
  div_state : field
}.

(** ** Requests, responses and thrown values *)

Inductive method := GET | POST | PUT | DELETE.

(** An axios request configuration: what the client sets or reads of it.
    The URL is whatever value the caller passes (a string in every typed
    call); [cfg_Authorization] holds the token [t] of a header
    [Authorization: Bearer t]; [_retry] is the mark the response interceptor
    leaves on a configuration it has already tried to recover. *)
Record AxiosRequestConfig := {
  cfg_method : method;
  cfg_url : value;
  cfg_data : value;
  cfg_Authorization : option value;
  _retry : bool
}.

Record AxiosResponse := {
  status : Z;
  data : value
}.

(** What JavaScript code of the repository throws or rejects with. *)
Inductive exn : Type :=
| Error (message : string)
| TypeError (message : string)
| AxiosError (message : string) (config : AxiosRequestConfig)
    (response : option AxiosResponse)
| StandardizedError (code message : string) (details : option exn)
    (timestamp : date) (source : string).

(** [error.message] *)
Definition exn_message (e : exn) : string :=
  match e with
  | Error m | TypeError m | AxiosError m _ _
  | StandardizedError _ m _ _ _ => m
  end.

Inductive result (A : Type) : Type :=
| Ok (a : A)
| Throw (e : exn)
| OutOfFuel.

Arguments Ok {A} a.
Arguments Throw {A} e.
Arguments OutOfFuel {A}.

(** ** The mapper ([mappers/portfolio-mapper.ts]) *)

Module PortfolioMapper.

#[local] Open Scope float_scope.

Definition num (x : number) : value := VNum x.

Definition opt_num (x : option number) : value :=
  match x with Some n => VNum n | None => VUndefined end.

Definition opt_bool (x : option bool) : value :=
  match x with Some b => VBool b | None => VUndefined end.

(** [o?.f] *)
Definition opt_chain {A} (o : option A) (f : A -> field) : field :=
  match o with Some a => f a | None => None end.

Definition mapAccount (account : RobinhoodAccount) : value :=
  VObj [
    ("id", str (acc_url account));
    ("accountNumber", str (acc_accountNumber account));
    ("type", str (acc_type account));
    ("status", VStr "active");
    ("openedDate", new_Date (acc_created account));
    ("isPrimary", VBool true);
    ("tradingPermissions",
      VObj [ ("stocks", VBool true); ("options", VBool true);
             ("crypto", VBool true); ("forex", VBool false) ]);
    ("marginEnabled", VBool (strict_eq_str (acc_type account) "margin"));
    ("optionsLevel", num 0);
    ("dayTradeCount", num 0);
    ("metadata",
      VObj [ ("source", VStr "robinhood");
             ("url", str (acc_url account));
             ("lastUpdated", new_Date (acc_updated account)) ])
  ].

Definition mapPortfolio (account : RobinhoodAccount)
    (portfolio : RobinhoodPortfolio) (positions : list value) : value :=
  let totalValue := parseFloat (or_default (market_value portfolio) "0") in
  let equity := parseFloat (or_default (equity portfolio) "0") in
  let previousEquity := parseFloat (or_default (lastCoreEquity portfolio) "0") in
  let dayChange := (equity - previousEquity)%float in
  let dayChangePercent :=
    if strict_neq previousEquity 0 then (dayChange / previousEquity * 100)%float
    else 0%float in
  VObj [
    ("id", str (acc_accountNumber account));
    ("accountNumber", str (acc_accountNumber account));
    ("accountType",
      VStr (if strict_eq_str (acc_type account) "margin" then "margin" else "cash"));
    ("totalValue", num totalValue);
    ("cashBalance",
      num (parseFloat (or_default (opt_chain (acc_cashBalances account) cash) "0")));
    ("buyingPower", num (parseFloat (or_default (acc_buyingPower account) "0")));
    ("dayChange", num dayChange);
    ("dayChangePercent", num dayChangePercent);
    ("totalGainLoss", num 0);
    ("totalGainLossPercent", num 0);
    ("positions", VArr positions);
    ("metadata",
      VObj [ ("source", VStr "robinhood");
             ("lastUpdated", VDate DateNow);
             ("currency", VStr "USD") ])
  ].

(** [mapPosition(position, instrument, quote?)]: the instrument is a required
    parameter, the quote an optional one. *)
Definition mapPosition (position : RobinhoodPosition)
    (instrument : RobinhoodInstrument) (quote : option RobinhoodQuote) : value :=
  let quantity := parseFloat (or_default (pos_quantity position) "0") in
  let averageCost := parseFloat (or_default (pos_averageBuyPrice position) "0") in
  let currentPrice :=
    parseFloat (or_default (opt_chain quote q_lastTradePrice) "0") in
  let marketValue := (quantity * currentPrice)%float in
  let totalCost := (quantity * averageCost)%float in
  let totalGainLoss := (marketValue - totalCost)%float in
  let totalGainLossPercent :=
    if strict_neq totalCost 0 then (totalGainLoss / totalCost * 100)%float
    else 0%float in
  let previousClose :=
    parseFloat (or_default (opt_chain quote q_previousClose) "0") in
  let dayChange := (currentPrice - previousClose)%float in
  let dayChangePercent :=
    if strict_neq previousClose 0 then (dayChange / previousClose * 100)%float
    else 0%float in
  VObj [
    ("id", str (pos_url position));
    ("symbol", str (ins_symbol instrument));
    ("name", str (ins_name instrument));
    ("type", VStr (if strict_eq_str (ins_type instrument) "stock" then "stock" else "etf"));
    ("quantity", num quantity);
    ("averageCost", num averageCost);
    ("currentPrice", num currentPrice);
    ("marketValue", num marketValue);
    ("dayChange", num (dayChange * quantity)%float);
    ("dayChangePercent", num dayChangePercent);
    ("totalGainLoss", num totalGainLoss);
    ("totalGainLossPercent", num totalGainLossPercent);
    ("currency", VStr "USD");
    ("exchange", str (ins_market instrument));
    ("metadata",
      VObj [ ("instrumentId", str (ins_id instrument));
             ("instrumentUrl", str (ins_url instrument));
             ("positionUrl", str (pos_url position));
             ("lastUpdated", new_Date (pos_updatedAt position)) ])
  ].

(** The same function called without an instrument, as untyped callers (the
    test suite) do: the numbers are computed, then reading [instrument.symbol]
    throws. *)
Definition mapPosition_call (position : RobinhoodPosition)
    (instrument : option RobinhoodInstrument) (quote : option RobinhoodQuote)
    : result value :=
  match instrument with
  | Some i => Ok (mapPosition position i quote)
  | None => Throw (TypeError "Cannot read properties of undefined (reading 'symbol')")
  end.

Definition mapBalance (account : RobinhoodAccount) : value :=
  VObj [
    ("accountId", str (acc_accountNumber account));
    ("cashBalance",
      num (parseFloat (or_default (opt_chain (acc_cashBalances account) cash) "0")));
    ("unsettledCash",
      num (parseFloat (or_default (opt_chain (acc_cashBalances account) unsettledFunds) "0")));
    ("buyingPower", num (parseFloat (or_default (acc_buyingPower account) "0")));
    ("pendingDeposits",
      num (parseFloat (or_default (opt_chain (acc_cashBalances account) unclearedDeposits) "0")));
    ("pendingWithdrawals", num 0);
    ("currency", VStr "USD");
    ("lastUpdated", new_Date (acc_updated account))
  ].

Definition mapQuote (quote : RobinhoodQuote)
    (instrument : option RobinhoodInstrument) : value :=
  let price := parseFloat (or_default (q_lastTradePrice quote) "0") in
  let previousClose := parseFloat (or_default (q_previousClose quote) "0") in
  let change := (price - previousClose)%float in
  let changePercent :=
    if strict_neq previousClose 0 then (change / previousClose * 100)%float
    else 0%float in
  VObj [
    ("symbol", str (q_symbol quote));
    ("name", str (opt_chain instrument ins_name));
    ("price", num price);
    ("previousClose", num previousClose);
    ("change", num change);
    ("changePercent", num changePercent);
    ("bid", num (parseFloat (or_default (q_bidPrice quote) "0")));
    ("ask", num (parseFloat (or_default (q_askPrice quote) "0")));
    ("bidSize", opt_num (q_bidSize quote));
    ("askSize", opt_num (q_askSize quote));
    ("lastUpdated", new_Date (q_updatedAt quote));
    ("currency", VStr "USD");
    ("exchange", str (opt_chain instrument ins_market));
    ("tradingHalted", opt_bool (q_tradingHalted quote))
  ].

Definition mapOrderStatus (state : field) : string :=
  if strict_eq_str state "filled" || strict_eq_str state "executed"
  then "completed"
  else if strict_eq_str state "cancelled" || strict_eq_str state "canceled"
  then "cancelled"
  else if strict_eq_str state "failed" || strict_eq_str state "rejected"
  then "failed"
  else if strict_eq_str state "pending" || strict_eq_str state "queued"
          || strict_eq_str state "confirmed"
          || strict_eq_str state "partially_filled"
  then "pending"
  else "pending".

Definition mapTransaction (order : RobinhoodOrder)
    (instrument : option RobinhoodInstrument) : value :=
  let type := if strict_eq_str (ord_side order) "buy" then "buy" else "sell" in
  let quantity := parseFloat (or_default (ord_quantity order) "0") in
  let price :=
    parseFloat
      (or_default (or_field (ord_averagePrice order) (ord_price order)) "0") in
  let amount := (quantity * price)%float in
  VObj [
    ("id", str (ord_id order));
    ("type", VStr type);
    ("symbol", str (opt_chain instrument ins_symbol));
    ("name", str (opt_chain instrument ins_name));
    ("quantity", num quantity);
    ("price", num price);
    ("amount", num amount);
    ("fee", num (parseFloat (or_default (ord_fees order) "0")));
    ("date", new_Date (ord_created order));
    ("status", VStr (mapOrderStatus (ord_state order)));
    ("currency", VStr "USD");
    ("metadata",
      VObj [ ("orderId", str (ord_id order));
             ("orderUrl", str (ord_url order));
             ("source", VStr "robinhood") ])
  ].

Definition mapInterval (interval : field) : string :=
  if strict_eq_str interval "5minute" || strict_eq_str interval "10minute"
     || strict_eq_str interval "15minute" || strict_eq_str interval "30minute"
  then "minute"
  else if strict_eq_str interval "hour" then "hour"
  else if strict_eq_str interval "day" then "day"
  else if strict_eq_str interval "week" then "week"
  else if strict_eq_str interval "month" then "month"
  else "day".

Definition mapHistoricalPoint (point : HistoricalBar) : value :=
  VObj [
    ("timestamp", new_Date (beginsAt point));
    ("open", num (parseFloat (ToString (openPrice point))));
    ("high", num (parseFloat (ToString (highPrice point))));
    ("low", num (parseFloat (ToString (lowPrice point))));
    ("close", num (parseFloat (ToString (closePrice point))));
    ("volume", opt_num (volume point))
  ].

Definition mapHistoricalData (h : RobinhoodHistoricals) : value :=
  let data := map mapHistoricalPoint (historicals h) in
  let interval := mapInterval (his_interval h) in
  VObj [
    ("symbol", str (his_symbol h));
    ("interval", VStr interval);
    ("data", VArr data);
    ("metadata",
      VObj [ ("source", VStr "robinhood");
             ("startDate",
               match data with
               | first :: _ => prop "timestamp" first
               | [] => VDate DateNow
               end);
             ("endDate",
               match data with
               | _ :: _ => prop "timestamp" (last data VUndefined)
               | [] => VDate DateNow
               end);
             ("currency", VStr "USD") ])
  ].

Definition mapWatchlist (watchlist : RobinhoodWatchlist)
    (symbols : list string) : value :=
  VObj [
    ("id", str (wl_url watchlist));
    ("name", str (wl_name watchlist));
    ("symbols", VArr (map VStr symbols));
    ("createdAt", new_Date (wl_createdAt watchlist));
    ("updatedAt", new_Date (wl_updatedAt watchlist));
    ("metadata",
      VObj [ ("source", VStr "robinhood");
             ("url", str (wl_url watchlist)) ])
  ].

Definition mapDividend (dividend : RobinhoodDividend)
    (instrument : option RobinhoodInstrument) : value :=
  VObj [
    ("id", str (div_id dividend));
    ("symbol", VStr (or_default (opt_chain instrument ins_symbol) ""));
    ("amount", num (parseFloat (ToString (div_amount dividend))));
    ("paymentDate", new_Date (div_payableDate dividend));
    ("exDividendDate", new_Date (div_recordDate dividend));
    ("recordDate", new_Date (div_recordDate dividend));
    ("status", VStr (if strict_eq_str (div_state dividend) "paid" then "paid" else "pending"));
    ("currency", VStr "USD");
    ("metadata",
      VObj [ ("source", VStr "robinhood");
             ("dividendId", str (div_id dividend));
             ("withholding",
               num (parseFloat (or_default (div_withholding dividend) "0"))) ])
  ].

End PortfolioMapper.

(** ** A monad for code that throws and mutates

    [M S A] is a computation over a state [S]; unlike a state transformer over
    an error monad, the state reached when an exception is thrown is kept, as
    in JavaScript.  [OutOfFuel] is not an exception: no [catch] sees it. *)

Definition M (S A : Type) : Type := S -> result A * S.

Definition ret {S A} (a : A) : M S A := fun s => (Ok a, s).

Definition bind {S A B} (m : M S A) (k : A -> M S B) : M S B :=
  fun s =>
    match m s with
    | (Ok a, s') => k a s'
    | (Throw e, s') => (Throw e, s')
    | (OutOfFuel, s') => (OutOfFuel, s')
    end.

Definition throw {S A} (e : exn) : M S A := fun s => (Throw e, s).

Definition out_of_fuel {S A} : M S A := fun s => (OutOfFuel, s).

(** [try { m } catch (e) { h e }] *)
Definition try_catch {S A} (m : M S A) (h : exn -> M S A) : M S A :=
  fun s =>
    match m s with
    | (Throw e, s') => h e s'
    | r => r
    end.

Definition gets {S A} (f : S -> A) : M S A := fun s => (Ok (f s), s).

Definition modify {S} (f : S -> S) : M S unit := fun s => (Ok tt, f s).

Declare Scope monad_scope.
Delimit Scope monad_scope with monad.
Notation "x <- m ;; k" := (bind m (fun x => k))
  (at level 61, m at next level, right associativity) : monad_scope.
Notation "m ;; k" := (bind m (fun _ => k))
  (at level 61, right associativity) : monad_scope.

(** ** The client ([api/client.ts]) *)

Record RobinhoodConfig := {
  config_accessToken : field;
  config_clientId : field
}.

Record RobinhoodCredentials := {
  username : string;
  password : string;
  mfaCode : field;
  deviceToken : field
}.

(** Everything mutable a call can touch: the client's token set, the world
    behind the network, and two records kept for the statements below, the
    requests put on the wire (oldest first) and what was written with
    [console.error]. *)
Record state (World : Type) := {
  authTokens : value;
  world : World;
  sent : list AxiosRequestConfig;
  console : list (string * exn)
}.

Arguments authTokens {World} _.
Arguments world {World} _.
Arguments sent {World} _.
Arguments console {World} _.

Module RobinhoodClient.

#[local] Open Scope monad_scope.

(** [v?.k] *)
Definition opt_prop (k : string) (v : value) : value :=
  match v with
  | VUndefined | VNull => VUndefined
  | _ => prop k v
  end.

(** [a || b] on values *)
Definition or_value (a b : value) : value := if truthy a then a else b.

(** [setAuthToken(accessToken)] builds a token set with an empty refresh
    token. *)
Definition token_set_of (accessToken : string) : value :=
  VObj [ ("accessToken", VStr accessToken);
         ("refreshToken", VStr "");
         ("expiresIn", VNum 86400%float);
         ("tokenType", VStr "Bearer");
         ("scope", VStr "internal") ].

(** The iteration [...v] of a spread argument: arrays and strings are
    iterable (a string gives its characters, here its bytes), anything else
    throws. *)
Definition spread (v : value) : option (list value) :=
  match v with
  | VArr xs => Some xs
  | VStr s => Some (map (fun c => VStr (String c EmptyString)) (list_ascii_of_string s))
  | _ => None
  end.

Definition isArray (v : value) : bool :=
  match v with VArr _ => true | _ => false end.

Definition chars : string := "abcdefghijklmnopqrstuvwxyz0123456789".

(** [s.charAt(i)] *)
Definition charAt (s : string) (i : nat) : string :=
  match String.get i s with
  | Some c => String c EmptyString
  | None => EmptyString
  end.

Section WithTransport.

Variable World : Type.

(** The network and the upstream behind it: a request gets a response, or
    fails without one (with axios' message), and the world moves on. *)
Variable send : AxiosRequestConfig -> World -> (AxiosResponse + string) * World.

(** [Math.floor(Math.random() * chars.length)] *)
Variable random_index : World -> nat * World.

Variable config : RobinhoodConfig.

Definition set_authTokens (t : value) : M (state World) unit :=
  modify (fun s =>
    {| authTokens := t; world := world s; sent := sent s; console := console s |}).

(** The constructor: a configured access token is installed with
    [setAuthToken]. *)
Definition new_client (w : World) : state World :=
  {| authTokens :=
       match config_accessToken config with
       | Some t => if String.eqb t "" then VUndefined else token_set_of t
       | None => VUndefined
       end;
     world := w; sent := []; console := [] |}.

Definition setAuthToken (accessToken : string) : M (state World) unit :=
  set_authTokens (token_set_of accessToken).

Definition isAuthenticated (s : state World) : bool :=
  truthy (opt_prop "accessToken" (authTokens s)).

Definition getAuthTokens (s : state World) : value := authTokens s.

(** The request interceptor: a truthy access token [t] is sent as
    [Authorization: Bearer t]; without one the configuration is left as it
    is. *)
Definition authorize (tokens : value) (cfg : AxiosRequestConfig)
    : AxiosRequestConfig :=
  let t := opt_prop "accessToken" tokens in
  if truthy t then
    {| cfg_method := cfg_method cfg; cfg_url := cfg_url cfg;
       cfg_data := cfg_data cfg; cfg_Authorization := Some t;
       _retry := _retry cfg |}
  else cfg.

Definition request_interceptor (cfg : AxiosRequestConfig)
    : M (state World) AxiosRequestConfig :=
  tokens <- gets authTokens ;;
  ret (authorize tokens cfg).

(** Putting a request on the wire. *)
Definition dispatch (cfg : AxiosRequestConfig)
    : M (state World) (AxiosResponse + string) :=
  fun s =>
    let (r, w) := send cfg (world s) in
    (Ok r, {| authTokens := authTokens s; world := w;
              sent := (sent s ++ [cfg])%list; console := console s |}).

(** axios' default [validateStatus] *)
Definition validateStatus (st : Z) : bool := ((200 <=? st) && (st <? 300))%Z.

(** The message of the error axios rejects with for a status it does not
    accept. *)
Definition status_message (st : Z) : string :=
  "Request failed with status code " ++ NilZero.string_of_int (Z.to_int st).

Definition mark_retry (cfg : AxiosRequestConfig) : AxiosRequestConfig :=
  {| cfg_method := cfg_method cfg; cfg_url := cfg_url cfg;
     cfg_data := cfg_data cfg; cfg_Authorization := cfg_Authorization cfg;
     _retry := true |}.

Definition request_config (m : method) (url body : value) : AxiosRequestConfig :=
  {| cfg_method := m; cfg_url := url; cfg_data := body;
     cfg_Authorization := None; _retry := false |}.

Definition client_id : string :=
  or_default (config_clientId config) "c82SH0WZOsabOXGP2sxqcj34FxkvfnWRZBKlBjFS".

(** The request of [refreshAccessToken] for the token set [tokens]. *)
Definition refresh_request (tokens : value) : AxiosRequestConfig :=
  request_config POST (VStr "/oauth/token/")
    (VObj [ ("grant_type", VStr "refresh_token");
            ("refresh_token", prop "refreshToken" tokens);
            ("scope", VStr "internal");
            ("client_id", VStr client_id) ]).

(** [refreshAccessToken], over the function [axios] that sends a request
    through the instance. *)
Definition refreshAccessToken_with
    (axios : AxiosRequestConfig -> M (state World) AxiosResponse)
    : M (state World) value :=
  tokens <- gets authTokens ;;
  if negb (truthy (opt_prop "refreshToken" tokens)) then
    throw (Error "No refresh token available")
  else
    response <- axios (refresh_request tokens) ;;
    set_authTokens (data response) ;;
    gets authTokens.

(** The response interceptor's rejection handler.  [error.config] is the
    configuration object of the failed request, so marking it is visible in
    the error that is rejected.  The re-issued request is returned, not
    awaited, inside the [try]: its failure is not caught there. *)
Definition response_rejected
    (axios : AxiosRequestConfig -> M (state World) AxiosResponse)
    (error : exn) : M (state World) AxiosResponse :=
  match error with
  | AxiosError msg originalRequest response =>
      let is401 :=
        match response with
        | Some r => (status r =? 401)%Z
        | None => false
        end in
      if is401 && negb (_retry originalRequest) then
        let originalRequest := mark_retry originalRequest in
        tokens <- gets authTokens ;;
        if truthy (opt_prop "refreshToken" tokens) then
          try_catch
            (refreshAccessToken_with axios ;; ret tt)
            (fun refreshError =>
               set_authTokens VUndefined ;; throw refreshError) ;;
          axios originalRequest
        else throw (AxiosError msg originalRequest response)
      else throw error
  | _ => throw error
  end.

(** The outcome of a request is accepted: a response whose status passes
    [validateStatus]. *)
Definition accepted (outcome : AxiosResponse + string) : bool :=
  match outcome with
  | inl r => validateStatus (status r)
  | inr _ => false
  end.

(** The error axios rejects with for an outcome that is not accepted. *)
Definition rejection (cfg : AxiosRequestConfig) (outcome : AxiosResponse + string)
    : exn :=
  match outcome with
  | inl r => AxiosError (status_message (status r)) cfg (Some r)
  | inr msg => AxiosError msg cfg None
  end.

(** A request through the axios instance: the request interceptor, the wire,
    then the response interceptors.  The rejection handler sends requests
    through the same instance, hence the fuel. *)
Fixpoint axios (fuel : nat) (cfg : AxiosRequestConfig)
    : M (state World) AxiosResponse :=
  match fuel with
  | O => out_of_fuel
  | S fuel' =>
      cfg' <- request_interceptor cfg ;;
      outcome <- dispatch cfg' ;;
      match outcome with
      | inl response =>
          if validateStatus (status response) then ret response
          else response_rejected (axios fuel') (rejection cfg' outcome)
      | inr msg => response_rejected (axios fuel') (rejection cfg' outcome)
      end
  end.

Definition refreshAccessToken (fuel : nat) : M (state World) value :=
  refreshAccessToken_with (axios fuel).

(** [generateDeviceToken]: forty characters drawn from [chars]. *)
Fixpoint generate_chars (n : nat) (token : string) (w : World) : string * World :=
  match n with
  | O => (token, w)
  | S n' =>
      let (i, w') := random_index w in
      generate_chars n' (token ++ charAt chars i) w'
  end.

Definition generateDeviceToken (w : World) : string * World :=
  generate_chars 40 "" w.

(** [credentials.deviceToken || this.generateDeviceToken()] *)
Definition device_token_for (credentials : RobinhoodCredentials) (w : World)
    : string * World :=
  match deviceToken credentials with
  | Some d => if String.eqb d "" then generateDeviceToken w else (d, w)
  | None => generateDeviceToken w
  end.

Definition device_token (credentials : RobinhoodCredentials)
    : M (state World) string :=
  fun s =>
    let (token, w) := device_token_for credentials (world s) in
    (Ok token, {| authTokens := authTokens s; world := w;
                  sent := sent s; console := console s |}).

(** The body of the authentication request. *)
Definition login_request (credentials : RobinhoodCredentials)
    (device_token : string) : AxiosRequestConfig :=
  request_config POST (VStr "/api-token-auth/")
    (VObj [ ("username", VStr (username credentials));
            ("password", VStr (password credentials));
            ("device_token", VStr device_token);
            ("expires_in", VNum 86400%float);
            ("scope", VStr "internal");
            ("challenge_type", VStr "sms");
            ("mfa_code", str (mfaCode credentials)) ]).

Definition isAxiosError (e : exn) : bool :=
  match e with AxiosError _ _ _ => true | _ => false end.

Definition response_status_is (e : exn) (st : Z) : bool :=
  match e with
  | AxiosError _ _ (Some r) => (status r =? st)%Z
  | _ => false
  end.

Definition authenticate (fuel : nat) (credentials : RobinhoodCredentials)
    : M (state World) value :=
  try_catch
    (token <- device_token credentials ;;
     response <- axios fuel (login_request credentials token) ;;
     set_authTokens (data response) ;;
     gets authTokens)
    (fun error =>
       if isAxiosError error && response_status_is error 400 then
         match error with
         | AxiosError _ _ (Some r) =>
             match data r with
             | VUndefined | VNull =>
                 throw (TypeError "Cannot read properties of null (reading 'mfa_required')")
             | d => if truthy (prop "mfa_required" d)
                    then throw (Error "MFA_REQUIRED")
                    else throw error
             end
         | _ => throw error
         end
       else throw error).

Definition get (fuel : nat) (url : value) : M (state World) value :=
  response <- axios fuel (request_config GET url VUndefined) ;;
  ret (data response).

Definition post (fuel : nat) (url body : value) : M (state World) value :=
  response <- axios fuel (request_config POST url body) ;;
  ret (data response).

Definition put (fuel : nat) (url body : value) : M (state World) value :=
  response <- axios fuel (request_config PUT url body) ;;
  ret (data response).

Definition delete (fuel : nat) (url : value) : M (state World) value :=
  response <- axios fuel (request_config DELETE url VUndefined) ;;
  ret (data response).

(** One turn of the [while (nextUrl)] loop of [paginate]: what is pushed on
    [results] for a response, or the TypeError of reading [results] of
    [null] or of spreading what is not iterable. *)
Definition page_items (response : value) : exn + list value :=
  match response with
  | VUndefined | VNull =>
      inl (TypeError "Cannot read properties of null (reading 'results')")
  | _ =>
      if truthy (prop "results" response) then
        match spread (prop "results" response) with
        | Some xs => inr xs
        | None => inl (TypeError "response.results is not iterable")
        end
      else if isArray response then
        match spread response with
        | Some xs => inr xs
        | None => inl (TypeError "response is not iterable")
        end
      else inr [response]
  end.

Definition push_page (results : list value) (response : value)
    : M (state World) (list value) :=
  match page_items response with
  | inr xs => ret (results ++ xs)%list
  | inl e => throw e
  end.

Fixpoint paginate_loop (fuel : nat) (turns : nat) (results : list value)
    (nextUrl : value) : M (state World) (list value) :=
  if truthy nextUrl then
    match turns with
    | O => out_of_fuel
    | S turns' =>
        response <- get fuel nextUrl ;;
        results' <- push_page results response ;;
        paginate_loop fuel turns' results' (or_value (prop "next" response) VNull)
    end
  else ret results.

Definition paginate (fuel : nat) (url : string) : M (state World) (list value) :=
  paginate_loop fuel fuel [] (VStr url).

(** *** Upstream behaviours the statements speak of *)

(** The state after one more request [cfg] went out and the world became
    [w]. *)
Definition after_request (s : state World) (cfg : AxiosRequestConfig)
    (w : World) : state World :=
  {| authTokens := authTokens s; world := w;
     sent := (sent s ++ [cfg])%list; console := console s |}.

(** From the world [w], a client holding [tokens] that asks for [url] is
    served the pages [bodies] one after the other, each with an accepted
    status: every page but the last carries a truthy [next], which is the
    address of the following page, and the last one does not. *)
Inductive Served (tokens : value) : World -> value -> list value -> World -> Prop :=
| Served_last (w : World) (url : value) (st : Z) (body : value) (w' : World) :
    truthy url = true ->
    send (authorize tokens (request_config GET url VUndefined)) w
      = (inl {| status := st; data := body |}, w') ->
    validateStatus st = true ->
    truthy (prop "next" body) = false ->
    Served tokens w url [body] w'
| Served_next (w : World) (url : value) (st : Z) (body : value) (w1 : World)
    (bodies : list value) (w' : World) :
    truthy url = true ->
    send (authorize tokens (request_config GET url VUndefined)) w
      = (inl {| status := st; data := body |}, w1) ->
    validateStatus st = true ->
    truthy (prop "next" body) = true ->
    Served tokens w1 (prop "next" body) bodies w' ->
    Served tokens w url (body :: bodies) w'.

(** The addresses asked for when the pages [bodies] are served from [url]. *)
Fixpoint requested_urls (url : value) (bodies : list value) : list value :=
  match bodies with
  | [] => []
  | body :: rest => url :: requested_urls (prop "next" body) rest
  end.

(** The [results] list of an envelope. *)
Definition results_of (body : value) : list value :=
  match prop "results" body with
  | VArr xs => xs
  | _ => []
  end.

(** The outcome is a response with status 401. *)
Definition is_401 (outcome : AxiosResponse + string) : bool :=
  match outcome with
  | inl r => (status r =? 401)%Z
  | inr _ => false
  end.

(** The request is the refresh request of [refreshAccessToken]. *)
Definition is_refresh_request (cfg : AxiosRequestConfig) : bool :=
  match cfg_method cfg, cfg_url cfg with
  | POST, VStr u => String.eqb u "/oauth/token/"
  | _, _ => false
  end.

(** The request is a GET. *)
Definition is_get (cfg : AxiosRequestConfig) : bool :=
  match cfg_method cfg with GET => true | _ => false end.

(** [c] asks for what [cfg] asks for: the same method, address and body.  The
    interceptors touch the [Authorization] header and the retry mark only. *)
Definition same_request (cfg c : AxiosRequestConfig) : Prop :=
  cfg_method c = cfg_method cfg /\ cfg_url c = cfg_url cfg /\
  cfg_data c = cfg_data cfg.

(** [grown P s s']: the requests on the wire in [s'] are those of [s] followed
    by requests that all satisfy [P]. *)
Definition grown (P : AxiosRequestConfig -> Prop) (s s' : state World) : Prop :=
  exists l, sent s' = (sent s ++ l)%list /\ Forall P l.

(** From the world [w], a client holding [tokens] that asks for [url] is
    served the pages [bodies], each with an accepted status and a truthy
    [next], and then the request [cfg] for the page after them fails with
    [outcome], which is not a 401. *)
Inductive Refused (tokens : value)
  : World -> value -> list value -> AxiosRequestConfig ->
    (AxiosResponse + string) -> World -> Prop :=
| Refused_now (w : World) (url : value) (outcome : AxiosResponse + string)
    (w' : World) :
    truthy url = true ->
    send (authorize tokens (request_config GET url VUndefined)) w = (outcome, w') ->
    accepted outcome = false ->
    is_401 outcome = false ->
    Refused tokens w url [] (authorize tokens (request_config GET url VUndefined))
      outcome w'
| Refused_later (w : World) (url : value) (st : Z) (body : value) (w1 : World)
    (bodies : list value) (cfg : AxiosRequestConfig)
    (outcome : AxiosResponse + string) (w' : World) :
    truthy url = true ->
    send (authorize tokens (request_config GET url VUndefined)) w
      = (inl {| status := st; data := body |}, w1) ->
    validateStatus st = true ->
    truthy (prop "next" body) = true ->
    Refused tokens w1 (prop "next" body) bodies cfg outcome w' ->
    Refused tokens w url (body :: bodies) cfg outcome w'.

End WithTransport.

Arguments axios {World} send config fuel cfg _.
Arguments refreshAccessToken {World} send config fuel _.
Arguments authenticate {World} send random_index config fuel credentials _.
Arguments get {World} send config fuel url _.
Arguments paginate {World} send config fuel url _.
Arguments paginate_loop {World} send config fuel turns results nextUrl _.
Arguments isAuthenticated {World} s.
Arguments after_request {World} s cfg w.
Arguments Served {World} send tokens _ _ _ _.
Arguments device_token_for {World} random_index credentials w.
Arguments post {World} send config fuel url body _.
Arguments put {World} send config fuel url body _.
Arguments delete {World} send config fuel url _.
Arguments setAuthToken {World} accessToken _.
Arguments getAuthTokens {World} s.
Arguments new_client {World} config w.
Arguments generateDeviceToken {World} random_index w.
Arguments grown {World} P s s'.
Arguments Refused {World} send tokens _ _ _ _ _ _.

(** What a request and its recoveries may put on the wire: the request
    itself, or a refresh of the token; for a read, a GET or a refresh. *)
Definition own_or_refresh (cfg c : AxiosRequestConfig) : Prop :=
  same_request cfg c \/ is_refresh_request c = true.

Definition get_or_refresh (c : AxiosRequestConfig) : Prop :=
  is_get c = true \/ is_refresh_request c = true.

(** *** The configuration the constructor keeps

    [{ baseUrl: config.baseUrl || 'https://api.robinhood.com', timeout:
    config.timeout || 30000, retryAttempts: config.retryAttempts || 3,
    retryDelay: config.retryDelay || 1000, ...config }]: an object literal
    with the four defaults, over which every own property of [config] is then
    written.  The configuration is the object the caller passes, with the
    properties in the order they were written. *)

(** [o[k] = v] on the properties of an object: an existing property keeps its
    place. *)
Fixpoint set_prop (k : string) (v : value) (fs : list (string * value))
    : list (string * value) :=
  match fs with
  | (k', v') :: r =>
      if String.eqb k k' then (k', v) :: r else (k', v') :: set_prop k v r
  | [] => [(k, v)]
  end.

(** [{ ...target, ...source }] *)
Definition object_spread (target source : list (string * value))
    : list (string * value) :=
  fold_left (fun acc kv => set_prop (fst kv) (snd kv) acc) source target.

Definition constructor_config (config : list (string * value)) : value :=
  VObj (object_spread
    [ ("baseUrl",
        or_value (prop "baseUrl" (VObj config)) (VStr "https://api.robinhood.com"));
      ("timeout", or_value (prop "timeout" (VObj config)) (VNum 30000%float));
      ("retryAttempts", or_value (prop "retryAttempts" (VObj config)) (VNum 3%float));
      ("retryDelay", or_value (prop "retryDelay" (VObj config)) (VNum 1000%float)) ]
    config).

(** What the constructor hands to [axios.create]. *)
Definition axios_create_options (config : list (string * value)) : value :=
  VObj [ ("baseURL", prop "baseUrl" (constructor_config config));
         ("timeout", prop "timeout" (constructor_config config));
         ("headers",
           VObj [ ("Accept", VStr "application/json");
                  ("Content-Type", VStr "application/json");
                  ("User-Agent",
                    VStr "Mozilla/5.0 (Windows NT 10.0; Win64; x64) AppleWebKit/537.36") ]) ].

End RobinhoodClient.

(** ** The endpoints ([api/endpoints.ts]) and the endpoint layer
    ([api/robinhood-api.ts])

    The search of an instrument by its symbol, the one method of the endpoint
    layer the service uses that does more than hand an address to the client.
    [client.get<T>] is typed by its caller: it is a parameter below, at the
    type this caller gives it. *)

Module ENDPOINTS.

Module INSTRUMENTS.
Definition BY_SYMBOL (symbol : string) : string := "/instruments/?symbol=" ++ symbol.
End INSTRUMENTS.

End ENDPOINTS.

(** [ApiResponse<T>] ([types/index.ts]) *)
Record ApiResponse (T : Type) := {
  resp_results : option (list T);
  resp_next : field;
  resp_previous : field;
  resp_count : option number
}.

Arguments resp_results {T} _.
Arguments resp_next {T} _.
Arguments resp_previous {T} _.
Arguments resp_count {T} _.

Module RobinhoodAPI.

#[local] Open Scope monad_scope.

Section WithClient.

Variable World : Type.

(** [this.client.get<ApiResponse<RobinhoodInstrument>>] *)
Variable get_instruments :
  string -> M (state World) (ApiResponse RobinhoodInstrument).

Definition getInstrumentBySymbol (symbol : string)
    : M (state World) RobinhoodInstrument :=
  response <- get_instruments (ENDPOINTS.INSTRUMENTS.BY_SYMBOL symbol) ;;
  match resp_results response with
  | Some (first :: _) => ret first
  | _ => throw (Error ("Instrument not found for symbol: " ++ symbol))
  end.

End WithClient.

Arguments getInstrumentBySymbol {World} get_instruments symbol _.

End RobinhoodAPI.

(** ** The service ([services/robinhood-service.ts]) *)

(** The raw endpoint layer ([api/robinhood-api.ts]) as the service sees it:
    one operation per endpoint, each of which may throw and acts on the
    client and the world. *)
Record RobinhoodAPI (World : Type) := {
  api_getAccounts : M (state World) (list RobinhoodAccount);
  api_getPortfolio : field -> M (state World) RobinhoodPortfolio;
  api_getPositions : bool -> M (state World) (list RobinhoodPosition);
  api_getInstrumentFromUrl : field -> M (state World) RobinhoodInstrument;
  api_getQuote : field -> M (state World) RobinhoodQuote;
  api_getOrders : field -> M (state World) (list RobinhoodOrder);
  api_getDividends : M (state World) (list RobinhoodDividend)
}.

Arguments api_getAccounts {World} _.
Arguments api_getPortfolio {World} _ _.
Arguments api_getPositions {World} _ _.
Arguments api_getInstrumentFromUrl {World} _ _.
Arguments api_getQuote {World} _ _.
Arguments api_getOrders {World} _ _.
Arguments api_getDividends {World} _.

Module RobinhoodService.

#[local] Open Scope monad_scope.

(** [array.slice(0, end)] for an integer [end]: a negative [end] counts from
    the end of the array. *)
Definition slice0 {A} (l : list A) (end_ : Z) : list A :=
  if (end_ <? 0)%Z then firstn (Z.to_nat (Z.of_nat (List.length l) + end_)) l
  else firstn (Z.to_nat end_) l.

Section WithAPI.

Variable World : Type.
Variable send : AxiosRequestConfig -> World -> (AxiosResponse + string) * World.
Variable random_index : World -> nat * World.
Variable config : RobinhoodConfig.
Variable api : RobinhoodAPI World.

Definition createStandardizedError (code message : string)
    (details : option exn) : exn :=
  StandardizedError code message details DateNow "robinhood".

(** [console.error(label, error)] *)
Definition console_error (label : string) (error : exn) : M (state World) unit :=
  modify (fun s =>
    {| authTokens := authTokens s; world := world s; sent := sent s;
       console := (console s ++ [(label, error)])%list |}).

Definition authenticate (fuel : nat) (credentials : RobinhoodCredentials)
    : M (state World) unit :=
  try_catch
    (RobinhoodClient.authenticate send random_index config fuel credentials ;;
     ret tt)
    (fun error =>
       if String.eqb (exn_message error) "MFA_REQUIRED" then
         throw (createStandardizedError "MFA_REQUIRED"
                  "Multi-factor authentication required" None)
       else
         throw (createStandardizedError "AUTH_FAILED"
                  "Authentication failed" (Some error))).

Definition refreshToken (fuel : nat) : M (state World) unit :=
  try_catch
    (RobinhoodClient.refreshAccessToken send config fuel ;; ret tt)
    (fun error =>
       throw (createStandardizedError "TOKEN_REFRESH_FAILED"
                "Failed to refresh access token" (Some error))).

Definition isAuthenticated (s : state World) : bool :=
  RobinhoodClient.isAuthenticated s.

(** The body of the [for (const position of positions)] loop of
    [getPositions]: the lookups and the mapping are inside the [try], so a
    failing lookup leaves [standardizedPositions] as it was. *)
Definition getPositions_step (standardizedPositions : list value)
    (position : RobinhoodPosition) : M (state World) (list value) :=
  try_catch
    (instrument <- api_getInstrumentFromUrl api (pos_instrument position) ;;
     quote <- api_getQuote api (ins_symbol instrument) ;;
     let standardized :=
       PortfolioMapper.mapPosition position instrument (Some quote) in
     ret (standardizedPositions ++ [standardized])%list)
    (fun error =>
       console_error
         ("Failed to fetch data for position " ++ ToString (pos_url position) ++ ":")
         error ;;
       ret standardizedPositions).

Fixpoint getPositions_loop (positions : list RobinhoodPosition)
    (standardizedPositions : list value) : M (state World) (list value) :=
  match positions with
  | [] => ret standardizedPositions
  | position :: rest =>
      standardizedPositions' <- getPositions_step standardizedPositions position ;;
      getPositions_loop rest standardizedPositions'
  end.

Definition getPositions : M (state World) (list value) :=
  try_catch
    (positions <- api_getPositions api true ;;
     getPositions_loop positions [])
    (fun error =>
       throw (createStandardizedError "POSITIONS_FETCH_FAILED"
                "Failed to fetch positions" (Some error))).

Definition getPortfolio : M (state World) value :=
  try_catch
    (accounts <- api_getAccounts api ;;
     match accounts with
     | [] => throw (Error "No accounts found")
     | account :: _ =>
         portfolio <- api_getPortfolio api (acc_accountNumber account) ;;
         positions <- getPositions ;;
         ret (PortfolioMapper.mapPortfolio account portfolio positions)
     end)
    (fun error =>
       throw (createStandardizedError "PORTFOLIO_FETCH_FAILED"
                "Failed to fetch portfolio" (Some error))).

Definition getBalance : M (state World) value :=
  try_catch
    (accounts <- api_getAccounts api ;;
     match accounts with
     | [] => throw (Error "No accounts found")
     | account :: _ => ret (PortfolioMapper.mapBalance account)
     end)
    (fun error =>
       throw (createStandardizedError "BALANCE_FETCH_FAILED"
                "Failed to fetch balance" (Some error))).

(** The body of the loop of [getTransactions]: the [catch] maps the order
    without an instrument. *)
Definition getTransactions_step (transactions : list value)
    (order : RobinhoodOrder) : M (state World) (list value) :=
  try_catch
    (instrument <- api_getInstrumentFromUrl api (ord_instrument order) ;;
     ret (transactions ++ [PortfolioMapper.mapTransaction order (Some instrument)])%list)
    (fun error =>
       console_error
         ("Failed to fetch instrument for order " ++ ToString (ord_id order) ++ ":")
         error ;;
       ret (transactions ++ [PortfolioMapper.mapTransaction order None])%list).

Fixpoint getTransactions_loop (orders : list RobinhoodOrder)
    (transactions : list value) : M (state World) (list value) :=
  match orders with
  | [] => ret transactions
  | order :: rest =>
      transactions' <- getTransactions_step transactions order ;;
      getTransactions_loop rest transactions'
  end.

(** [getTransactions(limit = 100)] *)
Definition getTransactions (limit : option Z) : M (state World) (list value) :=
  let limit := match limit with Some l => l | None => 100%Z end in
  try_catch
    (orders <- api_getOrders api None ;;
     getTransactions_loop (slice0 orders limit) [])
    (fun error =>
       throw (createStandardizedError "TRANSACTIONS_FETCH_FAILED"
                "Failed to fetch transactions" (Some error))).

Definition getDividends_step (standardizedDividends : list value)
    (dividend : RobinhoodDividend) : M (state World) (list value) :=
  try_catch
    (instrument <- api_getInstrumentFromUrl api (div_instrument dividend) ;;
     ret (standardizedDividends ++ [PortfolioMapper.mapDividend dividend (Some instrument)])%list)
    (fun error =>
       console_error
         ("Failed to fetch instrument for dividend " ++ ToString (div_id dividend) ++ ":")
         error ;;
       ret (standardizedDividends ++ [PortfolioMapper.mapDividend dividend None])%list).

Fixpoint getDividends_loop (dividends : list RobinhoodDividend)
    (standardizedDividends : list value) : M (state World) (list value) :=
  match dividends with
  | [] => ret standardizedDividends
  | dividend :: rest =>
      standardizedDividends' <- getDividends_step standardizedDividends dividend ;;
      getDividends_loop rest standardizedDividends'
  end.

Definition getDividends : M (state World) (list value) :=
  try_catch
    (dividends <- api_getDividends api ;;
     getDividends_loop dividends [])
    (fun error =>
       throw (createStandardizedError "DIVIDENDS_FETCH_FAILED"
                "Failed to fetch dividends" (Some error))).

(** *** The lookups, element by element *)

(** The state after [console.error(label, error)]. *)
Definition logged (s : state World) (label : string) (error : exn) : state World :=
  {| authTokens := authTokens s; world := world s; sent := sent s;
     console := (console s ++ [(label, error)])%list |}.

(** [Enriched s positions outcomes s']: from the state [s], the lookups made
    for [positions], in order, end in [s'], and [outcomes] tells for each
    position whether they succeeded, with the mapped position, or one of
    them, the instrument's or the quote's, threw. *)
Inductive Enriched : state World -> list RobinhoodPosition ->
                     list (option value) -> state World -> Prop :=
| Enriched_done (s : state World) : Enriched s [] [] s
| Enriched_both (s : state World) (position : RobinhoodPosition)
    (instrument : RobinhoodInstrument) (s1 : state World)
    (quote : RobinhoodQuote) (s2 : state World)
    (rest : list RobinhoodPosition) (outcomes : list (option value))
    (s' : state World) :
    api_getInstrumentFromUrl api (pos_instrument position) s = (Ok instrument, s1) ->
    api_getQuote api (ins_symbol instrument) s1 = (Ok quote, s2) ->
    Enriched s2 rest outcomes s' ->
    Enriched s (position :: rest)
      (Some (PortfolioMapper.mapPosition position instrument (Some quote)) :: outcomes) s'
| Enriched_no_instrument (s : state World) (position : RobinhoodPosition)
    (error : exn) (s1 : state World)
    (rest : list RobinhoodPosition) (outcomes : list (option value))
    (s' : state World) :
    api_getInstrumentFromUrl api (pos_instrument position) s = (Throw error, s1) ->
    Enriched
      (logged s1
         ("Failed to fetch data for position " ++ ToString (pos_url position) ++ ":")
         error)
      rest outcomes s' ->
    Enriched s (position :: rest) (None :: outcomes) s'
| Enriched_no_quote (s : state World) (position : RobinhoodPosition)
    (instrument : RobinhoodInstrument) (s1 : state World)
    (error : exn) (s2 : state World)
    (rest : list RobinhoodPosition) (outcomes : list (option value))
    (s' : state World) :
    api_getInstrumentFromUrl api (pos_instrument position) s = (Ok instrument, s1) ->
    api_getQuote api (ins_symbol instrument) s1 = (Throw error, s2) ->
    Enriched
      (logged s2
         ("Failed to fetch data for position " ++ ToString (pos_url position) ++ ":")
         error)
      rest outcomes s' ->
    Enriched s (position :: rest) (None :: outcomes) s'.

(** The positions that were enriched, in order, and the number of those that
    were not. *)
Fixpoint kept (outcomes : list (option value)) : list value :=
  match outcomes with
  | Some v :: rest => v :: kept rest
  | None :: rest => kept rest
  | [] => []
  end.

Fixpoint failures {A} (outcomes : list (option A)) : nat :=
  match outcomes with
  | Some _ :: rest => failures rest
  | None :: rest => S (failures rest)
  | [] => O
  end.

(** [Resolved s orders instruments s']: from the state [s], the instrument
    lookups made for [orders], in order, end in [s'], and [instruments] holds
    what each of them returned, or [None] where it threw. *)
Inductive Resolved : state World -> list RobinhoodOrder ->
                     list (option RobinhoodInstrument) -> state World -> Prop :=
| Resolved_done (s : state World) : Resolved s [] [] s
| Resolved_found (s : state World) (order : RobinhoodOrder)
    (instrument : RobinhoodInstrument) (s1 : state World)
    (rest : list RobinhoodOrder) (instruments : list (option RobinhoodInstrument))
    (s' : state World) :
    api_getInstrumentFromUrl api (ord_instrument order) s = (Ok instrument, s1) ->
    Resolved s1 rest instruments s' ->
    Resolved s (order :: rest) (Some instrument :: instruments) s'
| Resolved_failed (s : state World) (order : RobinhoodOrder)
    (error : exn) (s1 : state World)
    (rest : list RobinhoodOrder) (instruments : list (option RobinhoodInstrument))
    (s' : state World) :
    api_getInstrumentFromUrl api (ord_instrument order) s = (Throw error, s1) ->
    Resolved
      (logged s1
         ("Failed to fetch instrument for order " ++ ToString (ord_id order) ++ ":")
         error)
      rest instruments s' ->
    Resolved s (order :: rest) (None :: instruments) s'.

(** The transactions of [orders], each mapped with the instrument found for
    it, or without one. *)
Fixpoint transactions_of (orders : list RobinhoodOrder)
    (instruments : list (option RobinhoodInstrument)) : list value :=
  match orders, instruments with
  | order :: orders', instrument :: instruments' =>
      PortfolioMapper.mapTransaction order instrument
      :: transactions_of orders' instruments'
  | _, _ => []
  end.

End WithAPI.

Arguments logged {World} s label error.
Arguments Enriched {World} api _ _ _ _.
Arguments Resolved {World} api _ _ _ _.

Arguments authenticate {World} send random_index config fuel credentials _.
Arguments isAuthenticated {World} s.
Arguments getPositions {World} api _.
Arguments getPositions_loop {World} api positions standardizedPositions _.
Arguments getPositions_step {World} api standardizedPositions position _.
Arguments getTransactions {World} api limit _.
Arguments getTransactions_loop {World} api orders transactions _.
Arguments getTransactions_step {World} api transactions order _.
Arguments console_error {World} label error _.
Arguments refreshToken {World} send config fuel _.
Arguments getPortfolio {World} api _.
Arguments getBalance {World} api _.
Arguments getDividends {World} api _.
Arguments getDividends_loop {World} api dividends standardizedDividends _.
Arguments getDividends_step {World} api standardizedDividends dividend _.

(** *** The other queries

    [getPosition], [getAccounts], [getQuotes], [getHistoricalData] and
    [getWatchlists]; they use four more operations of the endpoint layer,
    which are parameters like the seven above. *)

(** [a === b] on two strings that may be missing; two missing ones are both
    [undefined]. *)
Definition strict_eq_field (a b : field) : bool :=
  match a, b with
  | Some x, Some y => String.eqb x y
  | None, None => true
  | _, _ => false
  end.

Section WithQueries.

Variable World : Type.
Variable api : RobinhoodAPI World.
Variable api_getInstrumentBySymbol :
  field -> M (state World) RobinhoodInstrument.
Variable api_getQuotes : list string -> M (state World) (list RobinhoodQuote).
Variable api_getHistoricals :
  string -> string -> string -> M (state World) RobinhoodHistoricals.
Variable api_getWatchlists : M (state World) (list RobinhoodWatchlist).

(** [getPosition(symbol)]: the positions are fetched first, then the
    instrument; the quote is asked for only when a position is found. *)
Definition getPosition (symbol : string) : M (state World) value :=
  try_catch
    (positions <- api_getPositions api true ;;
     instrument <- api_getInstrumentBySymbol (Some symbol) ;;
     match find (fun p => strict_eq_field (pos_instrument p) (ins_url instrument))
             positions with
     | None => ret VNull
     | Some position =>
         quote <- api_getQuote api (Some symbol) ;;
         ret (PortfolioMapper.mapPosition position instrument (Some quote))
     end)
    (fun error =>
       throw (createStandardizedError "POSITION_FETCH_FAILED"
                ("Failed to fetch position for " ++ symbol) (Some error))).

Definition getAccounts : M (state World) (list value) :=
  try_catch
    (accounts <- api_getAccounts api ;;
     ret (map PortfolioMapper.mapAccount accounts))
    (fun error =>
       throw (createStandardizedError "ACCOUNTS_FETCH_FAILED"
                "Failed to fetch accounts" (Some error))).

Definition getQuotes_step (standardizedQuotes : list value)
    (quote : RobinhoodQuote) : M (state World) (list value) :=
  try_catch
    (instrument <- api_getInstrumentBySymbol (q_symbol quote) ;;
     ret (standardizedQuotes ++ [PortfolioMapper.mapQuote quote (Some instrument)])%list)
    (fun error =>
       console_error
         ("Failed to fetch instrument for " ++ ToString (q_symbol quote) ++ ":")
         error ;;
       ret (standardizedQuotes ++ [PortfolioMapper.mapQuote quote None])%list).

Fixpoint getQuotes_loop (quotes : list RobinhoodQuote)
    (standardizedQuotes : list value) : M (state World) (list value) :=
  match quotes with
  | [] => ret standardizedQuotes
  | quote :: rest =>
      standardizedQuotes' <- getQuotes_step standardizedQuotes quote ;;
      getQuotes_loop rest standardizedQuotes'
  end.

Definition getQuotes (symbols : list string) : M (state World) (list value) :=
  try_catch
    (quotes <- api_getQuotes symbols ;;
     getQuotes_loop quotes [])
    (fun error =>
       throw (createStandardizedError "QUOTES_FETCH_FAILED"
                "Failed to fetch quotes" (Some error))).

(** [getHistoricalData(symbol, interval = 'day', span = 'week')] *)
Definition getHistoricalData (symbol : string) (interval span : option string)
    : M (state World) value :=
  let interval := match interval with Some i => i | None => "day" end in
  let span := match span with Some sp => sp | None => "week" end in
  try_catch
    (historicals <- api_getHistoricals symbol interval span ;;
     ret (PortfolioMapper.mapHistoricalData historicals))
    (fun error =>
       throw (createStandardizedError "HISTORICAL_DATA_FETCH_FAILED"
                ("Failed to fetch historical data for " ++ symbol) (Some error))).

(** The loop of [getWatchlists]: each watchlist is mapped with a fresh, empty
    [symbols]. *)
Fixpoint getWatchlists_loop (watchlists : list RobinhoodWatchlist)
    (standardizedWatchlists : list value) : list value :=
  match watchlists with
  | [] => standardizedWatchlists
  | watchlist :: rest =>
      let symbols : list string := [] in
      getWatchlists_loop rest
        (standardizedWatchlists ++ [PortfolioMapper.mapWatchlist watchlist symbols])%list
  end.

Definition getWatchlists : M (state World) (list value) :=
  try_catch
    (watchlists <- api_getWatchlists ;;
     ret (getWatchlists_loop watchlists []))
    (fun error =>
       throw (createStandardizedError "WATCHLISTS_FETCH_FAILED"
                "Failed to fetch watchlists" (Some error))).

End WithQueries.

Arguments getPosition {World} api api_getInstrumentBySymbol symbol _.
Arguments getAccounts {World} api _.
Arguments getQuotes {World} api_getInstrumentBySymbol api_getQuotes symbols _.
Arguments getQuotes_loop {World} api_getInstrumentBySymbol quotes standardizedQuotes _.
Arguments getQuotes_step {World} api_getInstrumentBySymbol standardizedQuotes quote _.
Arguments getHistoricalData {World} api_getHistoricals symbol interval span _.
Arguments getWatchlists {World} api_getWatchlists _.

(** *** What the statements speak of *)

(** The outcome is not an exception, or it is a standardized error of this
    integration whose code is one of [codes]. *)
Definition standardized_as {A} (codes : list string) (r : result A) : Prop :=
  match r with
  | Throw (StandardizedError code _ _ _ source) =>
      In code codes /\ source = "robinhood"
  | Throw _ => False
  | _ => True
  end.

End RobinhoodService.

(** ** Fixtures

    The records of the repository's test suite ([__tests__/mock-data]), and
    two small worlds to run the client in. *)

Module Fixtures.

Definition mockAccount : RobinhoodAccount := {|
  acc_url := Some "https://api.robinhood.com/accounts/TEST123456/";
  acc_buyingPower := Some "10000.00";
  acc_cashBalances := Some {| cash := Some "5000.00";
                              unclearedDeposits := Some "0.00";
                              unsettledFunds := Some "0.00" |};
  acc_accountNumber := Some "TEST123456";
  acc_type := Some "margin";
  acc_created := Some "2023-01-01T00:00:00Z";
  acc_updated := Some "2024-01-01T00:00:00Z"
|}.

Definition mockPortfolio : RobinhoodPortfolio := {|
  market_value := Some "15000.00";
  equity := Some "15000.00";
  lastCoreEquity := Some "14750.00"
|}.

Definition mockInstrument : RobinhoodInstrument := {|
  ins_id := Some "INST123";
  ins_url := Some "https://api.robinhood.com/instruments/INST123/";
  ins_market := Some "NASDAQ";
  ins_name := Some "Apple Inc.";
  ins_symbol := Some "AAPL";
  ins_type := Some "stock"
|}.

Definition mockPosition : RobinhoodPosition := {|
  pos_url := Some "https://api.robinhood.com/positions/TEST123456/INST123/";
  pos_instrument := Some "https://api.robinhood.com/instruments/INST123/";
  pos_averageBuyPrice := Some "150.00";
  pos_quantity := Some "10.0000";
  pos_updatedAt := Some "2024-01-01T00:00:00Z"
|}.

Definition mockQuote : RobinhoodQuote := {|
  q_askPrice := Some "175.50";
  q_askSize := Some 100%float;
  q_bidPrice := Some "175.00";
  q_bidSize := Some 200%float;
  q_lastTradePrice := Some "175.25";
  q_previousClose := Some "174.00";
  q_symbol := Some "AAPL";
  q_tradingHalted := Some false;
  q_updatedAt := Some "2024-01-02T15:00:00Z"
|}.

Definition mockOrder : RobinhoodOrder := {|
  ord_id := Some "ORDER123";
  ord_url := Some "https://api.robinhood.com/orders/ORDER123/";
  ord_instrument := Some "https://api.robinhood.com/instruments/INST123/";
  ord_averagePrice := Some "150.00";
  ord_fees := Some "0.00";
  ord_state := Some "filled";
  ord_side := Some "buy";
  ord_price := None;
  ord_quantity := Some "10.0000";
  ord_created := None
|}.

Definition mockDividend : RobinhoodDividend := {|
  div_id := Some "DIV123";
  div_instrument := Some "https://api.robinhood.com/instruments/INST123/";
  div_amount := Some "5.00";
  div_withholding := Some "0.00";
  div_recordDate := Some "2024-01-01";
  div_payableDate := Some "2024-01-15";
  div_state := Some "paid"
|}.

Definition mockWatchlist : RobinhoodWatchlist := {|
  wl_url := Some "https://api.robinhood.com/watchlists/Default/";
  wl_name := Some "Default";
  wl_createdAt := None;
  wl_updatedAt := None
|}.

Definition mockHistoricals : RobinhoodHistoricals := {|
  his_symbol := Some "AAPL";
  his_interval := Some "day";
  historicals := [
    {| beginsAt := Some "2024-01-01T14:30:00Z"; openPrice := Some "174.00";
       closePrice := Some "175.00"; highPrice := Some "176.00";
       lowPrice := Some "173.50"; volume := Some 50000000%float |};
    {| beginsAt := Some "2024-01-02T14:30:00Z"; openPrice := Some "175.00";
       closePrice := Some "175.25"; highPrice := Some "176.50";
       lowPrice := Some "174.00"; volume := Some 45000000%float |} ]
|}.

Definition mockCredentials : RobinhoodCredentials := {|
  username := "testuser@example.com";
  password := "testpassword123";
  mfaCode := None;
  deviceToken := Some "mock-device-token-1234567890"
|}.

Definition mockAuthTokens : value :=
  VObj [ ("accessToken", VStr "mock-access-token");
         ("refreshToken", VStr "mock-refresh-token");
         ("expiresIn", VNum 86400%float);
         ("tokenType", VStr "Bearer");
         ("scope", VStr "internal") ].

Definition defaultConfig : RobinhoodConfig :=
  {| config_accessToken := None; config_clientId := None |}.

(** A scripted upstream: the responses to the next requests, in order; once
    the script is used up the network is down. *)
Definition Script := list (AxiosResponse + string).

Definition send_scripted (cfg : AxiosRequestConfig) (w : Script)
    : (AxiosResponse + string) * Script :=
  match w with
  | r :: w' => (r, w')
  | [] => (inr "Network Error", [])
  end.

Definition no_random (w : Script) : nat * Script := (0, w).

Definition respond (st : Z) (body : value) : AxiosResponse + string :=
  inl {| status := st; data := body |}.

(** An upstream that answers every request with 401. *)
Definition send_401 (cfg : AxiosRequestConfig) (w : unit)
    : (AxiosResponse + string) * unit :=
  (inl {| status := 401; data := VNull |}, tt).

Definition no_random_unit (w : unit) : nat * unit := (0, w).

(** A scripted endpoint layer, like the mocks of the test suite: the answers
    to the next instrument lookups and to the next quote lookups, in order;
    the positions and the orders are fixed. *)
Record ApiScript := {
  instrument_answers : list (exn + RobinhoodInstrument);
  quote_answers : list (exn + RobinhoodQuote)
}.

Definition next_instrument (url : field) : M (state ApiScript) RobinhoodInstrument :=
  fun s =>
    match instrument_answers (world s) with
    | answer :: rest =>
        (match answer with inr i => Ok i | inl e => Throw e end,
         {| authTokens := authTokens s;
            world := {| instrument_answers := rest;
                        quote_answers := quote_answers (world s) |};
            sent := sent s; console := console s |})
    | [] => (Throw (Error "Instrument not found"), s)
    end.

Definition next_quote (symbol : field) : M (state ApiScript) RobinhoodQuote :=
  fun s =>
    match quote_answers (world s) with
    | answer :: rest =>
        (match answer with inr q => Ok q | inl e => Throw e end,
         {| authTokens := authTokens s;
            world := {| instrument_answers := instrument_answers (world s);
                        quote_answers := rest |};
            sent := sent s; console := console s |})
    | [] => (Throw (Error "Quote not found"), s)
    end.

Definition mockApi (positions : list RobinhoodPosition)
    (orders : list RobinhoodOrder) : RobinhoodAPI ApiScript :=
  {| api_getAccounts := ret [mockAccount];
     api_getPortfolio := fun _ => ret mockPortfolio;
     api_getPositions := fun _ => ret positions;
     api_getInstrumentFromUrl := next_instrument;
     api_getQuote := next_quote;
     api_getOrders := fun _ => ret orders;
     api_getDividends := ret [mockDividend] |}.

(** A client holding [tokens], in front of the world [w]. *)
Definition client_with {World} (tokens : value) (w : World) : state World :=
  {| authTokens := tokens; world := w; sent := []; console := [] |}.

(** An upstream that answers every request with the same page, and a page
    that names its own address as the next one. *)
Definition send_page (body : value) (cfg : AxiosRequestConfig) (w : unit)
    : (AxiosResponse + string) * unit :=
  (inl {| status := 200; data := body |}, tt).

Definition endless_page : value :=
  VObj [("results", VArr [VStr "position"]); ("next", VStr "/positions/")].

End Fixtures.

(** * Properties *)

Import PortfolioMapper Fixtures.

(** ** Numbers *)

(** IEEE multiplication is commutative. *)
Lemma float_mul_comm (x y : float) : (x * y = y * x)%float.
Proof.
  apply Prim2SF_inj. rewrite !mul_spec.
  destruct (Prim2SF x) as [sx|sx| |sx mx ex], (Prim2SF y) as [sy|sy| |sy my ey];
    cbn; rewrite ?(xorb_comm sx sy); try reflexivity.
  now rewrite (Pos.mul_comm mx my), (Z.add_comm ex ey).
Qed.

Lemma append_empty_r (s : string) : (s ++ "")%string = s.
Proof. induction s; cbn; congruence. Qed.

(** [take_digits] reads a printed numeral back, whatever follows it, as long
    as that does not start with a digit. *)
Lemma take_digits_app (d : uint) (rest : string) :
  match rest with String c _ => is_digit c = false | EmptyString => True end ->
  take_digits (NilEmpty.string_of_uint d ++ rest) = (d, rest).
Proof.
  intros Hrest.
  induction d;
    cbn [NilEmpty.string_of_uint String.append take_digits digit_of_char];
    try (rewrite IHd; reflexivity).
  destruct rest as [|c r]; [reflexivity|].
  cbn [take_digits]. unfold is_digit in Hrest.
  destruct (digit_of_char c); [discriminate|reflexivity].
Qed.

Lemma digit_headed (d : uint) (rest : string) :
  d <> Nil ->
  exists c r,
    (NilEmpty.string_of_uint d ++ rest)%string = String c r /\ is_digit c = true.
Proof.
  destruct d; intros H; try congruence; cbn; eexists _, _; split; reflexivity.
Qed.

(** A digit is neither white space, nor a sign, nor the head of [Infinity]. *)
Lemma digit_char_plain (c : ascii) (r : string) :
  is_digit c = true ->
  trimStart (String c r) = String c r /\
  take_sign (String c r) = (false, String c r) /\
  starts_with "Infinity" (String c r) = false.
Proof.
  destruct c as [[] [] [] [] [] [] [] []]; intros H; try discriminate H;
    repeat split; reflexivity.
Qed.

Lemma take_sign_digits (neg : bool) (d : uint) (rest : string) (c : ascii) (r : string) :
  (NilEmpty.string_of_uint d ++ rest)%string = String c r ->
  is_digit c = true ->
  take_sign (trimStart ((if neg then "-" else "") ++ NilEmpty.string_of_uint d ++ rest))
  = (neg, String c r).
Proof.
  intros E Hc. destruct (digit_char_plain c r Hc) as (Ht & Hs & _).
  destruct neg.
  - change (take_sign (String "-" (NilEmpty.string_of_uint d ++ rest)) = (true, String c r)).
    cbn [take_sign]. now rewrite E.
  - change (take_sign (trimStart (NilEmpty.string_of_uint d ++ rest)) = (false, String c r)).
    now rewrite E, Ht.
Qed.

(** [parseFloat] on a decimal with a fraction: the whole string is read, and
    the number is the rounding of its digits scaled by the fraction's length. *)
Lemma parseFloat_decimal (neg : bool) (i f : uint) :
  i <> Nil ->
  parseFloat ((if neg then "-" else "") ++ NilEmpty.string_of_uint i ++ "."
              ++ NilEmpty.string_of_uint f) =
  round_decimal neg (N.of_uint (Decimal.app i f)) (- Z.of_nat (nb_digits f)).
Proof.
  intros Hi.
  destruct (digit_headed i ("." ++ NilEmpty.string_of_uint f) Hi) as (c & r & E & Hc).
  destruct (digit_char_plain c r Hc) as (_ & _ & Hp).
  unfold parseFloat.
  rewrite (take_sign_digits neg i _ c r E Hc), Hp, <- E.
  rewrite take_digits_app by reflexivity.
  cbn [String.append].
  replace (take_digits (NilEmpty.string_of_uint f)) with (f, "").
  2:{ rewrite <- (take_digits_app f "" I). now rewrite append_empty_r. }
  cbn [exponent_part].
  destruct i; try congruence; reflexivity.
Qed.

(** [parseFloat] on a run of digits. *)
Lemma parseFloat_integer (neg : bool) (i : uint) :
  i <> Nil ->
  parseFloat ((if neg then "-" else "") ++ NilEmpty.string_of_uint i) =
  round_decimal neg (N.of_uint i) 0.
Proof.
  intros Hi.
  destruct (digit_headed i "" Hi) as (c & r & E & Hc).
  destruct (digit_char_plain c r Hc) as (_ & _ & Hp).
  unfold parseFloat.
  rewrite <- (append_empty_r (NilEmpty.string_of_uint i)) at 1.
  rewrite (take_sign_digits neg i _ c r E Hc), Hp, <- E.
  rewrite take_digits_app by exact I.
  cbn [exponent_part nb_digits Z.of_nat Z.sub Z.opp].
  rewrite DecimalFacts.app_nil_r.
  destruct i; try congruence; reflexivity.
Qed.

(** [parseFloat] on the strings the upstream sends, on strings that are not
    numbers, and on decimals whose nearest binary64 number is not obvious. *)
Example parseFloat_samples :
  parseFloat "175.25" = 175.25%float /\
  parseFloat "10.0000" = 10%float /\
  parseFloat "0" = 0%float /\
  parseFloat "-0" = (-0)%float /\
  parseFloat "  -1.5e3xyz" = (-1500)%float /\
  parseFloat ".5" = 0.5%float /\
  parseFloat "5." = 5%float /\
  parseFloat "0.1" = 0.1%float /\
  parseFloat "1e23" = 1e23%float /\
  parseFloat "9007199254740993" = 9007199254740992%float /\
  parseFloat "2.2250738585072011e-308" = 2.2250738585072011e-308%float /\
  parseFloat "4.9e-324" = 4.9e-324%float /\
  parseFloat "2.4e-324" = 0%float /\
  parseFloat "1.7976931348623157e308" = 1.7976931348623157e308%float /\
  parseFloat "1.8e308" = infinity /\
  parseFloat "-Infinity" = neg_infinity /\
  parseFloat "" = nan /\
  parseFloat "." = nan /\
  parseFloat "abc" = nan /\
  parseFloat "undefined" = nan.
Proof. repeat split; vm_compute; reflexivity. Qed.

(** A missing or empty string is replaced by the default. *)
Lemma or_default_missing (x : field) (d : string) :
  missing x = true -> or_default x d = d.
Proof. destruct x as [s|]; cbn; [intros ->|]; reflexivity. Qed.

Lemma or_default_present (s d : string) :
  s <> "" -> or_default (Some s) d = s.
Proof.
  intros H. cbn. destruct (String.eqb_spec s ""); [contradiction|reflexivity].
Qed.

(** ** The mapper *)

(** C10. For every account, raw portfolio and list of positions, the
    portfolio built by [mapPortfolio] has [totalGainLoss = 0] and
    [totalGainLossPercent = 0]: the two fields are constants, they are not
    computed from the positions (whose own gains are carried inside
    [positions] unchanged) nor from the upstream data. *)
Theorem C10_mapPortfolio_gain_loss_is_zero :
  forall (account : RobinhoodAccount) (portfolio : RobinhoodPortfolio)
         (positions : list value),
    prop "totalGainLoss" (mapPortfolio account portfolio positions) = VNum 0 /\
    prop "totalGainLossPercent" (mapPortfolio account portfolio positions) = VNum 0 /\
    prop "positions" (mapPortfolio account portfolio positions) = VArr positions.
Proof. intros; repeat split; reflexivity. Qed.

(** The portfolio of the test suite, holding one position whose gain is
    252.5: the portfolio's gain is 0 all the same. *)
Example mapPortfolio_ignores_position_gain :
  let position := mapPosition mockPosition mockInstrument (Some mockQuote) in
  let portfolio := mapPortfolio mockAccount mockPortfolio [position] in
  prop "totalGainLoss" position = VNum 252.5 /\
  prop "totalGainLoss" portfolio = VNum 0 /\
  prop "totalGainLossPercent" portfolio = VNum 0.
Proof. repeat split; vm_compute; reflexivity. Qed.

(** C4. For every position mapped by [mapPosition] with parsed quantity [q],
    average cost [a], current price [p] and previous close [c]:
    [marketValue = q * p], [totalGainLoss = q * p - q * a],
    [dayChange = q * (p - c)]; [totalGainLossPercent] is
    [(totalGainLoss / (q * a)) * 100] when [q * a <> 0] and [0] (a finite
    number, neither Infinity nor NaN) when [q * a = 0]; [dayChangePercent] is
    [((p - c) / c) * 100] when [c <> 0] and [0] when [c = 0].  In particular
    q = 10, a = 150, p = 175.25, c = 174.00 gives marketValue 1752.5,
    totalGainLoss 252.5, totalGainLossPercent 16.833333333333332,
    dayChange 12.5 and dayChangePercent 0.7183908045977011.  The arithmetic is
    the binary64 arithmetic of JavaScript; [=?] is its [===] on numbers. *)
Theorem C4_mapPosition_financials :
  (forall (position : RobinhoodPosition) (instrument : RobinhoodInstrument)
          (quote : option RobinhoodQuote),
      let q := parseFloat (or_default (pos_quantity position) "0") in
      let a := parseFloat (or_default (pos_averageBuyPrice position) "0") in
      let p := parseFloat (or_default (opt_chain quote q_lastTradePrice) "0") in
      let c := parseFloat (or_default (opt_chain quote q_previousClose) "0") in
      let r := mapPosition position instrument quote in
      prop "quantity" r = VNum q /\
      prop "averageCost" r = VNum a /\
      prop "currentPrice" r = VNum p /\
      prop "marketValue" r = VNum (q * p) /\
      prop "totalGainLoss" r = VNum (q * p - q * a) /\
      prop "dayChange" r = VNum (q * (p - c)) /\
      prop "totalGainLossPercent" r =
        VNum (if (q * a =? 0)%float then 0 else (q * p - q * a) / (q * a) * 100) /\
      prop "dayChangePercent" r =
        VNum (if (c =? 0)%float then 0 else (p - c) / c * 100) /\
      isFinite 0 = true)
  /\
  (let r := mapPosition mockPosition mockInstrument (Some mockQuote) in
   prop "quantity" r = VNum 10 /\
   prop "averageCost" r = VNum 150 /\
   prop "currentPrice" r = VNum 175.25 /\
   prop "marketValue" r = VNum 1752.5 /\
   prop "totalGainLoss" r = VNum 252.5 /\
   prop "totalGainLossPercent" r = VNum 16.833333333333332 /\
   prop "dayChange" r = VNum 12.5 /\
   prop "dayChangePercent" r = VNum 0.7183908045977011 /\
   (16.833 <? 16.833333333333332)%float && (16.833333333333332 <? 16.834)%float = true /\
   (0.7183 <? 0.7183908045977011)%float && (0.7183908045977011 <? 0.7185)%float = true).
Proof.
  split.
  - intros position instrument quote q a p c r.
    repeat split; try reflexivity.
    + unfold r, mapPosition, num. cbn [prop assoc String.eqb Ascii.eqb Bool.eqb].
      fold q a p c. now rewrite (float_mul_comm q (p - c)).
    + unfold r, mapPosition, num, strict_neq. cbn [prop assoc String.eqb Ascii.eqb Bool.eqb].
      fold q a p c. now destruct (q * a =? 0)%float.
    + unfold r, mapPosition, num, strict_neq. cbn [prop assoc String.eqb Ascii.eqb Bool.eqb].
      fold q a p c. now destruct (c =? 0)%float.
  - repeat split; vm_compute; reflexivity.
Qed.

(** Scalars built from upstream fields hold no object. *)
Lemma has_field_deep_str (k : string) (x : field) : has_field_deep k (str x) = false.
Proof. now destruct x. Qed.

Lemma has_field_deep_opt_num (k : string) (x : option number) :
  has_field_deep k (opt_num x) = false.
Proof. now destruct x. Qed.

Lemma has_field_deep_opt_bool (k : string) (x : option bool) :
  has_field_deep k (opt_bool x) = false.
Proof. now destruct x. Qed.

Ltac no_such_field :=
  cbn [has_field_deep String.eqb Ascii.eqb Bool.eqb orb num new_Date];
  rewrite ?has_field_deep_str, ?has_field_deep_opt_num, ?has_field_deep_opt_bool;
  reflexivity.

(** C8 (not met by the code).  The claim: for a raw dividend with gross amount
    [g] and withholding [w], the record built by [mapDividend] carries a net
    amount [g - w].  What [mapDividend] does: the record has no [netAmount]
    field, at any depth, whatever the dividend; the gross amount and the
    withholding are carried separately and never subtracted.  On the
    dividend of the test suite with a withholding of "1.00" the record holds
    5 and 1, and no net amount 4. *)
Theorem C8_mapDividend_has_no_net_amount :
  (forall (dividend : RobinhoodDividend) (instrument : option RobinhoodInstrument),
      let r := mapDividend dividend instrument in
      has_field_deep "netAmount" r = false /\
      prop "netAmount" r = VUndefined /\
      prop "amount" r = VNum (parseFloat (ToString (div_amount dividend))) /\
      prop "withholding" (prop "metadata" r) =
        VNum (parseFloat (or_default (div_withholding dividend) "0")))
  /\
  (let dividendWithTax :=
     {| div_id := div_id mockDividend;
        div_instrument := div_instrument mockDividend;
        div_amount := Some "5.00";
        div_withholding := Some "1.00";
        div_recordDate := div_recordDate mockDividend;
        div_payableDate := div_payableDate mockDividend;
        div_state := div_state mockDividend |} in
   let r := mapDividend dividendWithTax None in
   prop "amount" r = VNum 5 /\
   prop "withholding" (prop "metadata" r) = VNum 1 /\
   prop "netAmount" r = VUndefined /\
   (5 - 1 = 4)%float).
Proof.
  split.
  - intros dividend instrument r. repeat split; try reflexivity.
    unfold r, mapDividend. no_such_field.
  - repeat split; vm_compute; reflexivity.
Qed.

(** C7 (not met by the code).  The claim: when the related instrument is
    absent, the mapping functions do not throw and put the sentinels
    "UNKNOWN", "Unknown Instrument" / "Unknown" in [symbol] and [name].  What
    the mapper does: [mapTransaction] and [mapQuote] leave [symbol] / [name]
    undefined, [mapDividend] sets [symbol] to the empty string and has no
    [name], and [mapPosition] called without an instrument throws a
    TypeError.  Only the part about prices holds: without a quote
    [mapPosition] returns with [currentPrice = 0]. *)
Theorem C7_absent_instrument_gives_no_sentinel :
  (forall order : RobinhoodOrder,
      prop "symbol" (mapTransaction order None) = VUndefined /\
      prop "name" (mapTransaction order None) = VUndefined) /\
  (forall dividend : RobinhoodDividend,
      prop "symbol" (mapDividend dividend None) = VStr "" /\
      prop "name" (mapDividend dividend None) = VUndefined) /\
  (forall quote : RobinhoodQuote,
      prop "symbol" (mapQuote quote None) = str (q_symbol quote) /\
      prop "name" (mapQuote quote None) = VUndefined) /\
  (forall (position : RobinhoodPosition) (quote : option RobinhoodQuote),
      mapPosition_call position None quote =
      Throw (TypeError "Cannot read properties of undefined (reading 'symbol')")) /\
  (forall (position : RobinhoodPosition) (instrument : RobinhoodInstrument),
      prop "currentPrice" (mapPosition position instrument None) = VNum 0) /\
  VStr "" <> VStr "UNKNOWN" /\ VUndefined <> VStr "UNKNOWN" /\
  VUndefined <> VStr "Unknown".
Proof.
  repeat split; try reflexivity; discriminate.
Qed.

(** C9 (as stated, refuted).  The balance, the position and the quote of the
    test suite, once mapped, hold no field named [source], at any depth. *)
Lemma C9_counterexample :
  has_field_deep "source" (mapBalance mockAccount) = false /\
  has_field_deep "source" (mapPosition mockPosition mockInstrument (Some mockQuote)) = false /\
  has_field_deep "source" (mapQuote mockQuote (Some mockInstrument)) = false.
Proof. repeat split; vm_compute; reflexivity. Qed.

Lemma last_map_timestamp (bars : list HistoricalBar) (b : HistoricalBar) :
  is_date (prop "timestamp" (last (map mapHistoricalPoint (b :: bars)) VUndefined)) = true.
Proof.
  revert b. induction bars as [|b' bars IH]; intros b; [reflexivity|].
  change (map mapHistoricalPoint (b :: b' :: bars))
    with (mapHistoricalPoint b :: map mapHistoricalPoint (b' :: bars)).
  cbn [last]. apply IH.
Qed.

(** C9 (amended).  Every record produced by [mapAccount], [mapPortfolio],
    [mapTransaction], [mapHistoricalData], [mapWatchlist] and [mapDividend]
    embeds the tag [source = "robinhood"] in its metadata; the records
    produced by [mapPosition], [mapBalance] and [mapQuote] embed no [source]
    tag.  Every record carries a date for provenance: [lastUpdated] in the
    metadata of an account, a portfolio and a position, [lastUpdated] at the
    top of a balance and a quote, [date] in a transaction, [createdAt] and
    [updatedAt] in a watchlist, [paymentDate] and [recordDate] in a dividend,
    [startDate] and [endDate] in the metadata of historical data. *)
Theorem C9_provenance_fields :
  (forall account,
      let r := mapAccount account in
      prop "source" (prop "metadata" r) = VStr "robinhood" /\
      is_date (prop "lastUpdated" (prop "metadata" r)) = true) /\
  (forall account portfolio positions,
      let r := mapPortfolio account portfolio positions in
      prop "source" (prop "metadata" r) = VStr "robinhood" /\
      is_date (prop "lastUpdated" (prop "metadata" r)) = true) /\
  (forall order instrument,
      let r := mapTransaction order instrument in
      prop "source" (prop "metadata" r) = VStr "robinhood" /\
      is_date (prop "date" r) = true) /\
  (forall h,
      let r := mapHistoricalData h in
      prop "source" (prop "metadata" r) = VStr "robinhood" /\
      is_date (prop "startDate" (prop "metadata" r)) = true /\
      is_date (prop "endDate" (prop "metadata" r)) = true) /\
  (forall watchlist symbols,
      let r := mapWatchlist watchlist symbols in
      prop "source" (prop "metadata" r) = VStr "robinhood" /\
      is_date (prop "createdAt" r) = true /\
      is_date (prop "updatedAt" r) = true) /\
  (forall dividend instrument,
      let r := mapDividend dividend instrument in
      prop "source" (prop "metadata" r) = VStr "robinhood" /\
      is_date (prop "paymentDate" r) = true /\
      is_date (prop "recordDate" r) = true) /\
  (forall position instrument quote,
      let r := mapPosition position instrument quote in
      has_field_deep "source" r = false /\
      is_date (prop "lastUpdated" (prop "metadata" r)) = true) /\
  (forall account,
      let r := mapBalance account in
      has_field_deep "source" r = false /\
      is_date (prop "lastUpdated" r) = true) /\
  (forall quote instrument,
      let r := mapQuote quote instrument in
      has_field_deep "source" r = false /\
      is_date (prop "lastUpdated" r) = true).
Proof.
  cbv zeta.
  repeat match goal with
         | |- _ /\ _ => split
         | |- forall _, _ => intro
         end;
    try reflexivity.
  - unfold mapHistoricalData.
    cbn [prop assoc String.eqb Ascii.eqb Bool.eqb].
    now destruct (historicals h).
  - unfold mapHistoricalData.
    cbn [prop assoc String.eqb Ascii.eqb Bool.eqb].
    destruct (historicals h) as [|b bars]; [reflexivity|].
    apply last_map_timestamp.
  - unfold mapPosition. no_such_field.
  - unfold mapBalance. no_such_field.
  - unfold mapQuote. no_such_field.
Qed.

(** C3 (as stated, refuted).  A position whose quantity is the unparsable
    string "N/A" is mapped to a record whose quantity is NaN, not 0, and NaN
    reaches the derived fields; a dividend without an amount is mapped to a
    record whose amount is NaN, as is a historical bar without prices. *)
Lemma C3_counterexample :
  let position :=
    {| pos_url := pos_url mockPosition;
       pos_instrument := pos_instrument mockPosition;
       pos_averageBuyPrice := Some "150.00";
       pos_quantity := Some "N/A";
       pos_updatedAt := pos_updatedAt mockPosition |} in
  let dividend :=
    {| div_id := div_id mockDividend;
       div_instrument := div_instrument mockDividend;
       div_amount := None;
       div_withholding := None;
       div_recordDate := div_recordDate mockDividend;
       div_payableDate := div_payableDate mockDividend;
       div_state := div_state mockDividend |} in
  let bar :=
    {| beginsAt := Some "2024-01-01T14:30:00Z"; openPrice := None;
       closePrice := None; highPrice := None; lowPrice := None;
       volume := None |} in
  let r := mapPosition position mockInstrument (Some mockQuote) in
  prop "quantity" r = VNum nan /\
  prop "quantity" r <> VNum 0 /\
  prop "marketValue" r = VNum nan /\
  prop "totalGainLoss" r = VNum nan /\
  prop "totalGainLossPercent" r = VNum nan /\
  NaN_free r = false /\
  prop "amount" (mapDividend dividend None) = VNum nan /\
  NaN_free (mapDividend dividend None) = false /\
  prop "open" (mapHistoricalPoint bar) = VNum nan.
Proof.
  cbv zeta. repeat split; try (vm_compute; reflexivity).
  intros H. apply (f_equal NaN_free) in H. vm_compute in H. discriminate H.
Qed.

Lemma sign_digits_not_empty (neg : bool) (i : uint) (rest : string) :
  i <> Nil ->
  ((if neg then "-" else "") ++ NilEmpty.string_of_uint i ++ rest)%string <> "".
Proof.
  intros Hi. destruct neg; [discriminate|].
  destruct (digit_headed i rest Hi) as (c & r & E & _).
  cbn [String.append]. rewrite E. discriminate.
Qed.

(** C3 (amended).  For every upstream record given to [mapPosition],
    [mapPortfolio], [mapBalance], [mapQuote] or [mapTransaction], and for the
    withholding of [mapDividend]: each numeric input is read as
    [parseFloat(x || '0')], and the derived fields (day change, change,
    amount, the percentages) are computed from these readings; a missing,
    absent or empty string is read as 0, and a string [-]digits[.digits] is
    read in full, as the binary64 number nearest to the decimal.  So when
    every numeric string of a position and of its quote is missing, every
    numeric field of the mapped position is 0 and none is NaN.  A non-empty
    string with no numeric prefix is read as NaN, and [mapDividend]'s amount
    and the prices of [mapHistoricalData] are read without the default:
    missing, they are NaN. *)
Theorem C3_numeric_strings :
  (forall x : field, missing x = true -> parseFloat (or_default x "0") = 0%float) /\
  (forall (neg : bool) (i f : uint), i <> Nil ->
      parseFloat (or_default
        (Some ((if neg then "-" else "") ++ NilEmpty.string_of_uint i ++ "."
               ++ NilEmpty.string_of_uint f)) "0") =
      round_decimal neg (N.of_uint (Decimal.app i f)) (- Z.of_nat (nb_digits f))) /\
  (forall (neg : bool) (i : uint), i <> Nil ->
      parseFloat (or_default
        (Some ((if neg then "-" else "") ++ NilEmpty.string_of_uint i)) "0") =
      round_decimal neg (N.of_uint i) 0) /\
  (forall position instrument quote,
      let r := mapPosition position instrument quote in
      prop "quantity" r = VNum (parseFloat (or_default (pos_quantity position) "0")) /\
      prop "averageCost" r = VNum (parseFloat (or_default (pos_averageBuyPrice position) "0")) /\
      prop "currentPrice" r =
        VNum (parseFloat (or_default (opt_chain quote q_lastTradePrice) "0"))) /\
  (forall account portfolio positions,
      let r := mapPortfolio account portfolio positions in
      let e := parseFloat (or_default (equity portfolio) "0") in
      let p := parseFloat (or_default (lastCoreEquity portfolio) "0") in
      prop "totalValue" r = VNum (parseFloat (or_default (market_value portfolio) "0")) /\
      prop "cashBalance" r =
        VNum (parseFloat (or_default (opt_chain (acc_cashBalances account) cash) "0")) /\
      prop "buyingPower" r = VNum (parseFloat (or_default (acc_buyingPower account) "0")) /\
      prop "dayChange" r = VNum (e - p) /\
      prop "dayChangePercent" r =
        VNum (if strict_neq p 0 then (e - p) / p * 100 else 0)) /\
  (forall account,
      let r := mapBalance account in
      prop "cashBalance" r =
        VNum (parseFloat (or_default (opt_chain (acc_cashBalances account) cash) "0")) /\
      prop "unsettledCash" r =
        VNum (parseFloat (or_default (opt_chain (acc_cashBalances account) unsettledFunds) "0")) /\
      prop "buyingPower" r = VNum (parseFloat (or_default (acc_buyingPower account) "0")) /\
      prop "pendingDeposits" r =
        VNum (parseFloat (or_default (opt_chain (acc_cashBalances account) unclearedDeposits) "0"))) /\
  (forall quote instrument,
      let r := mapQuote quote instrument in
      let p := parseFloat (or_default (q_lastTradePrice quote) "0") in
      let c := parseFloat (or_default (q_previousClose quote) "0") in
      prop "price" r = VNum p /\
      prop "previousClose" r = VNum c /\
      prop "bid" r = VNum (parseFloat (or_default (q_bidPrice quote) "0")) /\
      prop "ask" r = VNum (parseFloat (or_default (q_askPrice quote) "0")) /\
      prop "change" r = VNum (p - c) /\
      prop "changePercent" r =
        VNum (if strict_neq c 0 then (p - c) / c * 100 else 0)) /\
  (forall order instrument,
      let r := mapTransaction order instrument in
      let q := parseFloat (or_default (ord_quantity order) "0") in
      let p :=
        parseFloat (or_default (or_field (ord_averagePrice order) (ord_price order)) "0") in
      prop "quantity" r = VNum q /\
      prop "price" r = VNum p /\
      prop "amount" r = VNum (q * p) /\
      prop "fee" r = VNum (parseFloat (or_default (ord_fees order) "0"))) /\
  (forall dividend instrument,
      let r := mapDividend dividend instrument in
      prop "withholding" (prop "metadata" r) =
        VNum (parseFloat (or_default (div_withholding dividend) "0")) /\
      prop "amount" r = VNum (parseFloat (ToString (div_amount dividend)))) /\
  (forall point,
      prop "open" (mapHistoricalPoint point) = VNum (parseFloat (ToString (openPrice point))) /\
      prop "close" (mapHistoricalPoint point) = VNum (parseFloat (ToString (closePrice point)))) /\
  (forall position instrument quote,
      missing (pos_quantity position) = true ->
      missing (pos_averageBuyPrice position) = true ->
      missing (opt_chain quote q_lastTradePrice) = true ->
      missing (opt_chain quote q_previousClose) = true ->
      let r := mapPosition position instrument quote in
      prop "quantity" r = VNum 0 /\ prop "averageCost" r = VNum 0 /\
      prop "currentPrice" r = VNum 0 /\ prop "marketValue" r = VNum 0 /\
      prop "dayChange" r = VNum 0 /\ prop "dayChangePercent" r = VNum 0 /\
      prop "totalGainLoss" r = VNum 0 /\ prop "totalGainLossPercent" r = VNum 0 /\
      NaN_free r = true) /\
  parseFloat (or_default (Some "N/A") "0") = nan /\
  parseFloat (or_default (Some "abc") "0") = nan /\
  parseFloat (ToString None) = nan.
Proof.
  cbv zeta.
  repeat match goal with |- _ /\ _ => split end;
    try (intros; repeat split; reflexivity).
  - intros x Hx. now rewrite (or_default_missing x "0" Hx).
  - intros neg i f Hi.
    rewrite or_default_present by (apply sign_digits_not_empty; exact Hi).
    now apply parseFloat_decimal.
  - intros neg i Hi.
    rewrite or_default_present.
    + now apply parseFloat_integer.
    + rewrite <- (append_empty_r (NilEmpty.string_of_uint i)).
      apply sign_digits_not_empty; exact Hi.
  - intros position instrument quote Hq Ha Hp Hc.
    unfold mapPosition.
    rewrite (or_default_missing _ "0" Hq), (or_default_missing _ "0" Ha),
      (or_default_missing _ "0" Hp), (or_default_missing _ "0" Hc).
    repeat split; try reflexivity.
    cbn [NaN_free]. destruct (pos_url position), (ins_symbol instrument),
      (ins_name instrument), (ins_market instrument), (ins_id instrument),
      (ins_url instrument); reflexivity.
Qed.

(** The amended C3 at the position of the test suite with every numeric
    string removed, and at the decimals "175.25" and "10". *)
Lemma C3_numeric_strings_witness :
  parseFloat (or_default (Some "") "0") = 0%float /\
  parseFloat (or_default (Some "175.25") "0") = 175.25%float /\
  parseFloat (or_default (Some "10") "0") = 10%float /\
  NaN_free
    (mapPosition
       {| pos_url := None; pos_instrument := None; pos_averageBuyPrice := None;
          pos_quantity := Some ""; pos_updatedAt := None |}
       mockInstrument None) = true.
Proof.
  pose proof C3_numeric_strings as
    (Hmissing & Hdecimal & Hinteger & _ & _ & _ & _ & _ & _ & _ & Hposition & _).
  split; [|split; [|split]].
  - apply (Hmissing (Some "")). reflexivity.
  - exact (Hdecimal false (D1 (D7 (D5 Nil))) (D2 (D5 Nil)) ltac:(discriminate)).
  - exact (Hinteger false (D1 (D0 Nil)) ltac:(discriminate)).
  - apply (Hposition
             {| pos_url := None; pos_instrument := None; pos_averageBuyPrice := None;
                pos_quantity := Some ""; pos_updatedAt := None |}
             mockInstrument None); reflexivity.
Defined.

(** ** The client *)

Section ClientProperties.

Variable World : Type.
Variable send : AxiosRequestConfig -> World -> (AxiosResponse + string) * World.
Variable random_index : World -> nat * World.
Variable config : RobinhoodConfig.

Import RobinhoodClient.

Lemma authorize_retry (tokens : value) (cfg : AxiosRequestConfig) :
  _retry (authorize tokens cfg) = _retry cfg.
Proof. unfold authorize. now destruct (truthy _). Qed.

(** A request answered with an accepted status returns the response: one
    request goes out, the tokens are untouched. *)
Lemma axios_accepted (fuel : nat) (cfg : AxiosRequestConfig) (s : state World)
    (response : AxiosResponse) (w' : World) :
  send (authorize (authTokens s) cfg) (world s) = (inl response, w') ->
  validateStatus (status response) = true ->
  axios send config (S fuel) cfg s
  = (Ok response, after_request s (authorize (authTokens s) cfg) w').
Proof.
  intros Hsend Hok.
  cbn [axios]. unfold bind, request_interceptor, gets, ret, dispatch.
  cbn. rewrite Hsend, Hok. reflexivity.
Qed.

(** The first step of a request that is not accepted: the rejection handler
    runs on the error, in the state after the request went out. *)
Lemma axios_not_accepted (fuel : nat) (cfg : AxiosRequestConfig) (s : state World)
    (outcome : AxiosResponse + string) (w' : World) :
  send (authorize (authTokens s) cfg) (world s) = (outcome, w') ->
  accepted outcome = false ->
  axios send config (S fuel) cfg s
  = response_rejected World config (axios send config fuel)
      (rejection (authorize (authTokens s) cfg) outcome)
      (after_request s (authorize (authTokens s) cfg) w').
Proof.
  intros Hsend Hno.
  cbn [axios]. unfold bind at 1 2, request_interceptor, gets, ret, dispatch.
  cbn. rewrite Hsend. destruct outcome as [r|msg]; cbn in Hno |- *.
  - now rewrite Hno.
  - reflexivity.
Qed.

(** The rejection handler passes on, untouched, an error that is not a 401 or
    whose request is already marked as a retry. *)
Lemma response_rejected_passes
    (ax : AxiosRequestConfig -> M (state World) AxiosResponse)
    (cfg : AxiosRequestConfig) (outcome : AxiosResponse + string) (s : state World) :
  is_401 outcome && negb (_retry cfg) = false ->
  response_rejected World config ax (rejection cfg outcome) s
  = (Throw (rejection cfg outcome), s).
Proof.
  intros H. destruct outcome as [r|msg]; cbn in H |- *.
  - now rewrite H.
  - reflexivity.
Qed.

(** A request that fails, and either is already marked as a retry or fails
    with anything but a 401, is surfaced at once: its own request is the only
    one sent, no refresh is attempted and the token set is untouched. *)
Lemma axios_surfaces (fuel : nat) (cfg : AxiosRequestConfig) (s : state World)
    (outcome : AxiosResponse + string) (w' : World) :
  send (authorize (authTokens s) cfg) (world s) = (outcome, w') ->
  accepted outcome = false ->
  _retry cfg = true \/ is_401 outcome = false ->
  axios send config (S fuel) cfg s
  = (Throw (rejection (authorize (authTokens s) cfg) outcome),
     after_request s (authorize (authTokens s) cfg) w').
Proof.
  intros Hsend Hno Hwhy.
  rewrite (axios_not_accepted fuel cfg s outcome w' Hsend Hno).
  apply response_rejected_passes.
  rewrite authorize_retry.
  destruct Hwhy as [-> | ->]; [apply andb_false_r | reflexivity].
Qed.

(** A 401 on a fresh request without a refresh token is surfaced too, with the
    request marked. *)
Lemma axios_401_without_refresh_token (fuel : nat) (cfg : AxiosRequestConfig)
    (s : state World) (outcome : AxiosResponse + string) (w' : World) :
  send (authorize (authTokens s) cfg) (world s) = (outcome, w') ->
  is_401 outcome = true ->
  _retry cfg = false ->
  truthy (opt_prop "refreshToken" (authTokens s)) = false ->
  axios send config (S fuel) cfg s
  = (Throw (rejection (mark_retry (authorize (authTokens s) cfg)) outcome),
     after_request s (authorize (authTokens s) cfg) w').
Proof.
  intros Hsend H401 Hfresh Hnone.
  assert (Hno : accepted outcome = false).
  { destruct outcome as [r|msg]; cbn in *; [|reflexivity].
    apply Z.eqb_eq in H401. rewrite H401. reflexivity. }
  rewrite (axios_not_accepted fuel cfg s outcome w' Hsend Hno).
  destruct outcome as [r|msg]; cbn in H401; [|discriminate].
  cbn [rejection response_rejected]. rewrite H401, authorize_retry, Hfresh.
  cbn [negb andb]. unfold bind, gets. cbn. rewrite Hnone. reflexivity.
Qed.

(** What the rejection handler does with a first 401 when a refresh token is
    held: one call of [refreshAccessToken]; if it throws, the token set is
    dropped and its error thrown; if it returns, the marked request is sent
    through the instance again. *)
Lemma response_rejected_refreshes
    (ax : AxiosRequestConfig -> M (state World) AxiosResponse)
    (cfg : AxiosRequestConfig) (outcome : AxiosResponse + string) (s : state World) :
  is_401 outcome = true ->
  _retry cfg = false ->
  truthy (opt_prop "refreshToken" (authTokens s)) = true ->
  response_rejected World config ax (rejection cfg outcome) s
  = match refreshAccessToken_with World config ax s with
    | (Ok _, s1) => ax (mark_retry cfg) s1
    | (Throw refreshError, s1) =>
        (Throw refreshError,
         {| authTokens := VUndefined; world := world s1;
            sent := sent s1; console := console s1 |})
    | (OutOfFuel, s1) => (OutOfFuel, s1)
    end.
Proof.
  intros H401 Hfresh Hheld.
  destruct outcome as [r|msg]; cbn in H401; [|discriminate].
  cbn [rejection response_rejected]. rewrite H401, Hfresh. cbn [negb andb].
  unfold bind at 1, gets at 1. cbn match. rewrite Hheld.
  unfold bind at 1, try_catch, bind at 1.
  destruct (refreshAccessToken_with World config ax s) as [[v|e|] s1]; reflexivity.
Qed.

(** [refreshAccessToken] when its request is accepted: the token set is
    replaced by the response's body. *)
Lemma refreshAccessToken_accepted (fuel : nat) (s : state World)
    (response : AxiosResponse) (w' : World) :
  truthy (opt_prop "refreshToken" (authTokens s)) = true ->
  send (authorize (authTokens s) (refresh_request config (authTokens s))) (world s)
    = (inl response, w') ->
  validateStatus (status response) = true ->
  refreshAccessToken send config (S fuel) s
  = (Ok (data response),
     {| authTokens := data response; world := w';
        sent := (sent s ++ [authorize (authTokens s) (refresh_request config (authTokens s))])%list;
        console := console s |}).
Proof.
  intros Hheld Hsend Hok.
  unfold refreshAccessToken, refreshAccessToken_with.
  unfold bind at 1, gets at 1. cbn match. rewrite Hheld. cbn [negb].
  unfold bind at 1.
  rewrite (axios_accepted fuel _ s response w' Hsend Hok).
  reflexivity.
Qed.

(** [refreshAccessToken] when its request fails with anything but a 401: the
    error of the request is thrown. *)
Lemma refreshAccessToken_rejected (fuel : nat) (s : state World)
    (outcome : AxiosResponse + string) (w' : World) :
  truthy (opt_prop "refreshToken" (authTokens s)) = true ->
  send (authorize (authTokens s) (refresh_request config (authTokens s))) (world s)
    = (outcome, w') ->
  accepted outcome = false ->
  is_401 outcome = false ->
  refreshAccessToken send config (S fuel) s
  = (Throw (rejection (authorize (authTokens s) (refresh_request config (authTokens s))) outcome),
     after_request s (authorize (authTokens s) (refresh_request config (authTokens s))) w').
Proof.
  intros Hheld Hsend Hno Hnot401.
  unfold refreshAccessToken, refreshAccessToken_with.
  unfold bind at 1, gets at 1. cbn match. rewrite Hheld. cbn [negb].
  unfold bind at 1.
  rewrite (axios_surfaces fuel _ s outcome w' Hsend Hno (or_intror Hnot401)).
  reflexivity.
Qed.

(** When the refresh request is itself accepted: a first 401 with a refresh
    token held leads to exactly three requests, the original one, one refresh
    request and the original one again, marked as a retry and carrying the
    new access token; the outcome of the call is the outcome of that third
    request, which is not retried again. *)
Lemma axios_refresh_then_replay (fuel : nat) (cfg : AxiosRequestConfig)
    (s : state World) (o1 : AxiosResponse + string) (w1 : World)
    (r2 : AxiosResponse) (w2 : World) (o3 : AxiosResponse + string) (w3 : World) :
  let cfg1 := authorize (authTokens s) cfg in
  let cfg2 := authorize (authTokens s) (refresh_request config (authTokens s)) in
  let cfg3 := authorize (data r2) (mark_retry cfg1) in
  _retry cfg = false ->
  truthy (opt_prop "refreshToken" (authTokens s)) = true ->
  send cfg1 (world s) = (o1, w1) ->
  is_401 o1 = true ->
  send cfg2 w1 = (inl r2, w2) ->
  validateStatus (status r2) = true ->
  send cfg3 w2 = (o3, w3) ->
  axios send config (S (S fuel)) cfg s
  = (match o3 with
     | inl r3 => if validateStatus (status r3) then Ok r3 else Throw (rejection cfg3 o3)
     | inr _ => Throw (rejection cfg3 o3)
     end,
     {| authTokens := data r2; world := w3;
        sent := (sent s ++ [cfg1; cfg2; cfg3])%list; console := console s |}).
Proof.
  intros cfg1 cfg2 cfg3 Hfresh Hheld H1 H401 H2 Hok2 H3.
  assert (Hno : accepted o1 = false).
  { destruct o1 as [r|msg]; cbn in *; [|reflexivity].
    apply Z.eqb_eq in H401. rewrite H401. reflexivity. }
  rewrite (axios_not_accepted (S fuel) cfg s o1 w1 H1 Hno).
  fold cfg1.
  rewrite response_rejected_refreshes;
    [ | assumption | unfold cfg1; now rewrite authorize_retry | assumption ].
  change (refreshAccessToken_with World config (axios send config (S fuel)))
    with (refreshAccessToken send config (S fuel)).
  rewrite (refreshAccessToken_accepted fuel (after_request s cfg1 w1) r2 w2 Hheld H2 Hok2).
  cbn [after_request authTokens world sent console].
  destruct o3 as [r3|msg].
  - destruct (validateStatus (status r3)) eqn:Hok3.
    + erewrite axios_accepted; [ | cbn; exact H3 | exact Hok3 ].
      unfold after_request. cbn. now rewrite <- !List.app_assoc.
    + erewrite axios_surfaces;
        [ | cbn; exact H3 | exact Hok3 | left; reflexivity ].
      unfold after_request. cbn. now rewrite <- !List.app_assoc.
  - erewrite axios_surfaces;
      [ | cbn; exact H3 | reflexivity | left; reflexivity ].
    unfold after_request. cbn. now rewrite <- !List.app_assoc.
Qed.

(** When the refresh request fails with anything but a 401: two requests are
    sent, the stored token set is dropped ([isAuthenticated] is false
    afterwards) and the error of the refresh request is what the call
    throws. *)
Lemma axios_failed_refresh (fuel : nat) (cfg : AxiosRequestConfig)
    (s : state World) (o1 : AxiosResponse + string) (w1 : World)
    (o2 : AxiosResponse + string) (w2 : World) :
  let cfg1 := authorize (authTokens s) cfg in
  let cfg2 := authorize (authTokens s) (refresh_request config (authTokens s)) in
  _retry cfg = false ->
  truthy (opt_prop "refreshToken" (authTokens s)) = true ->
  send cfg1 (world s) = (o1, w1) ->
  is_401 o1 = true ->
  send cfg2 w1 = (o2, w2) ->
  accepted o2 = false ->
  is_401 o2 = false ->
  axios send config (S (S fuel)) cfg s
  = (Throw (rejection cfg2 o2),
     {| authTokens := VUndefined; world := w2;
        sent := (sent s ++ [cfg1; cfg2])%list; console := console s |})
  /\ isAuthenticated (snd (axios send config (S (S fuel)) cfg s)) = false.
Proof.
  intros cfg1 cfg2 Hfresh Hheld H1 H401 H2 Hno2 Hnot401.
  assert (Hno : accepted o1 = false).
  { destruct o1 as [r|msg]; cbn in *; [|reflexivity].
    apply Z.eqb_eq in H401. rewrite H401. reflexivity. }
  assert (E : axios send config (S (S fuel)) cfg s
    = (Throw (rejection cfg2 o2),
     {| authTokens := VUndefined; world := w2;
        sent := (sent s ++ [cfg1; cfg2])%list; console := console s |})).
  { rewrite (axios_not_accepted (S fuel) cfg s o1 w1 H1 Hno).
    fold cfg1.
    rewrite response_rejected_refreshes;
      [ | assumption | unfold cfg1; now rewrite authorize_retry | assumption ].
    change (refreshAccessToken_with World config (axios send config (S fuel)))
      with (refreshAccessToken send config (S fuel)).
    rewrite (refreshAccessToken_rejected fuel (after_request s cfg1 w1) o2 w2
               Hheld H2 Hno2 Hnot401).
    cbn [after_request authTokens world sent console].
    now rewrite <- List.app_assoc. }
  split; [exact E|]. rewrite E. reflexivity.
Qed.

(** [authenticate] when the authentication request is accepted. *)
Lemma authenticate_accepted (fuel : nat) (credentials : RobinhoodCredentials)
    (s : state World) (response : AxiosResponse) (w' : World) :
  let d := device_token_for random_index credentials (world s) in
  let cfg := authorize (authTokens s) (login_request credentials (fst d)) in
  send cfg (snd d) = (inl response, w') ->
  validateStatus (status response) = true ->
  authenticate send random_index config (S fuel) credentials s
  = (Ok (data response),
     {| authTokens := data response; world := w';
        sent := (sent s ++ [cfg])%list; console := console s |}).
Proof.
  intros d cfg Hsend Hok.
  unfold authenticate, try_catch, bind at 1, device_token.
  fold d. destruct d as [token w1] eqn:Ed. cbn [fst snd] in *.
  unfold bind at 1.
  erewrite axios_accepted; [ | cbn; exact Hsend | exact Hok ].
  reflexivity.
Qed.

(** [authenticate] when the authentication request is answered with a 400. *)
Lemma authenticate_400 (fuel : nat) (credentials : RobinhoodCredentials)
    (s : state World) (body : value) (w' : World) :
  let d := device_token_for random_index credentials (world s) in
  let cfg := authorize (authTokens s) (login_request credentials (fst d)) in
  send cfg (snd d) = (inl {| status := 400; data := body |}, w') ->
  authenticate send random_index config (S fuel) credentials s
  = (Throw
       (match body with
        | VUndefined | VNull =>
            TypeError "Cannot read properties of null (reading 'mfa_required')"
        | _ =>
            if truthy (prop "mfa_required" body) then Error "MFA_REQUIRED"
            else rejection cfg (inl {| status := 400; data := body |})
        end),
     {| authTokens := authTokens s; world := w';
        sent := (sent s ++ [cfg])%list; console := console s |}).
Proof.
  intros d cfg Hsend.
  unfold authenticate, try_catch, bind at 1, device_token.
  fold d. destruct d as [token w1] eqn:Ed. cbn [fst snd] in *.
  unfold bind at 1.
  erewrite axios_surfaces;
    [ | cbn; exact Hsend | reflexivity | right; reflexivity ].
  cbn [rejection isAxiosError response_status_is status data andb Z.eqb Pos.eqb].
  unfold after_request, throw. cbn [authTokens world sent console].
  destruct body; try reflexivity; cbn [prop];
    match goal with |- context [truthy ?v] => destruct (truthy v) end; reflexivity.
Qed.

End ClientProperties.

(** On an upstream that answers 401 to everything, a client holding a refresh
    token never finishes a request: each refresh request is itself answered
    401, is not marked as a retry, and so starts another refresh. *)
Lemma axios_401_forever (config : RobinhoodConfig) (tokens : value) :
  truthy (RobinhoodClient.opt_prop "refreshToken" tokens) = true ->
  forall (fuel : nat) (cfg : AxiosRequestConfig) (s : state unit),
    authTokens s = tokens ->
    _retry cfg = false ->
    RobinhoodClient.axios send_401 config fuel cfg s
    = (OutOfFuel,
       {| authTokens := tokens; world := tt;
          sent := (sent s ++
                   match fuel with
                   | O => []
                   | S f =>
                       RobinhoodClient.authorize tokens cfg
                       :: repeat (RobinhoodClient.authorize tokens
                                    (RobinhoodClient.refresh_request config tokens)) f
                   end)%list;
          console := console s |}).
Proof.
  intros Hheld fuel.
  induction fuel as [|fuel IH]; intros cfg s Htok Hfresh;
    destruct s as [t [] se co]; cbn in Htok; subst t.
  - cbn. now rewrite List.app_nil_r.
  - rewrite (axios_not_accepted unit send_401 config fuel cfg _
               (inl {| status := 401; data := VNull |}) tt eq_refl eq_refl).
    rewrite response_rejected_refreshes;
      [ | reflexivity | rewrite authorize_retry; exact Hfresh | exact Hheld ].
    unfold RobinhoodClient.refreshAccessToken_with.
    unfold bind at 1, gets at 1. cbn match.
    cbn [RobinhoodClient.after_request authTokens world sent console].
    rewrite Hheld. cbn [negb].
    unfold bind at 1.
    rewrite IH; [ | reflexivity | reflexivity ].
    cbn [sent console]. f_equal. f_equal.
    cbn [RobinhoodClient.after_request sent].
    rewrite <- List.app_assoc. cbn [app]. f_equal. f_equal.
    destruct fuel; reflexivity.
Qed.

Lemma filter_repeat_true {A} (p : A -> bool) (x : A) (n : nat) :
  p x = true -> filter p (repeat x n) = repeat x n.
Proof. intros H. induction n; cbn; [reflexivity|]. now rewrite H, IHn. Qed.

(** C1 (not met by the code).  The claim: a request that fails with a 401,
    is not marked as a retry and finds a refresh token, leads to exactly one
    refresh attempt, and to one re-issue of the request if the refresh
    succeeds.  The lemmas above ([axios_refresh_then_replay],
    [axios_failed_refresh], [axios_surfaces]) show the client does so as long
    as the refresh request is not itself answered 401.  When it is, the
    refresh request, which goes through the same interceptors and is never
    marked as a retry, starts a refresh of its own:
    - on an upstream that answers 401 to everything the call never returns,
      and with fuel [n] it has sent [n - 1] refresh requests;
    - answered 401, 401, 400, one request has caused two refresh requests;
    - answered 401, 401, 200, 200, 200, the request succeeds after three
      refresh requests. *)
Theorem C1_refresh_request_401_starts_another_refresh :
  (forall (config : RobinhoodConfig) (fuel : nat) (url : value),
      let r := RobinhoodClient.get send_401 config fuel url
                 (client_with mockAuthTokens tt) in
      fst r = OutOfFuel /\
      List.length (filter RobinhoodClient.is_refresh_request (sent (snd r)))
      = (fuel - 1)%nat)
  /\
  (forall fuel : nat,
      let r := RobinhoodClient.get send_scripted defaultConfig (3 + fuel)
                 (VStr "/accounts/")
                 (client_with mockAuthTokens
                    [respond 401 VNull; respond 401 VNull; respond 400 VNull]) in
      map (fun cfg => (cfg_method cfg, cfg_url cfg)) (sent (snd r))
      = [(GET, VStr "/accounts/"); (POST, VStr "/oauth/token/");
         (POST, VStr "/oauth/token/")] /\
      List.length (filter RobinhoodClient.is_refresh_request (sent (snd r))) = 2%nat /\
      RobinhoodClient.isAuthenticated (snd r) = false)
  /\
  (forall fuel : nat,
      let r := RobinhoodClient.get send_scripted defaultConfig (3 + fuel)
                 (VStr "/accounts/")
                 (client_with mockAuthTokens
                    [respond 401 VNull; respond 401 VNull;
                     respond 200 mockAuthTokens; respond 200 mockAuthTokens;
                     respond 200 (VArr [])]) in
      fst r = Ok (VArr []) /\
      map (fun cfg => (cfg_method cfg, cfg_url cfg, _retry cfg)) (sent (snd r))
      = [(GET, VStr "/accounts/", false); (POST, VStr "/oauth/token/", false);
         (POST, VStr "/oauth/token/", false); (POST, VStr "/oauth/token/", true);
         (GET, VStr "/accounts/", true)] /\
      List.length (filter RobinhoodClient.is_refresh_request (sent (snd r))) = 3%nat).
Proof.
  split; [|split].
  - intros config fuel url r. subst r. unfold RobinhoodClient.get, bind.
    rewrite (axios_401_forever config mockAuthTokens eq_refl fuel
               (RobinhoodClient.request_config GET url VUndefined)
               (client_with mockAuthTokens tt) eq_refl eq_refl).
    split; [reflexivity|].
    cbn [snd sent client_with app].
    destruct fuel as [|fuel]; [reflexivity|].
    change (List.length
              (filter RobinhoodClient.is_refresh_request
                 (repeat (RobinhoodClient.authorize mockAuthTokens
                            (RobinhoodClient.refresh_request config mockAuthTokens))
                    fuel)) = (S fuel - 1)%nat).
    rewrite filter_repeat_true by reflexivity.
    rewrite repeat_length. lia.
  - intros fuel. cbv zeta. repeat split; vm_compute; reflexivity.
  - intros fuel. cbv zeta. repeat split; vm_compute; reflexivity.
Qed.

(** C5.  For every authentication attempt:
    - when the upstream accepts the authentication request and returns a
      token set, [authenticate] stores it; it carries an access token, so
      [isAuthenticated()] is true afterwards;
    - when the upstream answers 400 with a body whose [mfa_required] is set,
      the client fails with the error [MFA_REQUIRED], the service surfaces a
      StandardizedError whose code is "MFA_REQUIRED", not "AUTH_FAILED", the
      token set is left as it was and [isAuthenticated()] remains false;
    - a 400 without [mfa_required] is surfaced as "AUTH_FAILED". *)
Theorem C5_authenticate :
  forall (World : Type)
         (send : AxiosRequestConfig -> World -> (AxiosResponse + string) * World)
         (random_index : World -> nat * World) (config : RobinhoodConfig)
         (fuel : nat) (credentials : RobinhoodCredentials) (s : state World),
    let d := RobinhoodClient.device_token_for random_index credentials (world s) in
    let cfg := RobinhoodClient.authorize (authTokens s)
                 (RobinhoodClient.login_request credentials (fst d)) in
    let client := RobinhoodClient.authenticate send random_index config (S fuel) credentials s in
    let service := RobinhoodService.authenticate send random_index config (S fuel) credentials s in
    (forall (st : Z) (tokens : value) (w' : World),
        send cfg (snd d) = (inl {| status := st; data := tokens |}, w') ->
        RobinhoodClient.validateStatus st = true ->
        truthy (RobinhoodClient.opt_prop "accessToken" tokens) = true ->
        fst client = Ok tokens /\
        fst service = Ok tt /\
        snd service = snd client /\
        authTokens (snd service) = tokens /\
        RobinhoodService.isAuthenticated (snd service) = true)
    /\
    (forall (body : value) (w' : World),
        send cfg (snd d) = (inl {| status := 400; data := body |}, w') ->
        truthy (prop "mfa_required" body) = true ->
        RobinhoodService.isAuthenticated s = false ->
        fst client = Throw (Error "MFA_REQUIRED") /\
        fst service =
          Throw (StandardizedError "MFA_REQUIRED"
                   "Multi-factor authentication required" None DateNow "robinhood") /\
        authTokens (snd service) = authTokens s /\
        RobinhoodService.isAuthenticated (snd service) = false)
    /\
    (forall (fs : list (string * value)) (w' : World),
        send cfg (snd d) = (inl {| status := 400; data := VObj fs |}, w') ->
        truthy (prop "mfa_required" (VObj fs)) = false ->
        fst service =
          Throw (StandardizedError "AUTH_FAILED" "Authentication failed"
                   (Some (RobinhoodClient.rejection cfg
                            (inl {| status := 400; data := VObj fs |})))
                   DateNow "robinhood")).
Proof.
  intros World send random_index config fuel credentials s d cfg client service.
  split; [|split].
  - intros st tokens w' Hsend Hok Htoken.
    pose proof (authenticate_accepted World send random_index config fuel
                  credentials s {| status := st; data := tokens |} w' Hsend Hok) as E.
    cbn [data] in E. fold d cfg client in E.
    subst service. unfold RobinhoodService.authenticate, try_catch, bind.
    fold client. rewrite E. cbn [fst snd authTokens ret].
    repeat split; try reflexivity. exact Htoken.
  - intros body w' Hsend Hmfa Hnot.
    pose proof (authenticate_400 World send random_index config fuel
                  credentials s body w' Hsend) as E.
    fold d cfg client in E.
    assert (Ebody : client = (Throw (Error "MFA_REQUIRED"),
              {| authTokens := authTokens s; world := w';
                 sent := (sent s ++ [cfg])%list; console := console s |})).
    { rewrite E. destruct body; cbn in Hmfa; try discriminate Hmfa.
      cbn [prop]. now rewrite Hmfa. }
    subst service. unfold RobinhoodService.authenticate, try_catch, bind.
    fold client. rewrite Ebody. cbn [fst snd authTokens].
    repeat split; try reflexivity. exact Hnot.
  - intros fs w' Hsend Hmfa.
    pose proof (authenticate_400 World send random_index config fuel
                  credentials s (VObj fs) w' Hsend) as E.
    fold d cfg client in E. rewrite Hmfa in E.
    subst service. unfold RobinhoodService.authenticate, try_catch, bind.
    fold client. rewrite E. cbn [fst snd].
    unfold RobinhoodClient.rejection at 1, RobinhoodClient.status_message.
    reflexivity.
Qed.

(** C5 on a scripted upstream: the credentials of the test suite, accepted
    with the token set of the test suite, and refused with
    [mfa_required: true]. *)
Lemma C5_authenticate_witness :
  (let r := RobinhoodService.authenticate send_scripted no_random defaultConfig 1
              mockCredentials (client_with VUndefined [respond 200 mockAuthTokens]) in
   fst r = Ok tt /\ RobinhoodService.isAuthenticated (snd r) = true) /\
  (let r := RobinhoodService.authenticate send_scripted no_random defaultConfig 1
              mockCredentials
              (client_with VUndefined
                 [respond 400 (VObj [("mfa_required", VBool true)])]) in
   fst r = Throw (StandardizedError "MFA_REQUIRED"
                    "Multi-factor authentication required" None DateNow "robinhood") /\
   RobinhoodService.isAuthenticated (snd r) = false).
Proof.
  cbv zeta. split.
  - pose proof (C5_authenticate Script send_scripted no_random defaultConfig 0
                  mockCredentials
                  (client_with VUndefined [respond 200 mockAuthTokens]))
      as (Haccepted & _ & _).
    destruct (Haccepted 200%Z mockAuthTokens [] eq_refl eq_refl eq_refl)
      as (_ & E & _ & _ & Eauth).
    split; [exact E | exact Eauth].
  - pose proof (C5_authenticate Script send_scripted no_random defaultConfig 0
                  mockCredentials
                  (client_with VUndefined
                     [respond 400 (VObj [("mfa_required", VBool true)])]))
      as (_ & Hmfa & _).
    destruct (Hmfa (VObj [("mfa_required", VBool true)]) [] eq_refl eq_refl eq_refl)
      as (_ & E & _ & Eauth).
    split; [exact E | exact Eauth].
Defined.

Section PaginateProperties.

Variable World : Type.
Variable send : AxiosRequestConfig -> World -> (AxiosResponse + string) * World.
Variable config : RobinhoodConfig.

Import RobinhoodClient.

(** The requests that fetch the pages [bodies] from [url]. *)
Lemma requested_urls_length (url : value) (bodies : list value) :
  List.length (requested_urls url bodies) = List.length bodies.
Proof.
  revert url. induction bodies as [|b bodies IH]; intros url; cbn; [reflexivity|].
  now rewrite IH.
Qed.

Lemma get_accepted (fuel : nat) (url : value) (s : state World)
    (st : Z) (body : value) (w' : World) :
  send (authorize (authTokens s) (request_config GET url VUndefined)) (world s)
    = (inl {| status := st; data := body |}, w') ->
  validateStatus st = true ->
  get send config (S fuel) url s
  = (Ok body,
     after_request s (authorize (authTokens s) (request_config GET url VUndefined)) w').
Proof.
  intros Hsend Hok. unfold get, bind.
  now rewrite (axios_accepted World send config fuel _ s _ w' Hsend Hok).
Qed.

(** The loop of [paginate] over served pages: every page's items are appended
    in order, and one GET goes out per page. *)
Lemma paginate_loop_served (tokens : value) (w : World) (url : value)
    (bodies : list value) (w' : World) :
  Served send tokens w url bodies w' ->
  forall (items : list (list value)),
    Forall2 (fun body xs => page_items body = inr xs) bodies items ->
    forall (fuel turns : nat) (results : list value) (s : state World),
      authTokens s = tokens ->
      world s = w ->
      List.length bodies <= turns ->
      paginate_loop send config (S fuel) turns results url s
      = (Ok (results ++ List.concat items)%list,
         {| authTokens := tokens; world := w';
            sent := (sent s ++
                     map (fun u => authorize tokens (request_config GET u VUndefined))
                       (requested_urls url bodies))%list;
            console := console s |}).
Proof.
  induction 1 as [w url st body w' Hurl Hsend Hok Hnext
                 |w url st body w1 bodies w' Hurl Hsend Hok Hnext HS IH];
    intros items Hitems fuel turns results s Htok Hw Hlen.
  - inversion Hitems as [|b xs bs xss Hxs Hrest]; subst.
    inversion Hrest; subst.
    destruct turns as [|turns]; [cbn in Hlen; lia|].
    cbn [paginate_loop]. rewrite Hurl. unfold bind at 1.
    rewrite (get_accepted fuel url s st body w' Hsend Hok).
    unfold bind at 1, push_page. rewrite Hxs. unfold ret at 1.
    unfold or_value. rewrite Hnext.
    destruct turns; cbn [paginate_loop truthy]; unfold ret, after_request; cbn;
      now rewrite List.app_nil_r.
  - inversion Hitems as [|b xs bs xss Hxs Hrest]; subst.
    destruct turns as [|turns]; [cbn in Hlen; lia|].
    cbn [paginate_loop]. rewrite Hurl. unfold bind at 1.
    rewrite (get_accepted fuel url s st body w1 Hsend Hok).
    unfold bind at 1, push_page. rewrite Hxs. unfold ret at 1.
    unfold or_value. rewrite Hnext.
    rewrite (IH xss Hrest fuel turns (results ++ xs)%list
               (after_request s (authorize (authTokens s) (request_config GET url VUndefined)) w1)
               eq_refl eq_refl); [|cbn in Hlen; lia].
    cbn [after_request sent console requested_urls map List.concat].
    now rewrite <- !List.app_assoc.
Qed.

Lemma page_items_envelope (body : value) (xs : list value) :
  prop "results" body = VArr xs ->
  page_items body = inr xs /\ results_of body = xs.
Proof.
  intros H. unfold results_of. rewrite H. split; [|reflexivity].
  destruct body; cbn in H; try discriminate H.
  unfold page_items. cbn [prop]. cbn in H. now rewrite H.
Qed.

Lemma envelopes_items (bodies : list value) :
  Forall (fun body => exists xs, prop "results" body = VArr xs) bodies ->
  Forall2 (fun body xs => page_items body = inr xs) bodies (map results_of bodies).
Proof.
  induction 1 as [|b bodies [xs Hb] _ IH]; cbn; constructor; [|exact IH].
  destruct (page_items_envelope b xs Hb) as [-> ->]. reflexivity.
Qed.

End PaginateProperties.

(** C2 (as stated, refuted).  A body that is a single object, without
    [results] and not a sequence, but with a [next] link: [paginate] does not
    return the one-element sequence, it follows the link (two requests) and
    returns what it found there as well.  And [paginate("")] sends no request
    at all: it returns the empty sequence whatever the upstream would
    answer. *)
Lemma C2_counterexample :
  let body := VObj [("id", VStr "a"); ("next", VStr "/p2")] in
  let r := RobinhoodClient.paginate send_scripted defaultConfig 5 "/x"
             (client_with VUndefined
                [respond 200 body; respond 200 (VArr [VStr "b"])]) in
  let r0 := RobinhoodClient.paginate send_scripted defaultConfig 5 ""
              (client_with VUndefined [respond 200 (VArr [VStr "b"])]) in
  has_field "results" body = false /\
  RobinhoodClient.isArray body = false /\
  fst r = Ok [body; VStr "b"] /\
  fst r <> Ok [body] /\
  List.length (sent (snd r)) = 2%nat /\
  fst r0 = Ok [] /\
  sent (snd r0) = [].
Proof.
  cbv zeta. repeat split; try (vm_compute; reflexivity).
  vm_compute. discriminate.
Qed.

(** C2 (amended).  For a non-empty [url] and pages that are each served with
    an accepted status:
    - for N pages whose [results] are lists of sizes s1..sN, where every page
      but the last carries a truthy [next] (the address of the following
      page) and the last carries none, [paginate(url)] returns the
      concatenation of the [results] lists in upstream order, of length
      s1 + ... + sN, and sends exactly N requests, all GET;
    - for a body that is directly a sequence it returns that sequence, after
      one request;
    - for a body that is a single object without [results] and without a
      truthy [next] it returns the one-element sequence holding that object,
      after one request. *)
Theorem C2_paginate :
  forall (World : Type)
         (send : AxiosRequestConfig -> World -> (AxiosResponse + string) * World)
         (config : RobinhoodConfig) (s : state World),
    (forall (fuel : nat) (url : string) (bodies : list value) (w' : World),
        RobinhoodClient.Served send (authTokens s) (world s) (VStr url) bodies w' ->
        Forall (fun body => exists xs, prop "results" body = VArr xs) bodies ->
        List.length bodies <= fuel ->
        let r := RobinhoodClient.paginate send config fuel url s in
        let requests :=
          map (fun u => RobinhoodClient.authorize (authTokens s)
                          (RobinhoodClient.request_config GET u VUndefined))
            (RobinhoodClient.requested_urls (VStr url) bodies) in
        fst r = Ok (List.concat (map RobinhoodClient.results_of bodies)) /\
        List.length (List.concat (map RobinhoodClient.results_of bodies))
          = list_sum (map (fun body => List.length (RobinhoodClient.results_of body)) bodies) /\
        sent (snd r) = (sent s ++ requests)%list /\
        List.length requests = List.length bodies /\
        Forall (fun cfg => cfg_method cfg = GET) requests)
    /\
    (forall (fuel : nat) (url : string) (st : Z) (xs : list value) (w' : World),
        url <> "" ->
        send (RobinhoodClient.authorize (authTokens s)
                (RobinhoodClient.request_config GET (VStr url) VUndefined)) (world s)
          = (inl {| status := st; data := VArr xs |}, w') ->
        RobinhoodClient.validateStatus st = true ->
        let r := RobinhoodClient.paginate send config (S fuel) url s in
        fst r = Ok xs /\ List.length (sent (snd r)) = S (List.length (sent s)))
    /\
    (forall (fuel : nat) (url : string) (st : Z) (fs : list (string * value)) (w' : World),
        url <> "" ->
        send (RobinhoodClient.authorize (authTokens s)
                (RobinhoodClient.request_config GET (VStr url) VUndefined)) (world s)
          = (inl {| status := st; data := VObj fs |}, w') ->
        RobinhoodClient.validateStatus st = true ->
        has_field "results" (VObj fs) = false ->
        truthy (prop "next" (VObj fs)) = false ->
        let r := RobinhoodClient.paginate send config (S fuel) url s in
        fst r = Ok [VObj fs] /\ List.length (sent (snd r)) = S (List.length (sent s))).
Proof.
  intros World send config s.
  assert (Hurl : forall url : string, url <> "" -> truthy (VStr url) = true).
  { intros url H. cbn. destruct (String.eqb_spec url ""); [contradiction|reflexivity]. }
  split; [|split].
  - intros fuel url bodies w' HS Hres Hlen r requests.
    assert (Hfuel : exists f, fuel = S f).
    { destruct fuel; [|eauto]. inversion HS; subst; cbn in Hlen; lia. }
    destruct Hfuel as [f ->].
    pose proof (paginate_loop_served World send config _ _ _ _ _ HS _
                  (envelopes_items bodies Hres) f (S f) [] s eq_refl eq_refl Hlen) as E.
    change (RobinhoodClient.paginate_loop send config (S f) (S f) [] (VStr url) s)
      with (RobinhoodClient.paginate send config (S f) url s) in E.
    fold r in E. rewrite E. cbn [fst snd sent app].
    repeat split.
    + rewrite length_concat, map_map. reflexivity.
    + unfold requests. now rewrite length_map, requested_urls_length.
    + unfold requests. apply Forall_map, Forall_forall. intros u _.
      unfold RobinhoodClient.authorize. now destruct (truthy _).
  - intros fuel url st xs w' Hne Hsend Hok r.
    assert (HS : RobinhoodClient.Served send (authTokens s) (world s) (VStr url) [VArr xs] w')
      by (eapply RobinhoodClient.Served_last; eauto).
    pose proof (paginate_loop_served World send config _ _ _ _ _ HS [xs]
                  ltac:(repeat constructor) fuel (S fuel) [] s eq_refl eq_refl
                  ltac:(cbn; lia)) as E.
    change (RobinhoodClient.paginate_loop send config (S fuel) (S fuel) [] (VStr url) s)
      with (RobinhoodClient.paginate send config (S fuel) url s) in E.
    fold r in E. rewrite E. cbn [fst snd sent app List.concat].
    split; [now rewrite List.app_nil_r|].
    rewrite length_app. cbn. lia.
  - intros fuel url st fs w' Hne Hsend Hok Hnores Hnonext r.
    assert (HS : RobinhoodClient.Served send (authTokens s) (world s) (VStr url) [VObj fs] w')
      by (eapply RobinhoodClient.Served_last; eauto).
    assert (Hitems : RobinhoodClient.page_items (VObj fs) = inr [VObj fs]).
    { unfold RobinhoodClient.page_items. cbn in Hnores |- *.
      destruct (assoc "results" fs); [discriminate|reflexivity]. }
    pose proof (paginate_loop_served World send config _ _ _ _ _ HS [[VObj fs]]
                  ltac:(repeat constructor; exact Hitems) fuel (S fuel) [] s
                  eq_refl eq_refl ltac:(cbn; lia)) as E.
    change (RobinhoodClient.paginate_loop send config (S fuel) (S fuel) [] (VStr url) s)
      with (RobinhoodClient.paginate send config (S fuel) url s) in E.
    fold r in E. rewrite E. cbn [fst snd sent app List.concat].
    split; [reflexivity|].
    rewrite length_app. cbn. lia.
Qed.

(** The amended C2 on a scripted upstream: two pages of sizes 2 and 1, a bare
    sequence, and a single object. *)
Lemma C2_paginate_witness :
  let page1 := VObj [("results", VArr [VStr "a"; VStr "b"]); ("next", VStr "/p2")] in
  let page2 := VObj [("results", VArr [VStr "c"]); ("next", VNull)] in
  let account := VObj [("accountNumber", VStr "TEST123456")] in
  let r := RobinhoodClient.paginate send_scripted defaultConfig 2 "/positions/"
             (client_with mockAuthTokens [respond 200 page1; respond 200 page2]) in
  (fst r = Ok [VStr "a"; VStr "b"; VStr "c"] /\ List.length (sent (snd r)) = 2%nat) /\
  fst (RobinhoodClient.paginate send_scripted defaultConfig 1 "/accounts/"
         (client_with mockAuthTokens [respond 200 (VArr [VStr "a"])]))
  = Ok [VStr "a"] /\
  fst (RobinhoodClient.paginate send_scripted defaultConfig 1 "/accounts/X/"
         (client_with mockAuthTokens [respond 200 account]))
  = Ok [account].
Proof.
  cbv zeta.
  split; [|split].
  - pose proof (C2_paginate Script send_scripted defaultConfig
                  (client_with mockAuthTokens
                     [respond 200 (VObj [("results", VArr [VStr "a"; VStr "b"]);
                                         ("next", VStr "/p2")]);
                      respond 200 (VObj [("results", VArr [VStr "c"]);
                                         ("next", VNull)])]))
      as (Hpages & _ & _).
    edestruct (Hpages 2%nat "/positions/") as (E & _ & Esent & Elen & _).
    + eapply RobinhoodClient.Served_next;
        [reflexivity | reflexivity | reflexivity | reflexivity |].
      eapply RobinhoodClient.Served_last; reflexivity.
    + repeat constructor; eexists; reflexivity.
    + cbn. lia.
    + split; [rewrite E; reflexivity|]. rewrite Esent. reflexivity.
  - pose proof (C2_paginate Script send_scripted defaultConfig
                  (client_with mockAuthTokens [respond 200 (VArr [VStr "a"])]))
      as (_ & Hsequence & _).
    edestruct (Hsequence 0%nat "/accounts/") as (E & _);
      [discriminate | reflexivity | reflexivity | exact E].
  - pose proof (C2_paginate Script send_scripted defaultConfig
                  (client_with mockAuthTokens
                     [respond 200 (VObj [("accountNumber", VStr "TEST123456")])]))
      as (_ & _ & Hobject).
    edestruct (Hobject 0%nat "/accounts/X/") as (E & _);
      [discriminate | reflexivity | reflexivity | reflexivity | reflexivity | exact E].
Defined.

(** ** The service *)

Section ServiceProperties.

Variable World : Type.
Variable api : RobinhoodAPI World.

Import RobinhoodService.

Lemma kept_length (outcomes : list (option value)) :
  (List.length (kept outcomes) + failures outcomes = List.length outcomes)%nat.
Proof.
  induction outcomes as [|[v|] outcomes IH]; cbn; lia.
Qed.

(** The loop of [getPositions] appends the enriched positions and skips the
    others. *)
Lemma getPositions_loop_enriched (s : state World)
    (positions : list RobinhoodPosition) (outcomes : list (option value))
    (s' : state World) :
  Enriched api s positions outcomes s' ->
  forall standardizedPositions : list value,
    getPositions_loop api positions standardizedPositions s
    = (Ok (standardizedPositions ++ kept outcomes)%list, s').
Proof.
  induction 1 as [s
                 |s position instrument s1 quote s2 rest outcomes s' Hi Hq _ IH
                 |s position error s1 rest outcomes s' Hi _ IH
                 |s position instrument s1 error s2 rest outcomes s' Hi Hq _ IH];
    intros acc.
  - cbn. now rewrite List.app_nil_r.
  - cbn [getPositions_loop kept].
    unfold bind at 1, getPositions_step, try_catch, bind at 1. rewrite Hi.
    unfold bind at 1. rewrite Hq. unfold ret at 1.
    rewrite IH. now rewrite <- List.app_assoc.
  - cbn [getPositions_loop kept].
    unfold bind at 1, getPositions_step, try_catch, bind at 1. rewrite Hi.
    unfold bind at 1, console_error, modify, ret at 1.
    apply IH.
  - cbn [getPositions_loop kept].
    unfold bind at 1, getPositions_step, try_catch, bind at 1. rewrite Hi.
    unfold bind at 1. rewrite Hq.
    unfold bind at 1, console_error, modify, ret at 1.
    apply IH.
Qed.

Lemma Enriched_length (s : state World) (positions : list RobinhoodPosition)
    (outcomes : list (option value)) (s' : state World) :
  Enriched api s positions outcomes s' ->
  List.length outcomes = List.length positions.
Proof. induction 1; cbn; congruence. Qed.

(** As long as no lookup runs forever, the lookups of any list of positions
    come to an end. *)
Lemma Enriched_total :
  (forall url s, fst (api_getInstrumentFromUrl api url s) <> OutOfFuel) ->
  (forall symbol s, fst (api_getQuote api symbol s) <> OutOfFuel) ->
  forall (positions : list RobinhoodPosition) (s : state World),
    exists outcomes s', Enriched api s positions outcomes s'.
Proof.
  intros Hinstrument Hquote positions.
  induction positions as [|position rest IH]; intros s.
  - exists [], s. constructor.
  - destruct (api_getInstrumentFromUrl api (pos_instrument position) s)
      as [[instrument|error|] s1] eqn:Hi.
    + destruct (api_getQuote api (ins_symbol instrument) s1)
        as [[quote|error|] s2] eqn:Hq.
      * destruct (IH s2) as (outcomes & s' & H).
        eexists _, s'. eapply Enriched_both; eauto.
      * destruct (IH (logged s2
           ("Failed to fetch data for position " ++ ToString (pos_url position) ++ ":")
           error)) as (outcomes & s' & H).
        eexists _, s'. eapply Enriched_no_quote; eauto.
      * exfalso. apply (Hquote (ins_symbol instrument) s1). now rewrite Hq.
    + destruct (IH (logged s1
         ("Failed to fetch data for position " ++ ToString (pos_url position) ++ ":")
         error)) as (outcomes & s' & H).
      eexists _, s'. eapply Enriched_no_instrument; eauto.
    + exfalso. apply (Hinstrument (pos_instrument position) s). now rewrite Hi.
Qed.

(** The loop of [getTransactions] appends one transaction per order. *)
Lemma getTransactions_loop_resolved (s : state World)
    (orders : list RobinhoodOrder) (instruments : list (option RobinhoodInstrument))
    (s' : state World) :
  Resolved api s orders instruments s' ->
  forall transactions : list value,
    getTransactions_loop api orders transactions s
    = (Ok (transactions ++ transactions_of orders instruments)%list, s').
Proof.
  induction 1 as [s
                 |s order instrument s1 rest instruments s' Hi _ IH
                 |s order error s1 rest instruments s' Hi _ IH];
    intros acc.
  - cbn. now rewrite List.app_nil_r.
  - cbn [getTransactions_loop transactions_of].
    unfold bind at 1, getTransactions_step, try_catch, bind at 1. rewrite Hi.
    unfold ret at 1. rewrite IH. now rewrite <- List.app_assoc.
  - cbn [getTransactions_loop transactions_of].
    unfold bind at 1, getTransactions_step, try_catch, bind at 1. rewrite Hi.
    unfold bind at 1, console_error, modify, ret at 1.
    rewrite IH. now rewrite <- List.app_assoc.
Qed.

Lemma Resolved_length (s : state World) (orders : list RobinhoodOrder)
    (instruments : list (option RobinhoodInstrument)) (s' : state World) :
  Resolved api s orders instruments s' ->
  List.length instruments = List.length orders /\
  List.length (transactions_of orders instruments) = List.length orders.
Proof. induction 1; cbn; intuition congruence. Qed.

Lemma Resolved_total :
  (forall url s, fst (api_getInstrumentFromUrl api url s) <> OutOfFuel) ->
  forall (orders : list RobinhoodOrder) (s : state World),
    exists instruments s', Resolved api s orders instruments s'.
Proof.
  intros Hinstrument orders.
  induction orders as [|order rest IH]; intros s.
  - exists [], s. constructor.
  - destruct (api_getInstrumentFromUrl api (ord_instrument order) s)
      as [[instrument|error|] s1] eqn:Hi.
    + destruct (IH s1) as (instruments & s' & H).
      eexists _, s'. eapply Resolved_found; eauto.
    + destruct (IH (logged s1
         ("Failed to fetch instrument for order " ++ ToString (ord_id order) ++ ":")
         error)) as (instruments & s' & H).
      eexists _, s'. eapply Resolved_failed; eauto.
    + exfalso. apply (Hinstrument (ord_instrument order) s). now rewrite Hi.
Qed.

Lemma slice0_all {A} (l : list A) (limit : Z) :
  (Z.of_nat (List.length l) <= limit)%Z -> slice0 l limit = l.
Proof.
  intros H. unfold slice0.
  destruct (Z.ltb_spec limit 0); [lia|].
  apply firstn_all2. lia.
Qed.

Lemma slice0_length {A} (l : list A) (limit : Z) :
  (0 <= limit)%Z ->
  List.length (slice0 l limit) = Nat.min (Z.to_nat limit) (List.length l).
Proof.
  intros H. unfold slice0.
  destruct (Z.ltb_spec limit 0); [lia|].
  apply length_firstn.
Qed.

End ServiceProperties.

(** C6 (as stated, refuted).  Of 101 orders fetched, all with an instrument
    that resolves, [getTransactions()] returns 100 transactions, not 101: it
    maps [orders.slice(0, limit)], with [limit = 100] unless the caller gives
    another.  Likewise, as in the test suite, [getTransactions(5)] over
    twenty orders returns five. *)
Lemma C6_counterexample :
  let api := mockApi [] (repeat mockOrder 101) in
  let s := client_with VUndefined
             {| instrument_answers := repeat (inr mockInstrument) 101;
                quote_answers := [] |} in
  let api20 := mockApi [] (repeat mockOrder 20) in
  let s20 := client_with VUndefined
               {| instrument_answers := repeat (inr mockInstrument) 20;
                  quote_answers := [] |} in
  (exists transactions,
      fst (RobinhoodService.getTransactions api None s) = Ok transactions /\
      List.length transactions = 100%nat) /\
  (exists transactions,
      fst (RobinhoodService.getTransactions api20 (Some 5%Z) s20) = Ok transactions /\
      List.length transactions = 5%nat).
Proof.
  cbv zeta. split; eexists; split; try (vm_compute; reflexivity); reflexivity.
Qed.

(** C6 (amended).  For every fetched collection of n positions,
    [getPositions] returns exactly the positions whose instrument and quote
    lookups both succeeded, mapped, in upstream order: n - k of them when k
    lookups failed; the failures are written to the console and not thrown.
    For every fetched collection of n orders, [getTransactions(limit)], with
    [limit = 100] by default, returns one transaction for each order of
    [orders.slice(0, limit)], in upstream order, an order whose instrument
    lookup failed being mapped without instrument; these are all n orders
    when n <= limit, and the first [limit] of them otherwise.  Both return
    whenever no lookup runs forever. *)
Theorem C6_partial_failures :
  forall (World : Type) (api : RobinhoodAPI World) (s : state World),
    (forall (positions : list RobinhoodPosition) (s1 : state World)
            (outcomes : list (option value)) (s' : state World),
        api_getPositions api true s = (Ok positions, s1) ->
        RobinhoodService.Enriched api s1 positions outcomes s' ->
        RobinhoodService.getPositions api s = (Ok (RobinhoodService.kept outcomes), s') /\
        List.length outcomes = List.length positions /\
        List.length (RobinhoodService.kept outcomes)
        = (List.length positions - RobinhoodService.failures outcomes)%nat)
    /\
    (forall (limit : option Z) (orders : list RobinhoodOrder) (s1 : state World)
            (instruments : list (option RobinhoodInstrument)) (s' : state World),
        let taken :=
          RobinhoodService.slice0 orders
            (match limit with Some l => l | None => 100%Z end) in
        api_getOrders api None s = (Ok orders, s1) ->
        RobinhoodService.Resolved api s1 taken instruments s' ->
        RobinhoodService.getTransactions api limit s
        = (Ok (RobinhoodService.transactions_of taken instruments), s') /\
        List.length (RobinhoodService.transactions_of taken instruments)
        = List.length taken /\
        ((Z.of_nat (List.length orders)
          <= match limit with Some l => l | None => 100%Z end)%Z ->
         taken = orders) /\
        ((0 <= match limit with Some l => l | None => 100%Z end)%Z ->
         List.length taken
         = Nat.min (Z.to_nat (match limit with Some l => l | None => 100%Z end))
             (List.length orders)))
    /\
    ((forall url s0, fst (api_getInstrumentFromUrl api url s0) <> OutOfFuel) ->
     (forall symbol s0, fst (api_getQuote api symbol s0) <> OutOfFuel) ->
     (forall (positions : list RobinhoodPosition) (s1 : state World),
         exists outcomes s', RobinhoodService.Enriched api s1 positions outcomes s') /\
     (forall (orders : list RobinhoodOrder) (s1 : state World),
         exists instruments s', RobinhoodService.Resolved api s1 orders instruments s')).
Proof.
  intros World api s. split; [|split].
  - intros positions s1 outcomes s' Hfetch Hlookups.
    split; [|split].
    + unfold RobinhoodService.getPositions, try_catch, bind. rewrite Hfetch.
      now rewrite (getPositions_loop_enriched World api s1 positions outcomes s' Hlookups []).
    + exact (Enriched_length World api _ _ _ _ Hlookups).
    + pose proof (kept_length outcomes).
      pose proof (Enriched_length World api _ _ _ _ Hlookups). lia.
  - intros limit orders s1 instruments s' taken Hfetch Hlookups.
    split; [|split; [|split]].
    + unfold RobinhoodService.getTransactions, try_catch, bind. rewrite Hfetch.
      fold taken.
      now rewrite (getTransactions_loop_resolved World api s1 taken instruments s' Hlookups []).
    + exact (proj2 (Resolved_length World api _ _ _ _ Hlookups)).
    + intros Hle. now apply slice0_all.
    + intros Hpos. now apply slice0_length.
  - intros Hinstrument Hquote. split.
    + exact (Enriched_total World api Hinstrument Hquote).
    + exact (Resolved_total World api Hinstrument).
Qed.

(** The amended C6 on the mocks of the test suite: of two positions whose
    second instrument lookup fails, one position is returned; of two orders
    whose second instrument lookup fails, two transactions are returned, the
    second without a symbol. *)
Lemma C6_partial_failures_witness :
  let s := client_with VUndefined
             {| instrument_answers :=
                  [inr mockInstrument; inl (Error "Instrument not found")];
                quote_answers := [inr mockQuote] |} in
  let api := mockApi [mockPosition; mockPosition] [mockOrder; mockOrder] in
  fst (RobinhoodService.getPositions api s)
  = Ok [mapPosition mockPosition mockInstrument (Some mockQuote)] /\
  fst (RobinhoodService.getTransactions api None s)
  = Ok [mapTransaction mockOrder (Some mockInstrument);
        mapTransaction mockOrder None].
Proof.
  cbv zeta.
  pose proof (C6_partial_failures ApiScript
                (mockApi [mockPosition; mockPosition] [mockOrder; mockOrder])
                (client_with VUndefined
                   {| instrument_answers :=
                        [inr mockInstrument; inl (Error "Instrument not found")];
                      quote_answers := [inr mockQuote] |}))
    as (Hpositions & Htransactions & _).
  split.
  - edestruct Hpositions as (E & _).
    + reflexivity.
    + eapply RobinhoodService.Enriched_both; [reflexivity | reflexivity |].
      eapply RobinhoodService.Enriched_no_instrument; [reflexivity |].
      apply RobinhoodService.Enriched_done.
    + rewrite E. reflexivity.
  - edestruct (Htransactions None) as (E & _).
    + reflexivity.
    + eapply RobinhoodService.Resolved_found; [reflexivity |].
      eapply RobinhoodService.Resolved_failed; [reflexivity |].
      apply RobinhoodService.Resolved_done.
    + rewrite E. reflexivity.
Defined.

(** * Further properties

    What the rest of the three classes does, beyond the statements above: the
    mapper's classifications and ranges, the client's constructor, device
    token, verbs and recoveries, and the service's other queries. *)

(** ** The mapper *)

(** X1. The status of a transaction is a function of the order's state alone:
    "completed" exactly for [filled] and [executed], "cancelled" exactly for
    [cancelled] and [canceled], "failed" exactly for [failed] and
    [rejected], and "pending" for every other state, known or unknown, and
    for a missing one.  Its type is "buy" exactly when the side is [buy]: any
    other side, or none, is reported as a "sell". *)
Theorem mapTransaction_status_and_type :
  forall (order : RobinhoodOrder) (instrument : option RobinhoodInstrument),
    let r := mapTransaction order instrument in
    let state := ord_state order in
    let status := mapOrderStatus state in
    prop "status" r = VStr status /\
    (status = "completed" <-> state = Some "filled" \/ state = Some "executed") /\
    (status = "cancelled" <-> state = Some "cancelled" \/ state = Some "canceled") /\
    (status = "failed" <-> state = Some "failed" \/ state = Some "rejected") /\
    (status = "pending" <->
     ~ In state (map Some ["filled"; "executed"; "cancelled"; "canceled";
                           "failed"; "rejected"])) /\
    (prop "type" r = VStr "buy" <-> ord_side order = Some "buy") /\
    (prop "type" r = VStr "sell" <-> ord_side order <> Some "buy").
Proof.
  intros order instrument r state status.
  split; [reflexivity|].
  assert (Hstatus :
    (status = "completed" <-> state = Some "filled" \/ state = Some "executed") /\
    (status = "cancelled" <-> state = Some "cancelled" \/ state = Some "canceled") /\
    (status = "failed" <-> state = Some "failed" \/ state = Some "rejected") /\
    (status = "pending" <->
     ~ In state (map Some ["filled"; "executed"; "cancelled"; "canceled";
                           "failed"; "rejected"]))).
  { unfold status, mapOrderStatus, strict_eq_str. cbn [map In].
    destruct state as [s|]; [|cbn; intuition (try discriminate; try congruence)].
    destruct (String.eqb_spec s "filled") as [->|H1];
      [cbn; intuition (try discriminate; try congruence)|].
    destruct (String.eqb_spec s "executed") as [->|H2];
      [cbn; intuition (try discriminate; try congruence)|].
    destruct (String.eqb_spec s "cancelled") as [->|H3];
      [cbn; intuition (try discriminate; try congruence)|].
    destruct (String.eqb_spec s "canceled") as [->|H4];
      [cbn; intuition (try discriminate; try congruence)|].
    destruct (String.eqb_spec s "failed") as [->|H5];
      [cbn; intuition (try discriminate; try congruence)|].
    destruct (String.eqb_spec s "rejected") as [->|H6];
      [cbn; intuition (try discriminate; try congruence)|].
    cbn [orb].
    assert (E : (if (s =? "pending") || (s =? "queued") || (s =? "confirmed")
                    || (s =? "partially_filled")
                 then "pending" else "pending") = "pending")
      by (destruct ((s =? "pending") || (s =? "queued") || (s =? "confirmed")
                    || (s =? "partially_filled")); reflexivity).
    rewrite E.
    intuition (try discriminate; try congruence). }
  destruct Hstatus as (H1 & H2 & H3 & H4).
  split; [exact H1|]. split; [exact H2|]. split; [exact H3|]. split; [exact H4|].
  unfold r, mapTransaction, strict_eq_str.
  cbn [prop assoc String.eqb Ascii.eqb Bool.eqb].
  destruct (ord_side order) as [s|].
  - destruct (String.eqb_spec s "buy") as [->|Hne]; split; split;
      intros H; try reflexivity; try discriminate H; congruence.
  - split; split; intros H; try reflexivity; try discriminate H; congruence.
Qed.

Lemma last_cons {A} (l : list A) (x d : A) : last (x :: l) d = last l x.
Proof.
  revert x d. induction l as [|y l IH]; intros x d; [reflexivity|].
  change (last (y :: l) d = last (y :: l) x). now rewrite !IH.
Qed.

Lemma last_of_map {A B} (f : A -> B) (l : list A) (a : A) (d : B) :
  last (map f (a :: l)) d = f (last l a).
Proof.
  revert a d. induction l as [|b l IH]; intros a d; [reflexivity|].
  change (last (map f (b :: l)) d = f (last (b :: l) a)).
  now rewrite IH, last_cons.
Qed.

(** X2. The historical data holds one point per upstream bar, in upstream
    order, each with the bar's own date, close and volume; the range in the
    metadata starts at the first bar's date and ends at the last bar's, and
    for a series without bars both ends are the time of the call. *)
Theorem mapHistoricalData_points_and_range :
  forall h : RobinhoodHistoricals,
    let r := mapHistoricalData h in
    let bars := historicals h in
    prop "data" r = VArr (map mapHistoricalPoint bars) /\
    List.length (map mapHistoricalPoint bars) = List.length bars /\
    (forall (n : nat) (bar : HistoricalBar),
        nth_error bars n = Some bar ->
        exists point,
          nth_error (map mapHistoricalPoint bars) n = Some point /\
          prop "timestamp" point = new_Date (beginsAt bar) /\
          prop "close" point = VNum (parseFloat (ToString (closePrice bar))) /\
          prop "volume" point = opt_num (volume bar)) /\
    (bars = [] ->
     prop "startDate" (prop "metadata" r) = VDate DateNow /\
     prop "endDate" (prop "metadata" r) = VDate DateNow) /\
    (forall (first : HistoricalBar) (rest : list HistoricalBar),
        bars = first :: rest ->
        prop "startDate" (prop "metadata" r) = new_Date (beginsAt first) /\
        prop "endDate" (prop "metadata" r) = new_Date (beginsAt (last rest first))).
Proof.
  intros h r bars. split; [reflexivity|]. split; [apply length_map|].
  split; [|split].
  - intros n bar Hn. exists (mapHistoricalPoint bar).
    split; [now apply map_nth_error|]. repeat split.
  - intros E. unfold r, mapHistoricalData. fold bars. rewrite E. split; reflexivity.
  - intros first rest E. unfold r, mapHistoricalData. fold bars. rewrite E.
    split; [reflexivity|].
    cbn [prop assoc String.eqb Ascii.eqb Bool.eqb].
    cbn [map].
    change (mapHistoricalPoint first :: map mapHistoricalPoint rest)
      with (map mapHistoricalPoint (first :: rest)).
    rewrite (last_of_map mapHistoricalPoint rest first VUndefined).
    reflexivity.
Qed.

(** X3. The interval of the historical data is one of "minute", "hour",
    "day", "week" and "month": "minute" exactly for the four upstream
    minute intervals, the upstream's own word for [hour], [week] and
    [month], and "day" for everything else, [day] itself, an unknown
    interval or a missing one; "minute" is an output only, as an input it is
    unknown. *)
Theorem mapInterval_granularity :
  forall h : RobinhoodHistoricals,
    let interval := his_interval h in
    prop "interval" (mapHistoricalData h) = VStr (mapInterval interval) /\
    In (mapInterval interval) ["minute"; "hour"; "day"; "week"; "month"] /\
    (mapInterval interval = "minute" <->
     In interval (map Some ["5minute"; "10minute"; "15minute"; "30minute"])) /\
    (forall unit, In unit ["hour"; "week"; "month"] ->
       (mapInterval interval = unit <-> interval = Some unit)) /\
    (mapInterval interval = "day" <->
     ~ In interval (map Some ["5minute"; "10minute"; "15minute"; "30minute";
                              "hour"; "week"; "month"])) /\
    mapInterval (Some "minute") = "day" /\
    mapInterval None = "day".
Proof.
  intros h interval. split; [reflexivity|].
  assert (H :
    In (mapInterval interval) ["minute"; "hour"; "day"; "week"; "month"] /\
    (mapInterval interval = "minute" <->
     In interval (map Some ["5minute"; "10minute"; "15minute"; "30minute"])) /\
    (mapInterval interval = "hour" <-> interval = Some "hour") /\
    (mapInterval interval = "week" <-> interval = Some "week") /\
    (mapInterval interval = "month" <-> interval = Some "month") /\
    (mapInterval interval = "day" <->
     ~ In interval (map Some ["5minute"; "10minute"; "15minute"; "30minute";
                              "hour"; "week"; "month"]))).
  { unfold mapInterval, strict_eq_str. cbn [map In].
    destruct interval as [s|]; [|cbn; intuition (try discriminate; try congruence)].
    destruct (String.eqb_spec s "5minute") as [->|H1];
      [cbn; intuition (try discriminate; try congruence)|].
    destruct (String.eqb_spec s "10minute") as [->|H2];
      [cbn; intuition (try discriminate; try congruence)|].
    destruct (String.eqb_spec s "15minute") as [->|H3];
      [cbn; intuition (try discriminate; try congruence)|].
    destruct (String.eqb_spec s "30minute") as [->|H4];
      [cbn; intuition (try discriminate; try congruence)|].
    destruct (String.eqb_spec s "hour") as [->|H5];
      [cbn; intuition (try discriminate; try congruence)|].
    destruct (String.eqb_spec s "day") as [->|H6];
      [cbn; intuition (try discriminate; try congruence)|].
    destruct (String.eqb_spec s "week") as [->|H7];
      [cbn; intuition (try discriminate; try congruence)|].
    destruct (String.eqb_spec s "month") as [->|H8];
      [cbn; intuition (try discriminate; try congruence)|].
    cbn. intuition (try discriminate; try congruence). }
  destruct H as (Hin & Hminute & Hhour & Hweek & Hmonth & Hday).
  repeat split; try apply Hminute; try apply Hday; try exact Hin.
  - intros E. destruct H as [<-|[<-|[<-|[]]]];
      [apply Hhour|apply Hweek|apply Hmonth]; exact E.
  - intros E. destruct H as [<-|[<-|[<-|[]]]];
      [apply Hhour|apply Hweek|apply Hmonth]; exact E.
Qed.

(** X4. The two-way classifications of the mapper have a default side: a
    position is a "stock" exactly when its instrument's type is [stock] and
    an "etf" otherwise; a dividend is "paid" exactly when its state is
    [paid] and "pending" otherwise; a portfolio's account type is "margin"
    exactly when the account's type is [margin] and "cash" otherwise, and
    the account's [marginEnabled] says the same, while its [type] is the
    upstream's word unchanged. *)
Theorem mapper_two_way_classifications :
  (forall (position : RobinhoodPosition) (instrument : RobinhoodInstrument)
          (quote : option RobinhoodQuote),
      let type := prop "type" (mapPosition position instrument quote) in
      (type = VStr "stock" <-> ins_type instrument = Some "stock") /\
      (type = VStr "etf" <-> ins_type instrument <> Some "stock")) /\
  (forall (dividend : RobinhoodDividend) (instrument : option RobinhoodInstrument),
      let status := prop "status" (mapDividend dividend instrument) in
      (status = VStr "paid" <-> div_state dividend = Some "paid") /\
      (status = VStr "pending" <-> div_state dividend <> Some "paid")) /\
  (forall (account : RobinhoodAccount) (portfolio : RobinhoodPortfolio)
          (positions : list value),
      let accountType := prop "accountType" (mapPortfolio account portfolio positions) in
      let marginEnabled := prop "marginEnabled" (mapAccount account) in
      (accountType = VStr "margin" <-> acc_type account = Some "margin") /\
      (accountType = VStr "cash" <-> acc_type account <> Some "margin") /\
      (marginEnabled = VBool true <-> acc_type account = Some "margin") /\
      (marginEnabled = VBool false <-> acc_type account <> Some "margin") /\
      prop "type" (mapAccount account) = str (acc_type account)).
Proof.
  assert (Hlit : forall (x : field) (lit : string),
             (strict_eq_str x lit = true <-> x = Some lit)).
  { intros [s|] lit; cbn; [|split; discriminate].
    destruct (String.eqb_spec s lit); split; congruence. }
  assert (Htwo : forall (x : field) (lit yes no : string), yes <> no ->
             let v := VStr (if strict_eq_str x lit then yes else no) in
             (v = VStr yes <-> x = Some lit) /\ (v = VStr no <-> x <> Some lit)).
  { intros x lit yes no Hne v. subst v. pose proof (Hlit x lit) as H.
    destruct (strict_eq_str x lit).
    - split; split.
      + intros _. now apply H.
      + reflexivity.
      + intros E Hx. injection E as E. contradiction.
      + intros Hx. exfalso. apply Hx. now apply H.
    - split; split.
      + intros E. injection E as E. congruence.
      + intros Hx. apply H in Hx. discriminate.
      + intros _ Hx. apply H in Hx. discriminate.
      + reflexivity. }
  split; [|split].
  - intros position instrument quote type.
    apply (Htwo (ins_type instrument) "stock" "stock" "etf"). discriminate.
  - intros dividend instrument status.
    apply (Htwo (div_state dividend) "paid" "paid" "pending"). discriminate.
  - intros account portfolio positions accountType marginEnabled.
    destruct (Htwo (acc_type account) "margin" "margin" "cash" ltac:(discriminate))
      as (H1 & H2).
    split; [exact H1|]. split; [exact H2|].
    subst marginEnabled. unfold mapAccount. cbn [prop assoc String.eqb Ascii.eqb Bool.eqb].
    pose proof (Hlit (acc_type account) "margin") as H.
    destruct (strict_eq_str (acc_type account) "margin").
    + split; [|split]; [split|split|reflexivity].
      * intros _. now apply H.
      * reflexivity.
      * discriminate.
      * intros Hx. exfalso. apply Hx. now apply H.
    + split; [|split]; [split|split|reflexivity].
      * discriminate.
      * intros Hx. apply H in Hx. discriminate.
      * intros _ Hx. apply H in Hx. discriminate.
      * reflexivity.
Qed.

Lemma ends_number_spec (c : ascii) (rest : string) :
  ends_number c = true ->
  is_digit c = false /\
  match String c rest with
  | String "." r => take_digits r
  | _ => (Nil, String c rest)
  end = (Nil, String c rest) /\
  exponent_part (String c rest) = 0%Z.
Proof.
  destruct c as [[] [] [] [] [] [] [] []]; intros H; try discriminate H;
    repeat split; reflexivity.
Qed.

(** X5. A numeric string followed by anything that is not part of a number
    is read by its numeric prefix, and what follows is dropped without an
    error: for digits, with or without a minus sign, followed by a character
    that is not a digit, a point or an exponent mark, the string is read as
    the digits alone, and the quantity of a position whose upstream quantity
    is such a string is that number.  So "1,234.56" is read as 1. *)
Theorem numeric_prefix_is_read :
  forall (neg : bool) (i : uint) (c : ascii) (rest : string),
    i <> Nil ->
    ends_number c = true ->
    let numeral := ((if neg then "-" else "") ++ NilEmpty.string_of_uint i)%string in
    let s := ((if neg then "-" else "") ++ NilEmpty.string_of_uint i
              ++ String c rest)%string in
    parseFloat (or_default (Some s) "0") = round_decimal neg (N.of_uint i) 0 /\
    parseFloat (or_default (Some s) "0") = parseFloat numeral /\
    (forall (position : RobinhoodPosition) (instrument : RobinhoodInstrument)
            (quote : option RobinhoodQuote),
        pos_quantity position = Some s ->
        prop "quantity" (mapPosition position instrument quote)
        = VNum (parseFloat numeral)).
Proof.
  intros neg i c rest Hi Hc numeral s.
  destruct (ends_number_spec c rest Hc) as (Hdigit & Hfraction & Hexponent).
  assert (Hs : s <> "").
  { unfold s. destruct neg; [discriminate|].
    destruct i; try congruence; discriminate. }
  assert (E : parseFloat s = round_decimal neg (N.of_uint i) 0).
  { destruct (digit_headed i (String c rest) Hi) as (c0 & r0 & E0 & Hc0).
    destruct (digit_char_plain c0 r0 Hc0) as (_ & _ & Hp).
    unfold parseFloat, s.
    rewrite (take_sign_digits neg i _ c0 r0 E0 Hc0), Hp, <- E0.
    rewrite take_digits_app by exact Hdigit.
    rewrite Hfraction, Hexponent.
    cbn [nb_digits Z.of_nat Z.sub Z.opp]. rewrite DecimalFacts.app_nil_r.
    destruct i; try congruence; reflexivity. }
  assert (E' : parseFloat (or_default (Some s) "0") = parseFloat numeral).
  { rewrite (or_default_present s "0" Hs), E. unfold numeral.
    now rewrite parseFloat_integer. }
  split; [|split].
  - now rewrite (or_default_present s "0" Hs).
  - exact E'.
  - intros position instrument quote Hq.
    unfold mapPosition, num. cbn [prop assoc String.eqb Ascii.eqb Bool.eqb].
    now rewrite Hq, E'.
Qed.

(** X5 on a quantity with a thousands separator and on one with a unit. *)
Lemma numeric_prefix_is_read_witness :
  parseFloat (or_default (Some "1,234.56") "0") = 1%float /\
  prop "quantity"
    (mapPosition
       {| pos_url := None; pos_instrument := None; pos_averageBuyPrice := None;
          pos_quantity := Some "-12 shares"; pos_updatedAt := None |}
       mockInstrument None) = VNum (-12)%float.
Proof.
  split.
  - pose proof (proj1 (numeric_prefix_is_read false (D1 Nil) "," "234.56"
                         ltac:(discriminate) eq_refl)) as H.
    vm_compute in H. vm_compute. exact H.
  - pose proof (proj2 (proj2 (numeric_prefix_is_read true (D1 (D2 Nil)) " " "shares"
                         ltac:(discriminate) eq_refl))
                  {| pos_url := None; pos_instrument := None;
                     pos_averageBuyPrice := None;
                     pos_quantity := Some "-12 shares"; pos_updatedAt := None |}
                  mockInstrument None eq_refl) as H.
    vm_compute in H. vm_compute. exact H.
Defined.

(** ** The client *)

Section ConstructorProperties.

Import RobinhoodClient.


Lemma assoc_set_prop_same (k : string) (v : value) (fs : list (string * value)) :
  assoc k (set_prop k v fs) = Some v.
Proof.
  induction fs as [|[k' v'] fs IH]; cbn.
  - now rewrite String.eqb_refl.
  - destruct (String.eqb_spec k k') as [->|Hne]; cbn.
    + now rewrite String.eqb_refl.
    + destruct (String.eqb_spec k k'); [contradiction|exact IH].
Qed.

Lemma assoc_set_prop_other (k k0 : string) (v : value) (fs : list (string * value)) :
  k <> k0 -> assoc k (set_prop k0 v fs) = assoc k fs.
Proof.
  intros Hne. induction fs as [|[k' v'] fs IH]; cbn.
  - destruct (String.eqb_spec k k0); [contradiction|reflexivity].
  - destruct (String.eqb_spec k0 k') as [<-|Hne']; cbn.
    + destruct (String.eqb_spec k k0); [contradiction|reflexivity].
    + destruct (String.eqb_spec k k'); [reflexivity|exact IH].
Qed.

Lemma assoc_absent (k : string) (fs : list (string * value)) :
  ~ In k (map fst fs) -> assoc k fs = None.
Proof.
  induction fs as [|[k' v'] fs IH]; cbn; intros H; [reflexivity|].
  destruct (String.eqb_spec k k') as [->|Hne]; [tauto|]. apply IH. tauto.
Qed.

(** A property of the source wins over the target's; the others are the
    target's. *)
Lemma assoc_object_spread (k : string) (source : list (string * value)) :
  NoDup (map fst source) ->
  forall target : list (string * value),
    assoc k (object_spread target source)
    = match assoc k source with
      | Some v => Some v
      | None => assoc k target
      end.
Proof.
  unfold object_spread.
  induction source as [|[k0 v0] source IH]; intros Hnodup target; [reflexivity|].
  cbn [map fst] in Hnodup. inversion Hnodup as [|x xs Hnotin Hrest]; subst x xs.
  cbn [fold_left fst snd assoc]. rewrite (IH Hrest).
  destruct (String.eqb_spec k k0) as [->|Hne].
  - rewrite (assoc_absent k0 source Hnotin). apply assoc_set_prop_same.
  - destruct (assoc k source); [reflexivity|]. now apply assoc_set_prop_other.
Qed.

(** X6. The configuration the constructor keeps: a property the caller
    gives is kept as given, whatever its value, and each of [baseUrl],
    [timeout], [retryAttempts] and [retryDelay] that the caller does not
    give gets its default (https://api.robinhood.com, 30000, 3, 1000).  A
    default therefore does not replace a property that is given with a falsy
    value: a timeout of 0 stays 0.  The address and the timeout handed to
    axios are the kept ones. *)
Theorem constructor_defaults_yield_to_given_properties :
  forall config : list (string * value),
    NoDup (map fst config) ->
    let kept := constructor_config config in
    (forall k, has_field k (VObj config) = true ->
       prop k kept = prop k (VObj config)) /\
    (has_field "baseUrl" (VObj config) = false ->
       prop "baseUrl" kept = VStr "https://api.robinhood.com") /\
    (has_field "timeout" (VObj config) = false ->
       prop "timeout" kept = VNum 30000%float) /\
    (has_field "retryAttempts" (VObj config) = false ->
       prop "retryAttempts" kept = VNum 3%float) /\
    (has_field "retryDelay" (VObj config) = false ->
       prop "retryDelay" kept = VNum 1000%float) /\
    prop "baseURL" (axios_create_options config) = prop "baseUrl" kept /\
    prop "timeout" (axios_create_options config) = prop "timeout" kept.
Proof.
  intros config Hnodup kept.
  assert (Hgiven : forall k, has_field k (VObj config) = true ->
                             prop k kept = prop k (VObj config)).
  { intros k Hk. unfold kept, constructor_config. cbn [prop has_field] in *.
    rewrite (assoc_object_spread k config Hnodup).
    destruct (assoc k config); [reflexivity|discriminate Hk]. }
  assert (Hdefault : forall k, has_field k (VObj config) = false ->
            prop k kept
            = prop k (VObj
                [ ("baseUrl", VStr "https://api.robinhood.com");
                  ("timeout", VNum 30000%float);
                  ("retryAttempts", VNum 3%float);
                  ("retryDelay", VNum 1000%float) ])).
  { intros k Hk. unfold kept, constructor_config. cbn [has_field] in Hk.
    unfold prop at 1. rewrite (assoc_object_spread k config Hnodup).
    destruct (assoc k config) eqn:E; [discriminate Hk|].
    assert (Hundefined : forall k', assoc k' config = None ->
                                    prop k' (VObj config) = VUndefined)
      by (intros k' E'; cbn; now rewrite E').
    unfold prop at 5. cbn [assoc].
    destruct (String.eqb_spec k "baseUrl") as [->|_];
      [now rewrite (Hundefined _ E)|].
    destruct (String.eqb_spec k "timeout") as [->|_];
      [now rewrite (Hundefined _ E)|].
    destruct (String.eqb_spec k "retryAttempts") as [->|_];
      [now rewrite (Hundefined _ E)|].
    destruct (String.eqb_spec k "retryDelay") as [->|_];
      [now rewrite (Hundefined _ E)|].
    reflexivity. }
  split; [exact Hgiven|].
  repeat split; try (intros H; rewrite (Hdefault _ H); reflexivity).
Qed.

(** X6 on a configuration with a zero timeout and an undefined address. *)
Lemma constructor_defaults_yield_to_given_properties_witness :
  let kept := constructor_config [("timeout", VNum 0%float); ("baseUrl", VUndefined)] in
  prop "timeout" kept = VNum 0%float /\
  prop "baseUrl" kept = VUndefined /\
  prop "retryAttempts" kept = VNum 3%float.
Proof.
  intros kept.
  destruct (constructor_defaults_yield_to_given_properties
              [("timeout", VNum 0%float); ("baseUrl", VUndefined)]
              ltac:(repeat constructor; cbn; intuition discriminate))
    as (Hgiven & _ & _ & Hattempts & _).
  fold kept in Hgiven, Hattempts.
  rewrite (Hgiven "timeout" eq_refl), (Hgiven "baseUrl" eq_refl), (Hattempts eq_refl).
  repeat split.
Defined.

End ConstructorProperties.

Section DeviceTokenProperties.

Import RobinhoodClient.

Lemma length_append (a b : string) :
  String.length (a ++ b) = (String.length a + String.length b)%nat.
Proof. induction a as [|c a IH]; cbn; [reflexivity|now rewrite IH]. Qed.

Lemma list_ascii_of_append (a b : string) :
  list_ascii_of_string (a ++ b)
  = (list_ascii_of_string a ++ list_ascii_of_string b)%list.
Proof. induction a as [|c a IH]; cbn; [reflexivity|now rewrite IH]. Qed.

(** Every index below the length of [chars] picks one of its characters. *)
Lemma charAt_chars (i : nat) :
  i < String.length chars ->
  exists c, charAt chars i = String c "" /\ In c (list_ascii_of_string chars).
Proof.
  intros Hi. unfold charAt.
  destruct (String.get i chars) as [c|] eqn:E.
  - exists c. split; [reflexivity|].
    clear Hi. revert i E. generalize chars. intros s.
    induction s as [|c0 s IH]; intros i E; [discriminate E|].
    destruct i as [|i]; cbn in E.
    + injection E as ->. now left.
    + right. exact (IH i E).
  - exfalso. revert i Hi E. generalize chars. intros s.
    induction s as [|c0 s IH]; intros i Hi E; cbn in Hi; [lia|].
    destruct i as [|i]; cbn in E; [discriminate E|].
    apply (IH i); [lia|exact E].
Qed.

Section DeviceToken.

Variable World : Type.
Variable random_index : World -> nat * World.

Hypothesis random_index_in_range :
  forall w : World, fst (random_index w) < String.length chars.

Lemma generate_chars_spec (n : nat) :
  forall (token : string) (w : World),
    String.length (fst (generate_chars World random_index n token w))
    = (String.length token + n)%nat /\
    (forall c,
        In c (list_ascii_of_string (fst (generate_chars World random_index n token w))) ->
        In c (list_ascii_of_string token) \/ In c (list_ascii_of_string chars)).
Proof.
  induction n as [|n IH]; intros token w.
  - cbn. split; [lia|]. intros c H. now left.
  - cbn [generate_chars].
    pose proof (random_index_in_range w) as Hi.
    destruct (random_index w) as [i w1]. cbn [fst] in Hi.
    destruct (charAt_chars i Hi) as (c0 & E0 & Hc0).
    destruct (IH (token ++ charAt chars i)%string w1) as (Hlen & Hin).
    split.
    + rewrite Hlen, length_append, E0. cbn. lia.
    + intros c Hc. destruct (Hin c Hc) as [H|H]; [|now right].
      rewrite list_ascii_of_append, E0 in H.
      apply in_app_or in H. destruct H as [H|H]; [now left|].
      cbn in H. destruct H as [<-|[]]. now right.
Qed.

End DeviceToken.

(** X7. The device token sent with the credentials: the caller's own, as
    given and without a random draw, when it is not empty; otherwise a
    generated one, which is exactly forty characters long, each of them a
    lower-case letter or a digit (as long as the random index stays within
    the alphabet, as [Math.floor(Math.random() * 36)] does). *)
Theorem device_token_is_given_or_forty_characters :
  forall (World : Type) (random_index : World -> nat * World)
         (credentials : RobinhoodCredentials) (w : World),
    (forall w0 : World, fst (random_index w0) < String.length chars) ->
    let token := fst (device_token_for random_index credentials w) in
    (forall d, deviceToken credentials = Some d -> d <> "" ->
       device_token_for random_index credentials w = (d, w)) /\
    (missing (deviceToken credentials) = true ->
       device_token_for random_index credentials w = generateDeviceToken random_index w /\
       String.length token = 40%nat /\
       forall c, In c (list_ascii_of_string token) ->
                 In c (list_ascii_of_string "abcdefghijklmnopqrstuvwxyz0123456789")).
Proof.
  intros World random_index credentials w Hrandom token. split.
  - intros d Hd Hne. unfold device_token_for. rewrite Hd.
    destruct (String.eqb_spec d ""); [contradiction|reflexivity].
  - intros Hmissing.
    assert (E : device_token_for random_index credentials w
                = generateDeviceToken random_index w).
    { unfold device_token_for. destruct (deviceToken credentials) as [d|];
        [|reflexivity].
      cbn in Hmissing. now rewrite Hmissing. }
    split; [exact E|].
    unfold token. rewrite E. unfold generateDeviceToken.
    destruct (generate_chars_spec World random_index Hrandom 40 "" w) as (Hlen & Hin).
    split; [exact Hlen|].
    intros c Hc. destruct (Hin c Hc) as [[]|H]. exact H.
Qed.

(** X7 with a random source that always draws index 0, and with the
    credentials of the test suite. *)
Lemma device_token_is_given_or_forty_characters_witness :
  let anonymous := {| username := "testuser@example.com"; password := "secret";
                      mfaCode := None; deviceToken := None |} in
  device_token_for no_random anonymous [] = ("aaaaaaaaaaaaaaaaaaaaaaaaaaaaaaaaaaaaaaaa", []) /\
  String.length (fst (device_token_for no_random anonymous [])) = 40%nat /\
  device_token_for no_random mockCredentials [] = ("mock-device-token-1234567890", []).
Proof.
  intros anonymous.
  destruct (device_token_is_given_or_forty_characters Script no_random anonymous []
              ltac:(intros w0; cbn; lia)) as (_ & Hgenerated).
  destruct (Hgenerated eq_refl) as (_ & Hlen & _).
  destruct (device_token_is_given_or_forty_characters Script no_random mockCredentials []
              ltac:(intros w0; cbn; lia)) as (Hgiven & _).
  split; [reflexivity|]. split; [exact Hlen|].
  apply Hgiven; [reflexivity|discriminate].
Defined.

End DeviceTokenProperties.

Section AuthenticateProperties.

Import RobinhoodClient.

(** X8. [authenticate] keeps whatever body an accepted answer carries: the
    body is returned and becomes the client's token set without being
    looked at, so the client is authenticated afterwards exactly when that
    body has a truthy [accessToken], whatever it held before; exactly one
    request goes out, and the service's [authenticate] returns normally in
    the same state. *)
Theorem authenticate_keeps_whatever_body_is_accepted :
  forall (World : Type)
         (send : AxiosRequestConfig -> World -> (AxiosResponse + string) * World)
         (random_index : World -> nat * World) (config : RobinhoodConfig)
         (fuel : nat) (credentials : RobinhoodCredentials) (s : state World)
         (response : AxiosResponse) (w' : World),
    let d := device_token_for random_index credentials (world s) in
    let cfg := authorize (authTokens s) (login_request credentials (fst d)) in
    send cfg (snd d) = (inl response, w') ->
    validateStatus (status response) = true ->
    let r := authenticate send random_index config (S fuel) credentials s in
    fst r = Ok (data response) /\
    getAuthTokens (snd r) = data response /\
    isAuthenticated (snd r) = truthy (opt_prop "accessToken" (data response)) /\
    sent (snd r) = (sent s ++ [cfg])%list /\
    RobinhoodService.authenticate send random_index config (S fuel) credentials s
    = (Ok tt, snd r).
Proof.
  intros World send random_index config fuel credentials s response w' d cfg
         Hsend Hok r.
  pose proof (authenticate_accepted World send random_index config fuel
                credentials s response w' Hsend Hok) as E.
  fold d cfg r in E.
  unfold RobinhoodService.authenticate, try_catch, bind. fold r.
  rewrite E. repeat split.
Qed.

(** X8 on an authenticated client whose login is answered 200 with a body
    that holds no token. *)
Lemma authenticate_keeps_whatever_body_is_accepted_witness :
  let s : state Script :=
    client_with mockAuthTokens [respond 200 (VObj [("detail", VStr "ok")])] in
  let r := authenticate send_scripted no_random defaultConfig 1 mockCredentials s in
  isAuthenticated s = true /\
  fst r = Ok (VObj [("detail", VStr "ok")]) /\
  isAuthenticated (snd r) = false.
Proof.
  intros s r.
  destruct (authenticate_keeps_whatever_body_is_accepted _ send_scripted no_random
              defaultConfig 0 mockCredentials s
              {| status := 200; data := VObj [("detail", VStr "ok")] |} []
              eq_refl eq_refl) as (Hfst & _ & Hauth & _).
  fold r in Hfst, Hauth. rewrite Hfst, Hauth. repeat split.
Defined.

(** X27. A login that fails with anything but a 401 or a 400 (another
    status, or no answer at all) is thrown by [authenticate] as the error
    axios built for it, after that one request and with the token set left
    as it was; the service's [authenticate] wraps it in AUTH_FAILED. *)
Theorem authenticate_rethrows_other_failures :
  forall (World : Type)
         (send : AxiosRequestConfig -> World -> (AxiosResponse + string) * World)
         (random_index : World -> nat * World) (config : RobinhoodConfig)
         (fuel : nat) (credentials : RobinhoodCredentials) (s : state World)
         (outcome : AxiosResponse + string) (w' : World),
    let d := device_token_for random_index credentials (world s) in
    let cfg := authorize (authTokens s) (login_request credentials (fst d)) in
    send cfg (snd d) = (outcome, w') ->
    accepted outcome = false ->
    is_401 outcome = false ->
    (forall response, outcome = inl response -> status response <> 400%Z) ->
    (forall message, outcome = inr message -> message <> "MFA_REQUIRED") ->
    let r := authenticate send random_index config (S fuel) credentials s in
    fst r = Throw (rejection cfg outcome) /\
    getAuthTokens (snd r) = getAuthTokens s /\
    sent (snd r) = (sent s ++ [cfg])%list /\
    RobinhoodService.authenticate send random_index config (S fuel) credentials s
    = (Throw (StandardizedError "AUTH_FAILED" "Authentication failed"
                (Some (rejection cfg outcome)) DateNow "robinhood"),
       snd r).
Proof.
  intros World send random_index config fuel credentials s outcome w' d cfg
         Hsend Hrej Hnot Hstatus Hmessage r.
  assert (E : r = (Throw (rejection cfg outcome),
                   {| authTokens := authTokens s; world := w';
                      sent := (sent s ++ [cfg])%list; console := console s |})).
  { unfold r, authenticate, try_catch, bind at 1, device_token.
    fold d. destruct d as [token w0] eqn:Hd. cbn [fst snd] in *.
    unfold bind at 1.
    rewrite (axios_surfaces World send config fuel (login_request credentials token)
               {| authTokens := authTokens s; world := w0; sent := sent s;
                  console := console s |} outcome w');
      [|exact Hsend|exact Hrej|now right].
    cbn [authTokens]. fold cfg.
    destruct outcome as [response|message]; cbn [rejection isAxiosError
      response_status_is andb].
    - destruct (Z.eqb_spec (status response) 400) as [E400|_];
        [exfalso; exact (Hstatus response eq_refl E400)|reflexivity].
    - reflexivity. }
  rewrite E. cbn [fst snd sent]. repeat split.
  unfold RobinhoodService.authenticate, try_catch, bind. fold r. rewrite E.
  assert (Hm : String.eqb (exn_message (rejection cfg outcome)) "MFA_REQUIRED" = false).
  { destruct outcome as [response|message]; cbn.
    - reflexivity.
    - destruct (String.eqb_spec message "MFA_REQUIRED"); [|reflexivity].
      exfalso. exact (Hmessage message eq_refl e). }
  now rewrite Hm.
Qed.

(** X27 on a login that gets no answer, by a client without tokens: the
    request carried no [Authorization] header. *)
Lemma authenticate_rethrows_other_failures_witness :
  let s : state Script := client_with VUndefined [inr "Network Error"] in
  let r := authenticate send_scripted no_random defaultConfig 1 mockCredentials s in
  (exists config,
      fst r = Throw (AxiosError "Network Error" config None) /\
      cfg_Authorization config = None) /\
  isAuthenticated (snd r) = false /\
  List.length (sent (snd r)) = 1%nat.
Proof.
  intros s r.
  destruct (authenticate_rethrows_other_failures _ send_scripted no_random
              defaultConfig 0 mockCredentials s (inr "Network Error") []
              eq_refl eq_refl eq_refl
              ltac:(intros response H; discriminate H)
              ltac:(intros message H; injection H as <-; discriminate))
    as (Hfst & Htokens & Hsent & _).
  fold r in Hfst, Htokens, Hsent. rewrite Hfst, Hsent.
  split; [eexists; split; reflexivity|].
  split; [|reflexivity].
  unfold isAuthenticated. unfold getAuthTokens in Htokens. now rewrite Htokens.
Defined.

End AuthenticateProperties.

Section TokenProperties.

Import RobinhoodClient.

(** X9. Without a refresh token (no token set, or one whose [refreshToken]
    is empty, as [setAuthToken] builds it) [refreshAccessToken] throws "No
    refresh token available" at once: nothing is sent, the client is left
    as it was, and the service's [refreshToken] throws
    TOKEN_REFRESH_FAILED carrying that error. *)
Theorem refresh_needs_a_refresh_token :
  forall (World : Type)
         (send : AxiosRequestConfig -> World -> (AxiosResponse + string) * World)
         (config : RobinhoodConfig) (fuel : nat) (s : state World),
    truthy (opt_prop "refreshToken" (authTokens s)) = false ->
    refreshAccessToken send config fuel s
    = (Throw (Error "No refresh token available"), s) /\
    RobinhoodService.refreshToken send config fuel s
    = (Throw (StandardizedError "TOKEN_REFRESH_FAILED"
                "Failed to refresh access token"
                (Some (Error "No refresh token available")) DateNow "robinhood"),
       s).
Proof.
  intros World send config fuel s H.
  assert (E : refreshAccessToken send config fuel s
              = (Throw (Error "No refresh token available"), s)).
  { unfold refreshAccessToken, refreshAccessToken_with, bind, gets.
    rewrite H. reflexivity. }
  split; [exact E|].
  unfold RobinhoodService.refreshToken, try_catch, bind. now rewrite E.
Qed.

(** X9 on a client without tokens and on one set up with [setAuthToken]. *)
Lemma refresh_needs_a_refresh_token_witness :
  (forall fuel,
      refreshAccessToken send_scripted defaultConfig fuel
        (client_with VUndefined [respond 200 mockAuthTokens])
      = (Throw (Error "No refresh token available"),
         client_with VUndefined [respond 200 mockAuthTokens])) /\
  (forall fuel,
      fst (refreshAccessToken send_scripted defaultConfig fuel
             (snd (setAuthToken "access-token"
                     (client_with VUndefined [respond 200 mockAuthTokens]))))
      = Throw (Error "No refresh token available")).
Proof.
  split; intros fuel.
  - exact (proj1 (refresh_needs_a_refresh_token _ send_scripted defaultConfig fuel
                    (client_with VUndefined [respond 200 mockAuthTokens]) eq_refl)).
  - now rewrite (proj1 (refresh_needs_a_refresh_token _ send_scripted defaultConfig fuel
                    (snd (setAuthToken "access-token"
                            (client_with VUndefined [respond 200 mockAuthTokens])))
                    eq_refl)).
Defined.


(** X10. With a refresh token, a refresh whose request is accepted replaces
    the whole token set by the body of the answer and returns it.  The one
    request sent is a POST to /oauth/token/ whose body holds the grant type
    [refresh_token], the stored refresh token, the scope [internal] and the
    client id of the configuration, or the built-in one when the
    configuration has none. *)
Theorem refresh_replaces_the_token_set :
  forall (World : Type)
         (send : AxiosRequestConfig -> World -> (AxiosResponse + string) * World)
         (config : RobinhoodConfig) (fuel : nat) (s : state World)
         (response : AxiosResponse) (w' : World),
    let tokens := authTokens s in
    let cfg := authorize tokens (refresh_request config tokens) in
    truthy (opt_prop "refreshToken" tokens) = true ->
    send cfg (world s) = (inl response, w') ->
    validateStatus (status response) = true ->
    let r := refreshAccessToken send config (S fuel) s in
    fst r = Ok (data response) /\
    getAuthTokens (snd r) = data response /\
    sent (snd r) = (sent s ++ [cfg])%list /\
    cfg_method cfg = POST /\
    cfg_url cfg = VStr "/oauth/token/" /\
    cfg_data cfg
    = VObj [ ("grant_type", VStr "refresh_token");
             ("refresh_token", prop "refreshToken" tokens);
             ("scope", VStr "internal");
             ("client_id",
               VStr (or_default (config_clientId config)
                       "c82SH0WZOsabOXGP2sxqcj34FxkvfnWRZBKlBjFS")) ] /\
    RobinhoodService.refreshToken send config (S fuel) s = (Ok tt, snd r).
Proof.
  intros World send config fuel s response w' tokens cfg Htoken Hsend Hok r.
  pose proof (refreshAccessToken_accepted World send config fuel s response w'
                Htoken Hsend Hok) as E.
  fold tokens cfg r in E.
  assert (Hshape : same_request (refresh_request config tokens) cfg).
  { unfold cfg, authorize.
    destruct (truthy (opt_prop "accessToken" tokens)); repeat split. }
  destruct Hshape as (Hm & Hu & Hd).
  unfold RobinhoodService.refreshToken, try_catch, bind. fold r.
  rewrite E. cbn [fst snd sent]. repeat split; assumption.
Qed.

(** X10 with a client id of the caller's. *)
Lemma refresh_replaces_the_token_set_witness :
  let s : state Script :=
    client_with mockAuthTokens [respond 200 (VObj [("accessToken", VStr "new")])] in
  let r := refreshAccessToken send_scripted
             {| config_accessToken := None; config_clientId := Some "custom-client-id" |}
             1 s in
  fst r = Ok (VObj [("accessToken", VStr "new")]) /\
  map (fun c => prop "client_id" (cfg_data c)) (sent (snd r))
  = [VStr "custom-client-id"] /\
  map (fun c => prop "refresh_token" (cfg_data c)) (sent (snd r))
  = [VStr "mock-refresh-token"].
Proof.
  intros s r.
  destruct (refresh_replaces_the_token_set _ send_scripted
              {| config_accessToken := None; config_clientId := Some "custom-client-id" |}
              0 s {| status := 200; data := VObj [("accessToken", VStr "new")] |} []
              eq_refl eq_refl eq_refl) as (Hfst & _ & Hsent & _).
  fold r in Hfst, Hsent. rewrite Hfst, Hsent. repeat split.
Defined.


(** X11. A client set up with an access token alone ([setAuthToken], or
    [accessToken] in the configuration) is authenticated and sends the token
    with its requests, but cannot recover from a 401: the one request that
    was sent is not repeated, no refresh is tried, the error is thrown with
    its configuration marked as retried, and the client still counts as
    authenticated. *)
Theorem access_token_alone_is_never_refreshed :
  forall (World : Type)
         (send : AxiosRequestConfig -> World -> (AxiosResponse + string) * World)
         (config : RobinhoodConfig) (fuel : nat) (accessToken : string)
         (url : value) (s0 : state World)
         (outcome : AxiosResponse + string) (w' : World),
    let s := snd (setAuthToken accessToken s0) in
    let cfg := {| cfg_method := GET; cfg_url := url; cfg_data := VUndefined;
                  cfg_Authorization := Some (VStr accessToken);
                  _retry := false |} in
    accessToken <> "" ->
    send cfg (world s0) = (outcome, w') ->
    is_401 outcome = true ->
    isAuthenticated s = true /\
    get send config (S fuel) url s
    = (Throw (rejection (mark_retry cfg) outcome), after_request s cfg w') /\
    sent (after_request s cfg w') = (sent s0 ++ [cfg])%list /\
    isAuthenticated (after_request s cfg w') = true.
Proof.
  intros World send config fuel accessToken url s0 outcome w' s cfg Ht Hsend H401.
  assert (Htruthy : truthy (VStr accessToken) = true).
  { cbn. destruct (String.eqb_spec accessToken ""); [contradiction|reflexivity]. }
  assert (Hcfg : authorize (authTokens s) (request_config GET url VUndefined) = cfg).
  { assert (Htok : opt_prop "accessToken" (authTokens s) = VStr accessToken)
      by reflexivity.
    unfold authorize. rewrite Htok, Htruthy. reflexivity. }
  split; [exact Htruthy|]. split; [|split; [reflexivity|exact Htruthy]].
  unfold get, bind.
  rewrite (axios_401_without_refresh_token World send config fuel
             (request_config GET url VUndefined) s outcome w');
    rewrite ?Hcfg; try reflexivity; assumption.
Qed.

(** X11 on a scripted upstream that answers 401. *)
Lemma access_token_alone_is_never_refreshed_witness :
  let s0 : state Script :=
    client_with VUndefined [respond 401 VNull; respond 200 mockAuthTokens] in
  let r := get send_scripted defaultConfig 5 (VStr "/accounts/")
             (snd (setAuthToken "initial-token" s0)) in
  (exists e, fst r = Throw e) /\
  List.length (sent (snd r)) = 1%nat /\
  world (snd r) = [respond 200 mockAuthTokens] /\
  isAuthenticated (snd r) = true.
Proof.
  intros s0 r.
  destruct (access_token_alone_is_never_refreshed _ send_scripted defaultConfig 4
              "initial-token" (VStr "/accounts/") s0
              (respond 401 VNull) [respond 200 mockAuthTokens]
              ltac:(discriminate) eq_refl eq_refl) as (_ & E & _ & _).
  fold r in E. rewrite E. repeat split. eexists. reflexivity.
Defined.

(** X12. A 401 on a first attempt, answered by a client that holds a
    refresh token and whose refresh request is accepted: exactly three
    requests go out, the original one, one refresh, and the original one
    again, marked as a retry and carrying the new access token; the new
    token set is kept; the outcome of the call is the outcome of the
    retry, which is thrown as it is when it fails, a second 401 included. *)
Theorem expired_token_is_refreshed_and_replayed :
  forall (World : Type)
         (send : AxiosRequestConfig -> World -> (AxiosResponse + string) * World)
         (config : RobinhoodConfig) (fuel : nat) (url : value) (s : state World)
         (o1 : AxiosResponse + string) (w1 : World)
         (r2 : AxiosResponse) (w2 : World)
         (o3 : AxiosResponse + string) (w3 : World),
    let cfg1 := authorize (authTokens s) (request_config GET url VUndefined) in
    let cfg2 := authorize (authTokens s) (refresh_request config (authTokens s)) in
    let cfg3 := authorize (data r2) (mark_retry cfg1) in
    truthy (opt_prop "refreshToken" (authTokens s)) = true ->
    send cfg1 (world s) = (o1, w1) ->
    is_401 o1 = true ->
    send cfg2 w1 = (inl r2, w2) ->
    validateStatus (status r2) = true ->
    send cfg3 w2 = (o3, w3) ->
    let r := get send config (S (S fuel)) url s in
    fst r = match o3 with
            | inl r3 => if validateStatus (status r3) then Ok (data r3)
                        else Throw (rejection cfg3 o3)
            | inr _ => Throw (rejection cfg3 o3)
            end /\
    sent (snd r) = (sent s ++ [cfg1; cfg2; cfg3])%list /\
    world (snd r) = w3 /\
    authTokens (snd r) = data r2 /\
    is_refresh_request cfg2 = true /\
    same_request (request_config GET url VUndefined) cfg3 /\
    _retry cfg3 = true /\
    (truthy (opt_prop "accessToken" (data r2)) = true ->
     cfg_Authorization cfg3 = Some (opt_prop "accessToken" (data r2))).
Proof.
  intros World send config fuel url s o1 w1 r2 w2 o3 w3 cfg1 cfg2 cfg3
         Htoken H1 H401 H2 Hok2 H3 r.
  pose proof (axios_refresh_then_replay World send config fuel
                (request_config GET url VUndefined) s o1 w1 r2 w2 o3 w3
                eq_refl Htoken H1 H401 H2 Hok2 H3) as E.
  fold cfg1 cfg2 cfg3 in E.
  assert (Er : r = (match o3 with
                    | inl r3 => if validateStatus (status r3) then Ok (data r3)
                                else Throw (rejection cfg3 o3)
                    | inr _ => Throw (rejection cfg3 o3)
                    end,
                    {| authTokens := data r2; world := w3;
                       sent := (sent s ++ [cfg1; cfg2; cfg3])%list;
                       console := console s |})).
  { unfold r, get, bind. rewrite E.
    destruct o3 as [r3|msg]; [destruct (validateStatus (status r3))|]; reflexivity. }
  rewrite Er. cbn [fst snd sent world authTokens].
  assert (Hretry : _retry cfg3 = true).
  { unfold cfg3. now rewrite authorize_retry. }
  assert (Hsame : same_request (request_config GET url VUndefined) cfg3).
  { unfold cfg3, cfg1, authorize.
    destruct (truthy (opt_prop "accessToken" (data r2)));
      destruct (truthy (opt_prop "accessToken" (authTokens s)));
      repeat split. }
  repeat split; try exact Hretry; try apply Hsame.
  - unfold cfg2, authorize. now destruct (truthy (opt_prop "accessToken" (authTokens s))).
  - intros Hnew. unfold cfg3, authorize. now rewrite Hnew.
Qed.

(** X12 on a scripted upstream: 401, new tokens, the accounts. *)
Lemma expired_token_is_refreshed_and_replayed_witness :
  let s : state Script :=
    client_with mockAuthTokens
      [respond 401 VNull;
       respond 200 (VObj [("accessToken", VStr "new-access-token");
                          ("refreshToken", VStr "new-refresh-token")]);
       respond 200 (VArr [VStr "account"])] in
  let r := get send_scripted defaultConfig 2 (VStr "/accounts/") s in
  fst r = Ok (VArr [VStr "account"]) /\
  map (fun c => (cfg_method c, cfg_url c, cfg_Authorization c, _retry c)) (sent (snd r))
  = [ (GET, VStr "/accounts/", Some (VStr "mock-access-token"), false);
      (POST, VStr "/oauth/token/", Some (VStr "mock-access-token"), false);
      (GET, VStr "/accounts/", Some (VStr "new-access-token"), true) ].
Proof.
  intros s r.
  destruct (expired_token_is_refreshed_and_replayed _ send_scripted defaultConfig 0
              (VStr "/accounts/") s
              (respond 401 VNull) _
              {| status := 200;
                 data := VObj [("accessToken", VStr "new-access-token");
                               ("refreshToken", VStr "new-refresh-token")] |} _
              (respond 200 (VArr [VStr "account"])) _
              eq_refl eq_refl eq_refl eq_refl eq_refl eq_refl)
    as (Hfst & Hsent & _).
  fold r in Hfst, Hsent. rewrite Hfst, Hsent. split; reflexivity.
Defined.

(** X13. A 401 answered by a refresh that fails (with anything but another
    401): the refresh error is what the call throws, the original request is
    not sent again, and the token set is dropped, so that the client is no
    longer authenticated and a later refresh has no refresh token to use. *)
Theorem failed_refresh_signs_the_client_out :
  forall (World : Type)
         (send : AxiosRequestConfig -> World -> (AxiosResponse + string) * World)
         (config : RobinhoodConfig) (fuel : nat) (url : value) (s : state World)
         (o1 : AxiosResponse + string) (w1 : World)
         (o2 : AxiosResponse + string) (w2 : World),
    let cfg1 := authorize (authTokens s) (request_config GET url VUndefined) in
    let cfg2 := authorize (authTokens s) (refresh_request config (authTokens s)) in
    truthy (opt_prop "refreshToken" (authTokens s)) = true ->
    send cfg1 (world s) = (o1, w1) ->
    is_401 o1 = true ->
    send cfg2 w1 = (o2, w2) ->
    accepted o2 = false ->
    is_401 o2 = false ->
    let r := get send config (S (S fuel)) url s in
    fst r = Throw (rejection cfg2 o2) /\
    sent (snd r) = (sent s ++ [cfg1; cfg2])%list /\
    world (snd r) = w2 /\
    getAuthTokens (snd r) = VUndefined /\
    isAuthenticated (snd r) = false /\
    (forall fuel',
        fst (refreshAccessToken send config fuel' (snd r))
        = Throw (Error "No refresh token available")).
Proof.
  intros World send config fuel url s o1 w1 o2 w2 cfg1 cfg2
         Htoken H1 H401 H2 Hrej Hnot r.
  destruct (axios_failed_refresh World send config fuel
              (request_config GET url VUndefined) s o1 w1 o2 w2
              eq_refl Htoken H1 H401 H2 Hrej Hnot) as (E & _).
  fold cfg1 cfg2 in E.
  assert (Er : r = (Throw (rejection cfg2 o2),
                    {| authTokens := VUndefined; world := w2;
                       sent := (sent s ++ [cfg1; cfg2])%list;
                       console := console s |})).
  { unfold r, get, bind. now rewrite E. }
  rewrite Er. repeat split.
Qed.

(** X13 on a scripted upstream: 401, then 400 to the refresh. *)
Lemma failed_refresh_signs_the_client_out_witness :
  let s : state Script :=
    client_with mockAuthTokens
      [respond 401 VNull; respond 400 (VObj [("error", VStr "invalid_grant")]);
       respond 200 (VArr [])] in
  let r := get send_scripted defaultConfig 2 (VStr "/accounts/") s in
  (exists e, fst r = Throw e) /\
  List.length (sent (snd r)) = 2%nat /\
  world (snd r) = [respond 200 (VArr [])] /\
  isAuthenticated (snd r) = false.
Proof.
  intros s r.
  destruct (failed_refresh_signs_the_client_out _ send_scripted defaultConfig 0
              (VStr "/accounts/") s
              (respond 401 VNull) _
              (respond 400 (VObj [("error", VStr "invalid_grant")])) _
              eq_refl eq_refl eq_refl eq_refl eq_refl eq_refl)
    as (Hfst & Hsent & Hworld & _ & Hauth & _).
  fold r in Hfst, Hsent, Hworld, Hauth. rewrite Hfst, Hsent, Hworld, Hauth.
  repeat split. eexists. reflexivity.
Defined.

(** X14. [get], [post], [put] and [delete] send one request with their
    method, address and body, and, when the answer is not a 401, end there:
    the body of an accepted answer is returned, and an answer with another
    status, or no answer at all, is thrown as the error axios built for it.
    The token set is left as it was. *)
Theorem verbs_return_the_body_or_surface_the_failure :
  forall (World : Type)
         (send : AxiosRequestConfig -> World -> (AxiosResponse + string) * World)
         (config : RobinhoodConfig) (fuel : nat) (m : method) (url body : value)
         (s : state World) (outcome : AxiosResponse + string) (w' : World),
    let request :=
      request_config m url
        (match m with POST | PUT => body | GET | DELETE => VUndefined end) in
    let cfg := authorize (authTokens s) request in
    let call :=
      match m with
      | GET => get send config (S fuel) url
      | POST => post send config (S fuel) url body
      | PUT => put send config (S fuel) url body
      | DELETE => delete send config (S fuel) url
      end in
    send cfg (world s) = (outcome, w') ->
    is_401 outcome = false ->
    call s
    = (match outcome with
       | inl response =>
           if validateStatus (status response) then Ok (data response)
           else Throw (rejection cfg outcome)
       | inr _ => Throw (rejection cfg outcome)
       end,
       after_request s cfg w') /\
    authTokens (snd (call s)) = authTokens s /\
    sent (snd (call s)) = (sent s ++ [cfg])%list.
Proof.
  intros World send config fuel m url body s outcome w' request cfg call Hsend Hnot.
  assert (E : axios send config (S fuel) request s
              = (match outcome with
                 | inl response =>
                     if validateStatus (status response) then Ok response
                     else Throw (rejection cfg outcome)
                 | inr _ => Throw (rejection cfg outcome)
                 end,
                 after_request s cfg w')).
  { destruct outcome as [response|msg].
    - destruct (validateStatus (status response)) eqn:Hok.
      + exact (axios_accepted World send config fuel request s response w' Hsend Hok).
      + apply (axios_surfaces World send config fuel request s (inl response) w' Hsend).
        * exact Hok.
        * now right.
    - apply (axios_surfaces World send config fuel request s (inr msg) w' Hsend).
      * reflexivity.
      * now right. }
  assert (Ecall : call s
                  = (match outcome with
                     | inl response =>
                         if validateStatus (status response) then Ok (data response)
                         else Throw (rejection cfg outcome)
                     | inr _ => Throw (rejection cfg outcome)
                     end,
                     after_request s cfg w')).
  { unfold call. destruct m; unfold get, post, put, delete, bind; fold request;
      rewrite E;
      (destruct outcome as [response|msg];
       [destruct (validateStatus (status response))|]; reflexivity). }
  rewrite Ecall. repeat split.
Qed.

(** X14 on a [put] answered 500 by a client that holds a refresh token. *)
Lemma verbs_return_the_body_or_surface_the_failure_witness :
  let s : state Script :=
    client_with mockAuthTokens [respond 500 (VStr "Internal Server Error");
                                respond 200 mockAuthTokens] in
  let r := put send_scripted defaultConfig 3 (VStr "/watchlists/Default/")
             (VObj [("name", VStr "Default")]) s in
  (exists e, fst r = Throw e) /\
  List.length (sent (snd r)) = 1%nat /\
  authTokens (snd r) = mockAuthTokens.
Proof.
  intros s r.
  destruct (verbs_return_the_body_or_surface_the_failure _ send_scripted defaultConfig 2
              PUT (VStr "/watchlists/Default/") (VObj [("name", VStr "Default")]) s
              (respond 500 (VStr "Internal Server Error")) _ eq_refl eq_refl)
    as (E & _).
  cbv beta iota zeta in E. fold r in E. rewrite E.
  repeat split. eexists. reflexivity.
Defined.


End TokenProperties.

Section WireProperties.

Import RobinhoodClient.

Variable World : Type.
Variable send : AxiosRequestConfig -> World -> (AxiosResponse + string) * World.
Variable config : RobinhoodConfig.

Lemma grown_refl (P : AxiosRequestConfig -> Prop) (s : state World) : grown P s s.
Proof. exists []. split; [now rewrite List.app_nil_r|constructor]. Qed.

Lemma grown_trans (P : AxiosRequestConfig -> Prop) (s s1 s2 : state World) :
  grown P s s1 -> grown P s1 s2 -> grown P s s2.
Proof.
  intros (l1 & E1 & H1) (l2 & E2 & H2). exists (l1 ++ l2)%list. split.
  - now rewrite E2, E1, List.app_assoc.
  - apply Forall_app. now split.
Qed.

Lemma grown_weaken (P Q : AxiosRequestConfig -> Prop) (s s' : state World) :
  (forall c, P c -> Q c) -> grown P s s' -> grown Q s s'.
Proof.
  intros HPQ (l & E & H). exists l. split; [exact E|].
  eapply Forall_impl; [exact HPQ|exact H].
Qed.

Lemma grown_same_sent (P : AxiosRequestConfig -> Prop) (s s' : state World) :
  sent s' = sent s -> grown P s s'.
Proof. intros E. exists []. split; [now rewrite List.app_nil_r|constructor]. Qed.

Lemma grown_one (P : AxiosRequestConfig -> Prop) (s : state World)
    (cfg : AxiosRequestConfig) (w : World) :
  P cfg -> grown P s (after_request s cfg w).
Proof. intros H. exists [cfg]. split; [reflexivity|now constructor]. Qed.

Lemma same_request_authorize (tokens : value) (cfg : AxiosRequestConfig) :
  same_request cfg (authorize tokens cfg).
Proof.
  unfold authorize. destruct (truthy (opt_prop "accessToken" tokens)); repeat split.
Qed.

Lemma refresh_request_is_one (tokens : value) (c : AxiosRequestConfig) :
  same_request (refresh_request config tokens) c -> is_refresh_request c = true.
Proof.
  intros (Hm & Hu & _). unfold is_refresh_request. now rewrite Hm, Hu.
Qed.

Lemma refreshAccessToken_with_grown
    (ax : AxiosRequestConfig -> M (state World) AxiosResponse) (s : state World) :
  (forall cfg s0, grown (own_or_refresh cfg) s0 (snd (ax cfg s0))) ->
  grown (fun c => is_refresh_request c = true) s
    (snd (refreshAccessToken_with World config ax s)).
Proof.
  intros Hax. unfold refreshAccessToken_with, bind, gets.
  destruct (truthy (opt_prop "refreshToken" (authTokens s))); cbn [negb];
    [|apply grown_refl].
  pose proof (Hax (refresh_request config (authTokens s)) s) as H.
  destruct (ax (refresh_request config (authTokens s)) s) as [[response|e|] s1];
    cbn [snd] in *;
    (eapply grown_weaken; [|exact H]);
    intros c [Hc|Hc]; try exact Hc; eapply refresh_request_is_one; exact Hc.
Qed.

Lemma response_rejected_grown
    (ax : AxiosRequestConfig -> M (state World) AxiosResponse)
    (cfg : AxiosRequestConfig) (outcome : AxiosResponse + string) (s : state World) :
  (forall cfg0 s0, grown (own_or_refresh cfg0) s0 (snd (ax cfg0 s0))) ->
  grown (own_or_refresh cfg) s
    (snd (response_rejected World config ax (rejection cfg outcome) s)).
Proof.
  intros Hax.
  assert (Hshape : exists msg response,
             rejection cfg outcome = AxiosError msg cfg response)
    by (destruct outcome; eexists _, _; reflexivity).
  destruct Hshape as (msg & response & ->).
  unfold response_rejected.
  destruct (_ && negb (_retry cfg)); [|apply grown_refl].
  unfold bind at 1, gets.
  destruct (truthy (opt_prop "refreshToken" (authTokens s))); [|apply grown_refl].
  unfold bind at 1, try_catch, bind at 1.
  pose proof (refreshAccessToken_with_grown ax s Hax) as Hrefresh.
  destruct (refreshAccessToken_with World config ax s) as [[tokens|e|] s1];
    cbn [snd] in Hrefresh.
  - unfold ret at 1.
    eapply grown_trans.
    + eapply grown_weaken; [|exact Hrefresh]. intros c Hc. now right.
    + eapply grown_weaken; [|exact (Hax (mark_retry cfg) s1)].
      intros c [Hc|Hc]; [left|now right]. exact Hc.
  - unfold bind, set_authTokens, modify, throw. cbn [snd].
    eapply grown_trans.
    + eapply grown_weaken; [|exact Hrefresh]. intros c Hc. now right.
    + now apply grown_same_sent.
  - cbn [snd]. eapply grown_weaken; [|exact Hrefresh]. intros c Hc. now right.
Qed.

Lemma axios_grown (fuel : nat) :
  forall (cfg : AxiosRequestConfig) (s : state World),
    grown (own_or_refresh cfg) s (snd (axios send config fuel cfg s)).
Proof.
  induction fuel as [|fuel IH]; intros cfg s; [apply grown_refl|].
  cbn [axios]. unfold bind at 1, request_interceptor, bind at 1, gets, ret at 1.
  unfold bind at 1, dispatch.
  destruct (send (authorize (authTokens s) cfg) (world s)) as [outcome w] eqn:Hsend.
  assert (Hfirst : grown (own_or_refresh cfg) s
                     (after_request s (authorize (authTokens s) cfg) w)).
  { apply grown_one. left. apply same_request_authorize. }
  assert (Hrejected :
    grown (own_or_refresh cfg) s
      (snd (response_rejected World config (axios send config fuel)
              (rejection (authorize (authTokens s) cfg) outcome)
              (after_request s (authorize (authTokens s) cfg) w)))).
  { eapply grown_trans; [exact Hfirst|].
    eapply grown_weaken;
      [|exact (response_rejected_grown (axios send config fuel)
                 (authorize (authTokens s) cfg) outcome _ IH)].
    intros c [(Hm & Hu & Hd)|Hc]; [left|now right].
    destruct (same_request_authorize (authTokens s) cfg) as (Hm' & Hu' & Hd').
    repeat split; congruence. }
  destruct outcome as [response|msg].
  - destruct (validateStatus (status response)); [exact Hfirst|exact Hrejected].
  - exact Hrejected.
Qed.

Lemma get_grown (fuel : nat) (url : value) (s : state World) :
  grown get_or_refresh s (snd (get send config fuel url s)).
Proof.
  unfold get, bind.
  pose proof (axios_grown fuel (request_config GET url VUndefined) s) as H.
  destruct (axios send config fuel (request_config GET url VUndefined) s)
    as [[response|e|] s1]; cbn [snd] in *;
    (eapply grown_weaken; [|exact H]);
    (intros c [(Hm & _)|Hc]; [left|now right]);
    unfold is_get; now rewrite Hm.
Qed.

Lemma paginate_loop_grown (fuel turns : nat) :
  forall (results : list value) (url : value) (s : state World),
    grown get_or_refresh s
      (snd (paginate_loop send config fuel turns results url s)).
Proof.
  induction turns as [|turns IH]; intros results url s.
  - cbn [paginate_loop]. destruct (truthy url); apply grown_refl.
  - cbn [paginate_loop]. destruct (truthy url); [|apply grown_refl].
    unfold bind at 1.
    pose proof (get_grown fuel url s) as Hget.
    destruct (get send config fuel url s) as [[response|e|] s1];
      cbn [snd] in Hget; try exact Hget.
    unfold bind at 1, push_page.
    destruct (page_items response) as [e|xs]; [exact Hget|].
    unfold ret at 1.
    eapply grown_trans; [exact Hget|apply IH].
Qed.

End WireProperties.

(** X15. Whatever the upstream answers and however the recoveries go, a
    request sent through the client puts on the wire only that request
    (with its method, address and body; the interceptors change the
    [Authorization] header and the retry mark only) and token refreshes.
    This holds for the instance itself and for [get], [post], [put] and
    [delete]. *)
Theorem interceptors_send_the_request_or_a_refresh :
  forall (World : Type)
         (send : AxiosRequestConfig -> World -> (AxiosResponse + string) * World)
         (config : RobinhoodConfig) (fuel : nat) (m : method) (url body : value)
         (cfg : AxiosRequestConfig) (s : state World),
    let request :=
      RobinhoodClient.request_config m url
        (match m with POST | PUT => body | GET | DELETE => VUndefined end) in
    let call :=
      match m with
      | GET => RobinhoodClient.get send config fuel url
      | POST => RobinhoodClient.post send config fuel url body
      | PUT => RobinhoodClient.put send config fuel url body
      | DELETE => RobinhoodClient.delete send config fuel url
      end in
    RobinhoodClient.grown (RobinhoodClient.own_or_refresh cfg) s
      (snd (RobinhoodClient.axios send config fuel cfg s)) /\
    RobinhoodClient.grown (RobinhoodClient.own_or_refresh request) s (snd (call s)) /\
    (forall c, In c (sent (snd (call s))) ->
       In c (sent s) \/
       (cfg_method c = m /\ cfg_url c = url) \/
       (cfg_method c = POST /\ cfg_url c = VStr "/oauth/token/")).
Proof.
  intros World send config fuel m url body cfg s request call.
  split; [exact (axios_grown World send config fuel cfg s)|].
  pose proof (axios_grown World send config fuel request s) as H.
  assert (E : snd (call s) = snd (RobinhoodClient.axios send config fuel request s)).
  { unfold call.
    destruct m;
      unfold RobinhoodClient.get, RobinhoodClient.post, RobinhoodClient.put,
        RobinhoodClient.delete, bind;
      fold request;
      destruct (RobinhoodClient.axios send config fuel request s) as [[response|e|] s1];
      reflexivity. }
  rewrite E. split; [exact H|].
  destruct H as (l & Hsent & Hl). intros c Hc. rewrite Hsent in Hc.
  apply in_app_or in Hc. destruct Hc as [Hc|Hc]; [now left|right].
  rewrite Forall_forall in Hl. destruct (Hl c Hc) as [(Hm & Hu & _)|Hr].
  - left. split; [exact Hm|exact Hu].
  - right. unfold RobinhoodClient.is_refresh_request in Hr.
    destruct (cfg_method c); try discriminate Hr.
    destruct (cfg_url c) as [| | | |u| | |]; try discriminate Hr.
    apply String.eqb_eq in Hr. now subst u.
Qed.

(** X16. Reading is read-only on the wire: whatever the upstream answers,
    [get] and [paginate] send nothing but GET requests and token refreshes
    (POST /oauth/token/). *)
Theorem reads_send_gets_and_refreshes_only :
  forall (World : Type)
         (send : AxiosRequestConfig -> World -> (AxiosResponse + string) * World)
         (config : RobinhoodConfig) (fuel : nat) (url : value) (first_page : string)
         (s : state World),
    let sent_by {A} (call : M (state World) A) := sent (snd (call s)) in
    let read_only (c : AxiosRequestConfig) :=
      cfg_method c = GET \/
      (cfg_method c = POST /\ cfg_url c = VStr "/oauth/token/") in
    RobinhoodClient.grown RobinhoodClient.get_or_refresh s
      (snd (RobinhoodClient.get send config fuel url s)) /\
    RobinhoodClient.grown RobinhoodClient.get_or_refresh s
      (snd (RobinhoodClient.paginate send config fuel first_page s)) /\
    (forall c, In c (sent_by (RobinhoodClient.get send config fuel url)) ->
       In c (sent s) \/ read_only c) /\
    (forall c, In c (sent_by (RobinhoodClient.paginate send config fuel first_page)) ->
       In c (sent s) \/ read_only c).
Proof.
  intros World send config fuel url first_page s sent_by read_only.
  assert (Hread : forall c, RobinhoodClient.get_or_refresh c -> read_only c).
  { intros c [Hg|Hr]; [left|right].
    - unfold RobinhoodClient.is_get in Hg. now destruct (cfg_method c).
    - unfold RobinhoodClient.is_refresh_request in Hr.
      destruct (cfg_method c); try discriminate Hr.
      destruct (cfg_url c) as [| | | |u| | |]; try discriminate Hr.
      apply String.eqb_eq in Hr. now subst u. }
  assert (Hin : forall s', RobinhoodClient.grown RobinhoodClient.get_or_refresh s s' ->
                  forall c, In c (sent s') -> In c (sent s) \/ read_only c).
  { intros s' (l & Hsent & Hl) c Hc. rewrite Hsent in Hc.
    apply in_app_or in Hc. destruct Hc as [Hc|Hc]; [now left|right].
    rewrite Forall_forall in Hl. exact (Hread c (Hl c Hc)). }
  pose proof (get_grown World send config fuel url s) as Hget.
  pose proof (paginate_loop_grown World send config fuel fuel [] (VStr first_page) s)
    as Hpaginate.
  split; [exact Hget|]. split; [exact Hpaginate|].
  split; [exact (Hin _ Hget)|exact (Hin _ Hpaginate)].
Qed.


Section PaginateFailures.

Import RobinhoodClient.

Section MorePaginateProperties.

Import RobinhoodClient.

Variable World : Type.
Variable send : AxiosRequestConfig -> World -> (AxiosResponse + string) * World.
Variable config : RobinhoodConfig.

(** The loop of [paginate] over pages that are served until one request is
    refused: the refusal is thrown, and what was gathered is lost. *)
Lemma paginate_loop_refused (tokens : value) (w : World) (url : value)
    (bodies : list value) (cfg : AxiosRequestConfig)
    (outcome : AxiosResponse + string) (w' : World) :
  Refused send tokens w url bodies cfg outcome w' ->
  Forall (fun body => exists xs, page_items body = inr xs) bodies ->
  forall (fuel turns : nat) (results : list value) (s : state World),
    authTokens s = tokens ->
    world s = w ->
    List.length bodies < turns ->
    paginate_loop send config (S fuel) turns results url s
    = (Throw (rejection cfg outcome),
       {| authTokens := tokens; world := w';
          sent := (sent s ++
                   map (fun u => authorize tokens (request_config GET u VUndefined))
                     (requested_urls url bodies) ++ [cfg])%list;
          console := console s |}).
Proof.
  induction 1 as [w url outcome w' Hurl Hsend Hrej Hnot
                 |w url st body w1 bodies cfg outcome w' Hurl Hsend Hok Hnext HR IH];
    intros Hitems fuel turns results s Htok Hw Hlen.
  - destruct turns as [|turns]; [cbn in Hlen; lia|].
    cbn [paginate_loop]. rewrite Hurl. unfold bind at 1, get, bind at 1.
    subst tokens w.
    rewrite (axios_surfaces World send config fuel _ s outcome w' Hsend Hrej);
      [|now right].
    reflexivity.
  - inversion Hitems as [|b bs [xs Hxs] Hrest]; subst b bs.
    destruct turns as [|turns]; [cbn in Hlen; lia|].
    cbn [paginate_loop]. rewrite Hurl. unfold bind at 1.
    subst tokens w.
    rewrite (get_accepted World send config fuel url s st body w1 Hsend Hok).
    unfold bind at 1, push_page. rewrite Hxs. unfold ret at 1.
    unfold or_value. rewrite Hnext.
    rewrite (IH Hrest fuel turns (results ++ xs)%list
               (after_request s (authorize (authTokens s) (request_config GET url VUndefined)) w1)
               eq_refl eq_refl); [|cbn in Hlen; lia].
    cbn [after_request sent console requested_urls map].
    now rewrite <- !List.app_assoc.
Qed.

End MorePaginateProperties.

(** X17. [paginate] fails as a whole: when the pages are served one after
    the other and the request for a further page fails (with anything but a
    401), [paginate] throws the error of that request; the items of the
    pages already fetched are not returned.  One request went out per page
    served, and the failed one last. *)
Theorem paginate_fails_as_a_whole :
  forall (World : Type)
         (send : AxiosRequestConfig -> World -> (AxiosResponse + string) * World)
         (config : RobinhoodConfig) (fuel : nat) (url : string) (s : state World)
         (bodies : list value) (cfg : AxiosRequestConfig)
         (outcome : AxiosResponse + string) (w' : World),
    Refused send (authTokens s) (world s) (VStr url) bodies cfg outcome w' ->
    Forall (fun body => exists xs, page_items body = inr xs) bodies ->
    List.length bodies < fuel ->
    let r := paginate send config fuel url s in
    fst r = Throw (rejection cfg outcome) /\
    List.length (sent (snd r)) = (List.length (sent s) + List.length bodies + 1)%nat /\
    last (sent (snd r)) cfg = cfg /\
    world (snd r) = w' /\
    authTokens (snd r) = authTokens s.
Proof.
  intros World send config fuel url s bodies cfg outcome w' Hrefused Hitems Hlen r.
  destruct fuel as [|fuel]; [lia|].
  pose proof (paginate_loop_refused World send config _ _ _ _ _ _ _ Hrefused Hitems
                fuel (S fuel) [] s eq_refl eq_refl Hlen) as E.
  unfold r, paginate. rewrite E. cbn [fst snd sent world authTokens].
  repeat split.
  - rewrite !length_app, length_map, requested_urls_length. cbn. lia.
  - now rewrite List.app_assoc, last_last.
Qed.

(** X17 on a scripted upstream: one page, then a 500. *)
Lemma paginate_fails_as_a_whole_witness :
  let s : state Script :=
    client_with mockAuthTokens
      [respond 200 (VObj [("results", VArr [VNum 1; VNum 2]); ("next", VStr "/positions/?page=2")]);
       respond 500 VNull] in
  let r := paginate send_scripted defaultConfig 5 "/positions/" s in
  (exists e, fst r = Throw e) /\
  List.length (sent (snd r)) = 2%nat.
Proof.
  intros s r.
  destruct (paginate_fails_as_a_whole _ send_scripted defaultConfig 5 "/positions/" s
              [VObj [("results", VArr [VNum 1; VNum 2]); ("next", VStr "/positions/?page=2")]]
              (authorize mockAuthTokens
                 (request_config GET (VStr "/positions/?page=2") VUndefined))
              (respond 500 VNull) [])
    as (Hfst & Hlen & _).
  - eapply Refused_later; [reflexivity|reflexivity|reflexivity|reflexivity|].
    apply Refused_now; reflexivity.
  - repeat constructor. eexists. reflexivity.
  - cbn. lia.
  - fold r in Hfst, Hlen. rewrite Hfst, Hlen. split; [eexists|]; reflexivity.
Defined.

Section EndlessPages.

Import RobinhoodClient.

Variable World : Type.
Variable send : AxiosRequestConfig -> World -> (AxiosResponse + string) * World.
Variable config : RobinhoodConfig.

Hypothesis always_a_next_page :
  forall (cfg : AxiosRequestConfig) (w : World),
    exists (st : Z) (body : value) (w' : World),
      send cfg w = (inl {| status := st; data := body |}, w') /\
      validateStatus st = true /\
      truthy (prop "next" body) = true /\
      exists xs, page_items body = inr xs.

Lemma paginate_loop_endless (fuel turns : nat) :
  forall (results : list value) (url : value) (s : state World),
    truthy url = true ->
    fst (paginate_loop send config (S fuel) turns results url s) = OutOfFuel /\
    List.length (sent (snd (paginate_loop send config (S fuel) turns results url s)))
    = (List.length (sent s) + turns)%nat.
Proof.
  induction turns as [|turns IH]; intros results url s Hurl.
  - cbn [paginate_loop]. rewrite Hurl. cbn. split; [reflexivity|lia].
  - destruct (always_a_next_page
                (authorize (authTokens s) (request_config GET url VUndefined)) (world s))
      as (st & body & w' & Hsend & Hok & Hnext & xs & Hxs).
    assert (E : paginate_loop send config (S fuel) (S turns) results url s
                = paginate_loop send config (S fuel) turns (results ++ xs)%list
                    (prop "next" body)
                    (after_request s
                       (authorize (authTokens s) (request_config GET url VUndefined)) w')).
    { cbn [paginate_loop]. rewrite Hurl. unfold bind at 1.
      rewrite (get_accepted World send config fuel url s st body w' Hsend Hok).
      unfold bind at 1, push_page. rewrite Hxs. unfold ret at 1.
      unfold or_value. now rewrite Hnext. }
    rewrite E.
    destruct (IH (results ++ xs)%list (prop "next" body)
                (after_request s (authorize (authTokens s) (request_config GET url VUndefined)) w')
                Hnext) as (E1 & E2).
    split; [exact E1|]. rewrite E2. cbn [after_request sent].
    rewrite length_app. cbn. lia.
Qed.

End EndlessPages.

(** X18. [paginate] follows [next] for as long as there is one: against an
    upstream that gives every page a [next] (a last page that names itself,
    for instance) it never returns, and sends one more request at every
    turn.  There is no bound on the number of pages and no check that an
    address was already fetched. *)
Theorem paginate_follows_next_without_end :
  forall (World : Type)
         (send : AxiosRequestConfig -> World -> (AxiosResponse + string) * World)
         (config : RobinhoodConfig),
    (forall (cfg : AxiosRequestConfig) (w : World),
        exists (st : Z) (body : value) (w' : World),
          send cfg w = (inl {| status := st; data := body |}, w') /\
          validateStatus st = true /\
          truthy (prop "next" body) = true /\
          exists xs, page_items body = inr xs) ->
    forall (fuel : nat) (url : string) (s : state World),
      url <> "" ->
      fst (paginate send config fuel url s) = OutOfFuel /\
      List.length (sent (snd (paginate send config fuel url s)))
      = (List.length (sent s) + fuel)%nat.
Proof.
  intros World send config Hpages fuel url s Hurl.
  assert (Htruthy : truthy (VStr url) = true).
  { cbn. destruct (String.eqb_spec url ""); [contradiction|reflexivity]. }
  unfold paginate. destruct fuel as [|fuel].
  - cbn [paginate_loop]. rewrite Htruthy. cbn. split; [reflexivity|lia].
  - exact (paginate_loop_endless World send config Hpages fuel (S fuel) [] (VStr url) s
             Htruthy).
Qed.

(** X18 on an upstream whose page names its own address as the next. *)
Lemma paginate_follows_next_without_end_witness :
  let r := paginate (send_page endless_page) defaultConfig 25 "/positions/"
             (client_with mockAuthTokens tt) in
  fst r = OutOfFuel /\ List.length (sent (snd r)) = 25%nat.
Proof.
  apply (paginate_follows_next_without_end unit (send_page endless_page) defaultConfig).
  - intros cfg w. exists 200%Z, endless_page, tt. repeat split. eexists. reflexivity.
  - discriminate.
Defined.

End PaginateFailures.

(** ** The service *)

Section MoreServiceProperties.

Variable World : Type.
Variable api : RobinhoodAPI World.

Import RobinhoodService.

(** A [catch] that wraps what it caught lets nothing else out. *)
Lemma try_catch_standardized {A} (m : M (state World) A) (code message : string)
    (s : state World) :
  standardized_as [code]
    (fst (try_catch m
            (fun error => throw (createStandardizedError code message (Some error))) s)).
Proof.
  unfold try_catch. destruct (m s) as [[a|e|] s']; cbn; auto.
Qed.


Variable api_getInstrumentBySymbol : field -> M (state World) RobinhoodInstrument.


Lemma getWatchlists_loop_map (watchlists : list RobinhoodWatchlist) :
  forall acc : list value,
    getWatchlists_loop watchlists acc
    = (acc ++ map (fun watchlist => mapWatchlist watchlist []) watchlists)%list.
Proof.
  induction watchlists as [|watchlist rest IH]; intros acc; cbn.
  - now rewrite List.app_nil_r.
  - now rewrite IH, <- List.app_assoc.
Qed.

End MoreServiceProperties.

(** X19. Every exception let out by [authenticate], [refreshToken],
    [getPortfolio], [getPositions], [getPosition], [getAccounts],
    [getBalance], [getQuotes], [getTransactions], [getHistoricalData],
    [getWatchlists] or [getDividends] (all the asynchronous methods of the
    service but [getQuote]) is a standardized error of this integration
    ([source] "robinhood") whose code names the method: whatever the
    endpoint layer or the client throws inside is caught and wrapped.
    [authenticate] has two codes, MFA_REQUIRED and AUTH_FAILED. *)
Theorem service_throws_standardized_errors_only :
  forall (World : Type)
         (send : AxiosRequestConfig -> World -> (AxiosResponse + string) * World)
         (random_index : World -> nat * World) (config : RobinhoodConfig)
         (api : RobinhoodAPI World)
         (api_getInstrumentBySymbol : field -> M (state World) RobinhoodInstrument)
         (api_getQuotes : list string -> M (state World) (list RobinhoodQuote))
         (api_getHistoricals :
            string -> string -> string -> M (state World) RobinhoodHistoricals)
         (api_getWatchlists : M (state World) (list RobinhoodWatchlist))
         (fuel : nat) (credentials : RobinhoodCredentials)
         (symbol : string) (symbols : list string) (interval span : option string)
         (limit : option Z) (s : state World),
    let outcome {A} (call : M (state World) A) := fst (call s) in
    RobinhoodService.standardized_as ["MFA_REQUIRED"; "AUTH_FAILED"]
      (outcome (RobinhoodService.authenticate send random_index config fuel credentials)) /\
    RobinhoodService.standardized_as ["TOKEN_REFRESH_FAILED"]
      (outcome (RobinhoodService.refreshToken send config fuel)) /\
    RobinhoodService.standardized_as ["PORTFOLIO_FETCH_FAILED"]
      (outcome (RobinhoodService.getPortfolio api)) /\
    RobinhoodService.standardized_as ["POSITIONS_FETCH_FAILED"]
      (outcome (RobinhoodService.getPositions api)) /\
    RobinhoodService.standardized_as ["POSITION_FETCH_FAILED"]
      (outcome (RobinhoodService.getPosition api api_getInstrumentBySymbol symbol)) /\
    RobinhoodService.standardized_as ["ACCOUNTS_FETCH_FAILED"]
      (outcome (RobinhoodService.getAccounts api)) /\
    RobinhoodService.standardized_as ["BALANCE_FETCH_FAILED"]
      (outcome (RobinhoodService.getBalance api)) /\
    RobinhoodService.standardized_as ["QUOTES_FETCH_FAILED"]
      (outcome (RobinhoodService.getQuotes api_getInstrumentBySymbol api_getQuotes symbols)) /\
    RobinhoodService.standardized_as ["TRANSACTIONS_FETCH_FAILED"]
      (outcome (RobinhoodService.getTransactions api limit)) /\
    RobinhoodService.standardized_as ["HISTORICAL_DATA_FETCH_FAILED"]
      (outcome (RobinhoodService.getHistoricalData api_getHistoricals symbol interval span)) /\
    RobinhoodService.standardized_as ["WATCHLISTS_FETCH_FAILED"]
      (outcome (RobinhoodService.getWatchlists api_getWatchlists)) /\
    RobinhoodService.standardized_as ["DIVIDENDS_FETCH_FAILED"]
      (outcome (RobinhoodService.getDividends api)).
Proof.
  intros. subst outcome. cbv beta.
  split.
  { unfold RobinhoodService.authenticate, try_catch.
    destruct (bind _ _ s) as [[a|e|] s']; cbn; auto.
    destruct (String.eqb (exn_message e) "MFA_REQUIRED"); cbn; auto. }
  repeat split; apply try_catch_standardized.
Qed.

(** X20. [getPortfolio] and [getBalance] read the first account and no
    other.  Without any account both throw their standardized error, carrying
    "No accounts found", and nothing more is fetched.  With accounts, the
    balance is the first account's, and the portfolio is built from the
    first account, the portfolio fetched under its number and the positions
    [getPositions] returns; when [getPositions] throws, its error, itself a
    POSITIONS_FETCH_FAILED, is wrapped in a PORTFOLIO_FETCH_FAILED. *)
Theorem portfolio_and_balance_use_the_first_account :
  forall (World : Type) (api : RobinhoodAPI World) (s : state World)
         (accounts : list RobinhoodAccount) (s1 : state World),
    api_getAccounts api s = (Ok accounts, s1) ->
    (accounts = [] ->
     RobinhoodService.getPortfolio api s
     = (Throw (StandardizedError "PORTFOLIO_FETCH_FAILED" "Failed to fetch portfolio"
                 (Some (Error "No accounts found")) DateNow "robinhood"), s1) /\
     RobinhoodService.getBalance api s
     = (Throw (StandardizedError "BALANCE_FETCH_FAILED" "Failed to fetch balance"
                 (Some (Error "No accounts found")) DateNow "robinhood"), s1)) /\
    (forall (account : RobinhoodAccount) (others : list RobinhoodAccount),
        accounts = account :: others ->
        RobinhoodService.getBalance api s = (Ok (mapBalance account), s1) /\
        (forall (portfolio : RobinhoodPortfolio) (s2 : state World)
                (positions : list value) (s3 : state World),
            api_getPortfolio api (acc_accountNumber account) s1 = (Ok portfolio, s2) ->
            RobinhoodService.getPositions api s2 = (Ok positions, s3) ->
            RobinhoodService.getPortfolio api s
            = (Ok (mapPortfolio account portfolio positions), s3)) /\
        (forall (portfolio : RobinhoodPortfolio) (s2 : state World)
                (error : exn) (s3 : state World),
            api_getPortfolio api (acc_accountNumber account) s1 = (Ok portfolio, s2) ->
            RobinhoodService.getPositions api s2 = (Throw error, s3) ->
            RobinhoodService.getPortfolio api s
            = (Throw (StandardizedError "PORTFOLIO_FETCH_FAILED"
                        "Failed to fetch portfolio" (Some error) DateNow "robinhood"),
               s3) /\
            exists cause,
              error = StandardizedError "POSITIONS_FETCH_FAILED"
                        "Failed to fetch positions" (Some cause) DateNow "robinhood")).
Proof.
  intros World api s accounts s1 Haccounts. split.
  - intros ->. split.
    + unfold RobinhoodService.getPortfolio, try_catch, bind. now rewrite Haccounts.
    + unfold RobinhoodService.getBalance, try_catch, bind. now rewrite Haccounts.
  - intros account others ->. split; [|split].
    + unfold RobinhoodService.getBalance, try_catch, bind. now rewrite Haccounts.
    + intros portfolio s2 positions s3 Hportfolio Hpositions.
      unfold RobinhoodService.getPortfolio, try_catch, bind.
      now rewrite Haccounts, Hportfolio, Hpositions.
    + intros portfolio s2 error s3 Hportfolio Hpositions. split.
      * unfold RobinhoodService.getPortfolio, try_catch, bind.
        now rewrite Haccounts, Hportfolio, Hpositions.
      * unfold RobinhoodService.getPositions, try_catch in Hpositions.
        destruct (bind _ _ s2) as [[a|e|] s'];
          try discriminate Hpositions.
        injection Hpositions as <- _. now exists e.
Qed.

(** X20 without an account, and with two. *)
Lemma portfolio_and_balance_use_the_first_account_witness :
  let s : state ApiScript :=
    client_with VUndefined {| instrument_answers := []; quote_answers := [] |} in
  let second := {| acc_url := None; acc_buyingPower := Some "1.00";
                   acc_cashBalances := None; acc_accountNumber := Some "OTHER";
                   acc_type := Some "cash"; acc_created := None;
                   acc_updated := None |} in
  let api (accounts : list RobinhoodAccount) : RobinhoodAPI ApiScript :=
    {| api_getAccounts := ret accounts;
       api_getPortfolio := fun _ => ret mockPortfolio;
       api_getPositions := fun _ => ret [];
       api_getInstrumentFromUrl := next_instrument;
       api_getQuote := next_quote;
       api_getOrders := fun _ => ret [];
       api_getDividends := ret [] |} in
  fst (RobinhoodService.getBalance (api []) s)
  = Throw (StandardizedError "BALANCE_FETCH_FAILED" "Failed to fetch balance"
             (Some (Error "No accounts found")) DateNow "robinhood") /\
  fst (RobinhoodService.getBalance (api [mockAccount; second]) s)
  = Ok (mapBalance mockAccount) /\
  fst (RobinhoodService.getPortfolio (api [mockAccount; second]) s)
  = Ok (mapPortfolio mockAccount mockPortfolio []).
Proof.
  intros s second api.
  destruct (portfolio_and_balance_use_the_first_account ApiScript (api []) s [] s
              eq_refl) as (Hnone & _).
  destruct (Hnone eq_refl) as (_ & Hbalance).
  destruct (portfolio_and_balance_use_the_first_account ApiScript
              (api [mockAccount; second]) s [mockAccount; second] s eq_refl)
    as (_ & Hfirst).
  destruct (Hfirst mockAccount [second] eq_refl) as (Hbalance' & Hportfolio & _).
  rewrite Hbalance, Hbalance'.
  rewrite (Hportfolio mockPortfolio s [] s eq_refl eq_refl).
  repeat split.
Defined.





(** X26. The limit of [getTransactions] at its edges: a limit of 0 gives no
    transaction at all and no instrument lookup (it does not mean "no
    limit"); a negative limit [-k] counts from the end, as [slice] does: the
    last [k] orders are left out, and nothing is returned when there are no
    more than [k] orders. *)
Theorem getTransactions_limit_edges :
  forall (World : Type) (api : RobinhoodAPI World) (s : state World)
         (orders : list RobinhoodOrder) (s1 : state World),
    api_getOrders api None s = (Ok orders, s1) ->
    RobinhoodService.getTransactions api (Some 0%Z) s = (Ok [], s1) /\
    (forall k : nat,
        List.length orders <= k ->
        0 < k ->
        RobinhoodService.getTransactions api (Some (- Z.of_nat k)%Z) s = (Ok [], s1)) /\
    (forall (k : nat) (instruments : list (option RobinhoodInstrument))
            (s' : state World),
        0 < k ->
        let taken := firstn (List.length orders - k) orders in
        RobinhoodService.Resolved api s1 taken instruments s' ->
        RobinhoodService.getTransactions api (Some (- Z.of_nat k)%Z) s
        = (Ok (RobinhoodService.transactions_of taken instruments), s') /\
        List.length (RobinhoodService.transactions_of taken instruments)
        = (List.length orders - k)%nat).
Proof.
  intros World api s orders s1 Horders.
  assert (Hslice : forall k : nat, 0 < k ->
            RobinhoodService.slice0 orders (- Z.of_nat k)
            = firstn (List.length orders - k) orders).
  { intros k Hk. unfold RobinhoodService.slice0.
    destruct (Z.ltb_spec (- Z.of_nat k) 0); [|lia].
    f_equal. lia. }
  split; [|split].
  - unfold RobinhoodService.getTransactions, try_catch, bind. rewrite Horders.
    reflexivity.
  - intros k Hlen Hk.
    unfold RobinhoodService.getTransactions, try_catch, bind. rewrite Horders.
    rewrite (Hslice k Hk).
    replace (List.length orders - k)%nat with 0%nat by lia. reflexivity.
  - intros k instruments s' Hk taken Hlookups. split.
    + unfold RobinhoodService.getTransactions, try_catch, bind. rewrite Horders.
      rewrite (Hslice k Hk). fold taken.
      now rewrite (getTransactions_loop_resolved World api s1 taken instruments s'
                     Hlookups []).
    + rewrite (proj2 (Resolved_length World api _ _ _ _ Hlookups)).
      unfold taken. rewrite length_firstn. lia.
Qed.

(** X26 on three orders, with the limits 0 and -1. *)
Lemma getTransactions_limit_edges_witness :
  let s : state ApiScript :=
    client_with VUndefined
      {| instrument_answers := [inr mockInstrument; inr mockInstrument];
         quote_answers := [] |} in
  let api := mockApi [] [mockOrder; mockOrder; mockOrder] in
  RobinhoodService.getTransactions api (Some 0%Z) s = (Ok [], s) /\
  fst (RobinhoodService.getTransactions api (Some (-1)%Z) s)
  = Ok [mapTransaction mockOrder (Some mockInstrument);
        mapTransaction mockOrder (Some mockInstrument)].
Proof.
  intros s api.
  destruct (getTransactions_limit_edges ApiScript api s
              [mockOrder; mockOrder; mockOrder] s eq_refl) as (Hzero & _ & Hnegative).
  split; [exact Hzero|].
  edestruct (Hnegative 1%nat) as (E & _).
  - lia.
  - eapply RobinhoodService.Resolved_found; [reflexivity|].
    eapply RobinhoodService.Resolved_found; [reflexivity|].
    apply RobinhoodService.Resolved_done.
  - change (- Z.of_nat 1)%Z with (-1)%Z in E. rewrite E. reflexivity.
Defined.

(** X23. [getWatchlists] returns one record per upstream watchlist, in
    upstream order and without any further request, and the [symbols] of
    every one of them are empty: the instruments of a watchlist are never
    fetched. *)
Theorem getWatchlists_returns_no_symbols :
  forall (World : Type)
         (api_getWatchlists : M (state World) (list RobinhoodWatchlist))
         (s : state World) (watchlists : list RobinhoodWatchlist) (s1 : state World),
    api_getWatchlists s = (Ok watchlists, s1) ->
    let records := map (fun watchlist => mapWatchlist watchlist []) watchlists in
    RobinhoodService.getWatchlists api_getWatchlists s = (Ok records, s1) /\
    List.length records = List.length watchlists /\
    Forall2 (fun watchlist record =>
               prop "name" record = str (wl_name watchlist) /\
               prop "id" record = str (wl_url watchlist) /\
               prop "symbols" record = VArr [])
      watchlists records.
Proof.
  intros World api_getWatchlists s watchlists s1 Hfetch records.
  split; [|split].
  - unfold RobinhoodService.getWatchlists, try_catch, bind. rewrite Hfetch.
    unfold ret. now rewrite getWatchlists_loop_map.
  - apply length_map.
  - unfold records. clear Hfetch.
    induction watchlists as [|watchlist rest IH]; constructor;
      [repeat split|exact IH].
Qed.

(** X23 on the watchlist of the test suite. *)
Lemma getWatchlists_returns_no_symbols_witness :
  let s : state unit := client_with VUndefined tt in
  RobinhoodService.getWatchlists (ret [mockWatchlist]) s
  = (Ok [mapWatchlist mockWatchlist []], s) /\
  prop "symbols" (mapWatchlist mockWatchlist []) = VArr [].
Proof.
  intros s.
  destruct (getWatchlists_returns_no_symbols unit (ret [mockWatchlist]) s
              [mockWatchlist] s eq_refl) as (E & _ & H).
  split; [exact E|].
  inversion H as [|w r ws rs (_ & _ & Hsymbols) _]; subst. exact Hsymbols.
Defined.

Lemma find_none_when {A} (p : A -> bool) (l : list A) :
  Forall (fun x => p x = false) l -> find p l = None.
Proof.
  induction 1 as [|x l Hx _ IH]; cbn; [reflexivity|]. now rewrite Hx.
Qed.

Lemma find_first {A} (p : A -> bool) (before : list A) (x : A) (after : list A) :
  Forall (fun y => p y = false) before -> p x = true ->
  find p (before ++ x :: after) = Some x.
Proof.
  induction 1 as [|y l Hy _ IH]; cbn; intros Hx; [now rewrite Hx|].
  rewrite Hy. now apply IH.
Qed.

(** X24. [getPosition(symbol)], once the positions and the instrument of the
    symbol are fetched: when no position is held in that instrument the
    result is [null], and no quote is asked for; otherwise the first
    position held in it is the one returned, mapped with the instrument and
    the quote of the symbol, and a failure of the quote is thrown as
    POSITION_FETCH_FAILED. *)
Theorem getPosition_finds_the_first_holding_or_null :
  forall (World : Type) (api : RobinhoodAPI World)
         (api_getInstrumentBySymbol : field -> M (state World) RobinhoodInstrument)
         (symbol : string) (s : state World)
         (positions : list RobinhoodPosition) (s1 : state World)
         (instrument : RobinhoodInstrument) (s2 : state World),
    let held (position : RobinhoodPosition) :=
      RobinhoodService.strict_eq_field (pos_instrument position) (ins_url instrument) in
    api_getPositions api true s = (Ok positions, s1) ->
    api_getInstrumentBySymbol (Some symbol) s1 = (Ok instrument, s2) ->
    (Forall (fun position => held position = false) positions ->
     RobinhoodService.getPosition api api_getInstrumentBySymbol symbol s
     = (Ok VNull, s2)) /\
    (forall (before : list RobinhoodPosition) (position : RobinhoodPosition)
            (after : list RobinhoodPosition),
        positions = (before ++ position :: after)%list ->
        Forall (fun earlier => held earlier = false) before ->
        held position = true ->
        (forall (quote : RobinhoodQuote) (s3 : state World),
            api_getQuote api (Some symbol) s2 = (Ok quote, s3) ->
            RobinhoodService.getPosition api api_getInstrumentBySymbol symbol s
            = (Ok (mapPosition position instrument (Some quote)), s3)) /\
        (forall (error : exn) (s3 : state World),
            api_getQuote api (Some symbol) s2 = (Throw error, s3) ->
            RobinhoodService.getPosition api api_getInstrumentBySymbol symbol s
            = (Throw (StandardizedError "POSITION_FETCH_FAILED"
                        ("Failed to fetch position for " ++ symbol) (Some error)
                        DateNow "robinhood"), s3))).
Proof.
  intros World api api_getInstrumentBySymbol symbol s positions s1 instrument s2
         held Hpositions Hinstrument.
  split.
  - intros Hnone.
    pose proof (find_none_when held positions Hnone) as Hfind.
    unfold RobinhoodService.getPosition, try_catch, bind.
    rewrite Hpositions, Hinstrument. fold held. now rewrite Hfind.
  - intros before position after -> Hbefore Hheld.
    pose proof (find_first held before position after Hbefore Hheld) as Hfind.
    split.
    + intros quote s3 Hquote.
      unfold RobinhoodService.getPosition, try_catch, bind.
      rewrite Hpositions, Hinstrument. fold held. rewrite Hfind.
      now rewrite Hquote.
    + intros error s3 Hquote.
      unfold RobinhoodService.getPosition, try_catch, bind.
      rewrite Hpositions, Hinstrument. fold held. rewrite Hfind.
      now rewrite Hquote.
Qed.

(** X24 on the mocks of the test suite: an instrument that is not held, and
    one held twice behind another one. *)
Lemma getPosition_finds_the_first_holding_or_null_witness :
  let s : state ApiScript :=
    client_with VUndefined
      {| instrument_answers := [inr mockInstrument];
         quote_answers := [inr mockQuote] |} in
  let other := {| pos_url := Some "https://api.robinhood.com/positions/TEST123456/INST999/";
                  pos_instrument := Some "https://api.robinhood.com/instruments/INST999/";
                  pos_averageBuyPrice := Some "1.00"; pos_quantity := Some "1.0000";
                  pos_updatedAt := None |} in
  RobinhoodService.getPosition (mockApi [other] []) next_instrument "AAPL" s
  = (Ok VNull,
     client_with VUndefined
       {| instrument_answers := []; quote_answers := [inr mockQuote] |}) /\
  fst (RobinhoodService.getPosition (mockApi [other; mockPosition; mockPosition] [])
         next_instrument "AAPL" s)
  = Ok (mapPosition mockPosition mockInstrument (Some mockQuote)).
Proof.
  intros s other.
  destruct (getPosition_finds_the_first_holding_or_null ApiScript
              (mockApi [other] []) next_instrument "AAPL" s [other] s mockInstrument
              (client_with VUndefined
                 {| instrument_answers := []; quote_answers := [inr mockQuote] |})
              eq_refl eq_refl) as (Hnull & _).
  destruct (getPosition_finds_the_first_holding_or_null ApiScript
              (mockApi [other; mockPosition; mockPosition] []) next_instrument "AAPL" s
              [other; mockPosition; mockPosition] s mockInstrument
              (client_with VUndefined
                 {| instrument_answers := []; quote_answers := [inr mockQuote] |})
              eq_refl eq_refl) as (_ & Hfound).
  destruct (Hfound [other] mockPosition [mockPosition] eq_refl
              ltac:(repeat constructor) eq_refl) as (Hquote & _).
  split.
  - apply Hnull. repeat constructor.
  - now rewrite (Hquote mockQuote
                   (client_with VUndefined
                      {| instrument_answers := []; quote_answers := [] |}) eq_refl).
Defined.

(** X25. [getPosition] over the endpoint layer's search by symbol: the
    search asks for /instruments/?symbol=<symbol> and takes the first
    result.  For a symbol the upstream does not know (no results, or an
    empty list) the search throws "Instrument not found for symbol:
    <symbol>", and [getPosition] throws POSITION_FETCH_FAILED carrying it: it
    answers [null] only for a known instrument that is not held. *)
Theorem getPosition_of_an_unknown_symbol_is_an_error :
  forall (World : Type) (api : RobinhoodAPI World)
         (get_instruments : string -> M (state World) (ApiResponse RobinhoodInstrument))
         (symbol : string) (s : state World)
         (positions : list RobinhoodPosition) (s1 : state World)
         (response : ApiResponse RobinhoodInstrument) (s2 : state World),
    let api_getInstrumentBySymbol (symbol : field) :=
      RobinhoodAPI.getInstrumentBySymbol get_instruments (ToString symbol) in
    api_getPositions api true s = (Ok positions, s1) ->
    get_instruments ("/instruments/?symbol=" ++ symbol) s1 = (Ok response, s2) ->
    (resp_results response = None \/ resp_results response = Some [] ->
     RobinhoodAPI.getInstrumentBySymbol get_instruments symbol s1
     = (Throw (Error ("Instrument not found for symbol: " ++ symbol)), s2) /\
     RobinhoodService.getPosition api api_getInstrumentBySymbol symbol s
     = (Throw (StandardizedError "POSITION_FETCH_FAILED"
                 ("Failed to fetch position for " ++ symbol)
                 (Some (Error ("Instrument not found for symbol: " ++ symbol)))
                 DateNow "robinhood"), s2)) /\
    (forall (first : RobinhoodInstrument) (others : list RobinhoodInstrument),
        resp_results response = Some (first :: others) ->
        RobinhoodAPI.getInstrumentBySymbol get_instruments symbol s1 = (Ok first, s2) /\
        (Forall (fun position =>
                   RobinhoodService.strict_eq_field (pos_instrument position)
                     (ins_url first) = false) positions ->
         RobinhoodService.getPosition api api_getInstrumentBySymbol symbol s
         = (Ok VNull, s2))).
Proof.
  intros World api get_instruments symbol s positions s1 response s2
         api_getInstrumentBySymbol Hpositions Hsearch.
  split.
  - intros Hnone.
    assert (E : RobinhoodAPI.getInstrumentBySymbol get_instruments symbol s1
                = (Throw (Error ("Instrument not found for symbol: " ++ symbol)), s2)).
    { unfold RobinhoodAPI.getInstrumentBySymbol, ENDPOINTS.INSTRUMENTS.BY_SYMBOL, bind.
      rewrite Hsearch. destruct Hnone as [-> | ->]; reflexivity. }
    split; [exact E|].
    unfold RobinhoodService.getPosition, try_catch, bind.
    rewrite Hpositions. unfold api_getInstrumentBySymbol. cbn [ToString].
    now rewrite E.
  - intros first others Hfirst.
    assert (E : RobinhoodAPI.getInstrumentBySymbol get_instruments symbol s1
                = (Ok first, s2)).
    { unfold RobinhoodAPI.getInstrumentBySymbol, ENDPOINTS.INSTRUMENTS.BY_SYMBOL, bind.
      rewrite Hsearch, Hfirst. reflexivity. }
    split; [exact E|].
    intros Hnone.
    unfold RobinhoodService.getPosition, try_catch, bind.
    rewrite Hpositions. unfold api_getInstrumentBySymbol. cbn [ToString].
    rewrite E.
    now rewrite (find_none_when
                   (fun position =>
                      RobinhoodService.strict_eq_field (pos_instrument position)
                        (ins_url first)) positions Hnone).
Qed.

(** X25 on a search that finds nothing. *)
Lemma getPosition_of_an_unknown_symbol_is_an_error_witness :
  let s : state ApiScript :=
    client_with VUndefined {| instrument_answers := []; quote_answers := [] |} in
  let nothing : ApiResponse RobinhoodInstrument :=
    {| resp_results := Some []; resp_next := None; resp_previous := None;
       resp_count := None |} in
  fst (RobinhoodService.getPosition (mockApi [mockPosition] [])
         (fun symbol =>
            RobinhoodAPI.getInstrumentBySymbol (fun _ => ret nothing) (ToString symbol))
         "INVALID" s)
  = Throw (StandardizedError "POSITION_FETCH_FAILED"
             "Failed to fetch position for INVALID"
             (Some (Error "Instrument not found for symbol: INVALID"))
             DateNow "robinhood").
Proof.
  intros s nothing.
  destruct (getPosition_of_an_unknown_symbol_is_an_error ApiScript
              (mockApi [mockPosition] []) (fun _ => ret nothing) "INVALID" s
              [mockPosition] s nothing s eq_refl eq_refl) as (Hnone & _).
  destruct (Hnone (or_intror eq_refl)) as (_ & E).
  now rewrite E.
Defined.
